(** * DHT_Hunter web bundler: a shallow embedding of the two generator scripts

    The repository holds two Python scripts that embed the static web
    assets of the program into C++ headers:

    - [bundle_web_files.py] writes one header, [web_bundle.hpp], that holds
      every asset and the lookup functions (combined mode);
    - [tools/web_bundler.py] writes one header per asset and an index header
      [web_bundle.hpp] that includes them (split mode).

    Both scripts are modelled here: the Python built-ins and library
    functions they call ([Py], [OsPath], [Os]), the C++ text they write and
    what that text declares ([Cxx]), and the scripts themselves
    ([BundleWebFiles], [WebBundler]).  [Spec] holds the definitions that follow
    the words of the specification, [Pure] the runs of the scripts as plain
    functions, and [Sample] the inputs of the examples.

    Conventions of the model.
    - A Python [str] is a [string]; one [ascii] stands for one code point,
      so the model covers paths made of the code points 0 to 255.
    - A Python [bytes] object is a [list byte].
    - An exception is a value [Raise e] of the [result] type.
    - Paths follow [posixpath]: the separator is [/].
    - A run starts in a [world]: the working directory, the file system
      below the asset root, the files written and the directories made so
      far, and the lines printed.  Opening a file in a directory that does
      not exist raises [FileNotFoundError]; the other failures of the file
      system (permissions, a full disk) are left out. *)

From Stdlib Require Import Strings.String Strings.Ascii Strings.Byte.
From Stdlib Require Import NArith ZArith List Lia.
From stdpp Require Import base option list gmap strings pretty.

Local Open Scope string_scope.
Local Open Scope list_scope.

(** ** Results and exceptions *)

Inductive result (E A : Type) : Type :=
| Ok (a : A)
| Raise (e : E).

Arguments Ok {E A} a.
Arguments Raise {E A} e.

#[global] Instance result_ret {E} : MRet (result E) := fun A a => Ok a.

#[global] Instance result_bind {E} : MBind (result E) := fun A B k r =>
  match r with
  | Ok a => k a
  | Raise e => Raise e
  end.

(** [for x in xs: acc = body(acc, x)], stopping at the first exception. *)
Fixpoint for_each {E A S : Type} (xs : list A) (body : S -> A -> result E S) (acc : S)
  : result E S :=
  match xs with
  | [] => Ok acc
  | x :: rest => acc' ← body acc x; for_each rest body acc'
  end.

(** The Python exceptions that the modelled code can raise. *)
Inductive exn : Type :=
| IndexError (msg : string)
| ValueError (msg : string)
| FileNotFoundError (path : string).

Abbreviation py := (result exn).

(** ** Python built-ins *)

Module Py.

Definition ord (c : ascii) : N := N_of_ascii c.

Definition between (lo hi : N) (c : ascii) : bool :=
  ((lo <=? ord c) && (ord c <=? hi))%N.

(** The character class [a-zA-Z0-9] of the [re] module. *)
Definition class_a_zA_Z0_9 (c : ascii) : bool :=
  between 97 122 c || between 65 90 c || between 48 57 c.

(** [re.sub(r'[^a-zA-Z0-9]', repl, s)] for a one-character [repl]: every
    character outside the class is a match of length one. *)
Fixpoint re_sub_not_alnum (repl : ascii) (s : string) : string :=
  match s with
  | EmptyString => EmptyString
  | String c rest =>
      String (if class_a_zA_Z0_9 c then c else repl) (re_sub_not_alnum repl rest)
  end.

(** [c.isdigit()] for one character.  Below code point 256 the digits of
    Unicode are [0]..[9] and the superscripts U+00B2, U+00B3 and U+00B9. *)
Definition char_isdigit (c : ascii) : bool :=
  between 48 57 c
  || (ord c =? 178)%N || (ord c =? 179)%N || (ord c =? 185)%N.

(** [s[0]]: raises [IndexError] on the empty string. *)
Definition index0 (s : string) : py ascii :=
  match s with
  | EmptyString => Raise (IndexError "string index out of range")
  | String c _ => Ok c
  end.

(** [c.lower()] for one character below code point 256: the upper-case
    letters are [A]..[Z] and U+00C0..U+00DE without U+00D7, and each has its
    lower-case form 32 code points above. *)
Definition char_lower (c : ascii) : ascii :=
  if between 65 90 c || (between 192 222 c && negb (ord c =? 215)%N)
  then ascii_of_N (ord c + 32)
  else c.

Fixpoint lower (s : string) : string :=
  match s with
  | EmptyString => EmptyString
  | String c rest => String (char_lower c) (lower rest)
  end.

(** [s.startswith(p)] and [s.endswith(p)]. *)
Definition startswith (s p : string) : bool := String.prefix p s.

Definition endswith (s p : string) : bool :=
  (String.length p <=? String.length s)%nat
  && String.eqb (substring (String.length s - String.length p) (String.length p) s) p.

(** [s.rfind(c)]: the index of the last [c] in [s], or -1. *)
Fixpoint rfind_from (c : ascii) (i : Z) (last : Z) (s : string) : Z :=
  match s with
  | EmptyString => last
  | String d rest => rfind_from c (i + 1) (if Ascii.eqb d c then i else last) rest
  end.

Definition rfind (c : ascii) (s : string) : Z := rfind_from c 0 (-1) s.

(** [s[i:j]] and [s[i:]] for indices inside the string. *)
Definition slice (i j : Z) (s : string) : string :=
  substring (Z.to_nat i) (Z.to_nat (j - i)) s.

Definition slice_from (i : Z) (s : string) : string :=
  substring (Z.to_nat i) (String.length s - Z.to_nat i) s.

(** [s.split('/')]. *)
Fixpoint split_on (sep : ascii) (cur : string) (s : string) : list string :=
  match s with
  | EmptyString => [cur]
  | String c rest =>
      if Ascii.eqb c sep then cur :: split_on sep EmptyString rest
      else split_on sep (cur +:+ String c EmptyString) rest
  end.

Definition split (sep : ascii) (s : string) : list string :=
  split_on sep EmptyString s.

(** [sep.join(parts)]. *)
Fixpoint str_join (sep : string) (parts : list string) : string :=
  match parts with
  | [] => ""
  | [p] => p
  | p :: rest => p +:+ sep +:+ str_join sep rest
  end.

(** [f"{b:02x}"] for a byte: two lower-case hexadecimal digits. *)
Definition hex_digit (n : N) : ascii :=
  match get (N.to_nat n) "0123456789abcdef" with
  | Some c => c
  | None => "?"%char
  end.

Definition format_02x (b : byte) : string :=
  String (hex_digit (Byte.to_N b / 16)) (String (hex_digit (Byte.to_N b mod 16)) "").

(** A [dict] literal: the pairs are inserted from left to right. *)
Definition dict (pairs : list (string * string)) : gmap string string :=
  fold_left (fun m kv => <[kv.1 := kv.2]> m) pairs ∅.

End Py.

(** ** [os.path] (posixpath) and [os.walk] *)

Module OsPath.

(** One step of [os.path.join(a, *p)]. *)
Definition join (path b : string) : string :=
  if Py.startswith b "/" then b
  else if String.eqb path "" || Py.endswith path "/" then path +:+ b
  else path +:+ "/" +:+ b.

Definition join_all (a : string) (p : list string) : string :=
  fold_left join p a.

Definition isabs (p : string) : bool := Py.startswith p "/".

(** The loop body of [normpath]: [slashes] is [initial_slashes]. *)
Definition norm_step (slashes : nat) (new_comps : list string) (comp : string)
  : list string :=
  if String.eqb comp "" || String.eqb comp "." then new_comps
  else if negb (String.eqb comp "..")
          || ((slashes =? 0)%nat && bool_decide (new_comps = []))
          || match last new_comps with
             | Some l => String.eqb l ".."
             | None => false
             end
  then new_comps ++ [comp]
  else removelast new_comps.

Definition normpath (path : string) : string :=
  if String.eqb path "" then "."
  else
    let slashes : nat :=
      if Py.startswith path "/" then
        if Py.startswith path "//" && negb (Py.startswith path "///") then 2 else 1
      else 0 in
    let comps := fold_left (norm_step slashes) (Py.split "/" path) [] in
    let p := String.concat "" (repeat "/" slashes) +:+ Py.str_join "/" comps in
    if String.eqb p "" then "." else p.

(** [abspath]: the working directory [cwd] is what [os.getcwd()] returns. *)
Definition abspath (cwd path : string) : string :=
  normpath (if isabs path then path else join cwd path).

(** [os.path.commonprefix] of two component lists. *)
Fixpoint commonprefix (l1 l2 : list string) : list string :=
  match l1, l2 with
  | a :: r1, b :: r2 => if String.eqb a b then a :: commonprefix r1 r2 else []
  | _, _ => []
  end.

Definition nonempty (x : string) : bool := negb (String.eqb x "").

(** [os.path.relpath(path, start)]: the components of [start] after the
    common prefix are left by [..], then the remaining components of [path]
    follow. *)
Definition relpath (cwd path start : string) : py string :=
  if String.eqb path "" then Raise (ValueError "no path specified")
  else
    let start_list := List.filter nonempty (Py.split "/" (abspath cwd start)) in
    let path_list := List.filter nonempty (Py.split "/" (abspath cwd path)) in
    let i := length (commonprefix start_list path_list) in
    let rel_list := repeat ".." (length start_list - i) ++ drop i path_list in
    match rel_list with
    | [] => Ok "."
    | a :: p => Ok (join_all a p)
    end.

(** [os.path.splitext]: the extension starts at the last dot of the last
    component, unless that component has only dots before it. *)
Definition splitext (p : string) : string * string :=
  let sepIndex := Py.rfind "/" p in
  let dotIndex := Py.rfind "." p in
  if (sepIndex <? dotIndex)%Z
     && existsb (fun c => negb (Ascii.eqb c "."))
          (list_ascii_of_string (Py.slice (sepIndex + 1) dotIndex p))
  then (Py.slice 0 dotIndex p, Py.slice_from dotIndex p)
  else (p, "").

End OsPath.

#[local] Set Warnings "-register-all".

(** A directory tree.  The entries of a directory are listed in the order
    in which [os.scandir] returns them. *)
Inductive node : Type :=
| File (data : list byte)
| Dir (entries : list (string * node)).

Module Os.

Definition dirnames (entries : list (string * node)) : list string :=
  flat_map (fun e => match snd e with Dir _ => [fst e] | File _ => [] end) entries.

(** The non-directory entries.  [os.walk] yields their names; the model keeps
    beside each name the bytes that [open(path, "rb").read()] returns for it. *)
Definition filenames (entries : list (string * node)) : list (string * list byte) :=
  flat_map (fun e => match snd e with Dir _ => [] | File data => [(fst e, data)] end) entries.

(** [os.walk(top)], top-down: the triple [(root, dirs, files)] of [top], then
    the walk of each sub-directory in the order of [dirs].  Errors of
    [scandir] are ignored by [os.walk]: a [top] that is not a directory, and
    the empty path, yield nothing. *)
Fixpoint walk_dir (top : string) (n : node)
  : list (string * list string * list (string * list byte)) :=
  match n with
  | File _ => []
  | Dir entries =>
      (top, dirnames entries, filenames entries)
      :: flat_map (fun '(name, child) => walk_dir (OsPath.join top name) child) entries
  end.

Definition walk (top : string) (n : node)
  : list (string * list string * list (string * list byte)) :=
  if String.eqb top "" then [] else walk_dir top n.

End Os.

(** ** The generated C++ *)

Module Cxx.

Definition nl : string := String "010"%char "".
Definition dq : string := String "034"%char "".

(** Lines of text, each closed by a newline. *)
Definition lines (ls : list string) : string :=
  String.concat "" (map (fun l => l +:+ nl) ls).

(** The key of a map assignment: a string literal or a variable. *)
Inductive key_expr : Type :=
| KLit (s : string)
| KVar (x : string).

(** The right-hand side of a map assignment: [&x] or [x]. *)
Inductive val_expr : Type :=
| AddrOf (x : string)
| Ident (x : string).

(** What the scripts write, piece by piece.  [render] gives the text of
    each piece; a header file is a list of pieces. *)
Inductive item : Type :=
| Verbatim (text : string)
| DefBytes (name : string) (content : list byte)
| DefString (name value : string)
| IncludeHpp (name : string)
| Assign (map : string) (key : key_expr) (value : val_expr).

(** The loop that writes the elements of the byte array
    (bundle_web_files.py lines 81-84, web_bundler.py lines 54-57):
    [for i, byte in enumerate(content):
       if i % 12 == 0: write("\n    ")
       write(f"0x{byte:02x}, ")]. *)
Fixpoint write_bytes (i : nat) (content : list byte) : string :=
  match content with
  | [] => ""
  | b :: rest =>
      (if (i mod 12 =? 0)%nat then nl +:+ "    " else "")
      +:+ "0x" +:+ Py.format_02x b +:+ ", "
      +:+ write_bytes (S i) rest
  end.

Definition render_key (k : key_expr) : string :=
  match k with
  | KLit s => dq +:+ s +:+ dq
  | KVar x => x
  end.

Definition render_val (v : val_expr) : string :=
  match v with
  | AddrOf x => "&" +:+ x
  | Ident x => x
  end.

(** The braced list of the array: the opening brace and line break
    written before the loop, the elements, and the closing line written after
    it. *)
Definition initializer (content : list byte) : string :=
  "{" +:+ nl +:+ write_bytes 0 content +:+ nl +:+ "}".

Definition render (it : item) : string :=
  match it with
  | Verbatim text => text
  | DefBytes name content =>
      "inline const std::vector<unsigned char> " +:+ name +:+ " = "
      +:+ initializer content +:+ ";" +:+ nl
  | DefString name value =>
      "inline const std::string " +:+ name +:+ " = " +:+ dq +:+ value +:+ dq +:+ ";" +:+ nl
  | IncludeHpp name =>
      "#include " +:+ dq +:+ name +:+ ".hpp" +:+ dq +:+ nl
  | Assign m k v =>
      "    " +:+ m +:+ "[" +:+ render_key k +:+ "] = " +:+ render_val v +:+ ";" +:+ nl
  end.

(** The text of a header file. *)
Definition text (unit : list item) : string :=
  String.concat "" (map render unit).

(** *** What a header declares *)

Inductive value : Type :=
| VBytes (content : list byte)
| VString (s : string).

Inductive error : Type :=
| Redefinition (x : string)
| Undeclared (x : string)
| WrongType (x : string)
| UnsupportedLiteral (s : string)
| MissingHeader (path : string).

Abbreviation cxx := (result error).

(** The string that a literal denotes.  A literal written from a path holds
    the characters of the path; the model covers the literals without a
    quote, a backslash or a line break, which denote their own text. *)
Definition plain_char (c : ascii) : bool :=
  negb (Ascii.eqb c "034" || Ascii.eqb c "092" || Ascii.eqb c "010" || Ascii.eqb c "013").

Definition literal (s : string) : cxx string :=
  if forallb plain_char (list_ascii_of_string s) then Ok s
  else Raise (UnsupportedLiteral s).

(** A definition at namespace scope: the name must be new. *)
Definition define (env : gmap string value) (x : string) (v : value)
  : cxx (gmap string value) :=
  match env !! x with
  | Some _ => Raise (Redefinition x)
  | None => Ok (<[x := v]> env)
  end.

Definition declare (env : gmap string value) (it : item) : cxx (gmap string value) :=
  match it with
  | DefBytes x content => define env x (VBytes content)
  | DefString x lit => s ← literal lit; define env x (VString s)
  | _ => Ok env
  end.

(** A translation unit: the index header with the headers it includes.
    Every generated header starts with [#pragma once], so a header is read
    once; [seen] holds the paths read so far.  An include is looked up in the
    directory [dir] of the including header.

    The model reads the definitions and the map assignments of a header.  It
    does not parse the verbatim text around them, which holds the namespaces
    and the bodies of the lookup functions; [brace_depth] below counts the
    braces of that text. *)
Definition elaborate (files : gmap string (list item)) (dir : string)
    (st : gset string * gmap string value) (it : item)
  : cxx (gset string * gmap string value) :=
  match it with
  | IncludeHpp name =>
      let path := OsPath.join dir (name +:+ ".hpp") in
      if bool_decide (path ∈ st.1) then Ok st
      else match files !! path with
           | None => Raise (MissingHeader path)
           | Some unit =>
               env ← for_each unit declare st.2;
               Ok ({[path]} ∪ st.1, env)
           end
  | _ => env ← declare st.2 it; Ok (st.1, env)
  end.

Record program : Type := Program {
  globals : gmap string value;
  index : list item
}.

(** [compile] reads the definitions of the index header and of the headers
    that it includes: the result holds the globals that they define and the
    pieces of the index, and the lookups below are computed on it.  Where a
    C++ compiler accepts the unit, this is what it reads there; [compile] is
    no test for that.  It refuses a second definition of a name, a header
    that is missing and a literal outside the model, and nothing else: it
    does not parse the verbatim text (the index that web_bundler.py writes
    closes two braces more than it opens, which [brace_depth] finds), and it
    does not know the reserved words of C++ (a file named [int] gives the
    identifier [int]). *)
Definition compile (files : gmap string (list item)) (dir : string) : cxx program :=
  let path := OsPath.join dir "web_bundle.hpp" in
  match files !! path with
  | None => Raise (MissingHeader path)
  | Some unit =>
      st ← for_each unit (elaborate files dir) ({[path]}, ∅);
      Ok (Program st.2 unit)
  end.

Definition eval_key (env : gmap string value) (k : key_expr) : cxx string :=
  match k with
  | KLit s => literal s
  | KVar x =>
      match env !! x with
      | Some (VString s) => Ok s
      | Some (VBytes _) => Raise (WrongType x)
      | None => Raise (Undeclared x)
      end
  end.

(** The value stored by [m[key] = &x] is the address of the vector [x],
    modelled by the name [x]; [m[key] = x] stores the string held by [x]. *)
Definition eval_val (env : gmap string value) (v : val_expr) : cxx string :=
  match v with
  | AddrOf x =>
      match env !! x with
      | Some (VBytes _) => Ok x
      | Some (VString _) => Raise (WrongType x)
      | None => Raise (Undeclared x)
      end
  | Ident x =>
      match env !! x with
      | Some (VString s) => Ok s
      | Some (VBytes _) => Raise (WrongType x)
      | None => Raise (Undeclared x)
      end
  end.

(** The body of one of the three map functions: the assignments to the
    local map [m], run in order; [operator[]] inserts or overwrites. *)
Definition run_assign (env : gmap string value) (m : string)
    (acc : gmap string string) (it : item) : cxx (gmap string string) :=
  match it with
  | Assign m' k v =>
      if String.eqb m' m then
        key ← eval_key env k;
        val ← eval_val env v;
        Ok (<[key := val]> acc)
      else Ok acc
  | _ => Ok acc
  end.

Definition build_map (p : program) (m : string) : cxx (gmap string string) :=
  for_each (index p) (run_assign (globals p) m) ∅.

Definition get_bundled_files (p : program) : cxx (gmap string string) :=
  build_map p "files".

Definition get_bundled_file_paths (p : program) : cxx (gmap string string) :=
  build_map p "paths".

Definition get_bundled_file_mime_types (p : program) : cxx (gmap string string) :=
  build_map p "mime_types".

(** [get_bundled_file(path)]: the pointer found under [path], or [nullptr]
    ([None]). *)
Definition get_bundled_file (p : program) (path : string) : cxx (option string) :=
  files ← get_bundled_files p;
  match files !! path with
  | Some it => Ok (Some it)
  | None => Ok None
  end.

(** [get_bundled_file_mime_type(path)]. *)
Definition get_bundled_file_mime_type (p : program) (path : string) : cxx string :=
  mime_types ← get_bundled_file_mime_types p;
  match mime_types !! path with
  | Some it => Ok it
  | None => Ok "application/octet-stream"
  end.

(** The bytes behind a pointer returned by [get_bundled_file]. *)
Definition deref (p : program) (ptr : string) : option (list byte) :=
  match globals p !! ptr with
  | Some (VBytes content) => Some content
  | _ => None
  end.

(** *** Braces of the written text *)

(** Where the reader of the text stands: in code, after one slash, in a
    [//] comment, in a string literal, or after a backslash in one. *)
Inductive lexer : Type :=
| Code
| Slash
| LineComment
| InString
| Escaped.

Definition in_code (c : ascii) (depth : Z) : lexer * Z :=
  if Ascii.eqb c "/" then (Slash, depth)
  else if Ascii.eqb c "034" then (InString, depth)
  else if Ascii.eqb c "{" then (Code, (depth + 1)%Z)
  else if Ascii.eqb c "}" then (Code, (depth - 1)%Z)
  else (Code, depth).

Definition lex_char (st : lexer * Z) (c : ascii) : lexer * Z :=
  let '(q, depth) := st in
  match q with
  | Code => in_code c depth
  | Slash => if Ascii.eqb c "/" then (LineComment, depth) else in_code c depth
  | LineComment => if Ascii.eqb c "010" then (Code, depth) else (LineComment, depth)
  | InString =>
      if Ascii.eqb c "092" then (Escaped, depth)
      else if Ascii.eqb c "034" then (Code, depth)
      else (InString, depth)
  | Escaped => (InString, depth)
  end.

(** The number of braces left open at the end of the text (negative when
    more braces are closed than opened), comments and string literals
    apart. *)
Definition brace_depth (text : string) : Z :=
  (fold_left lex_char (list_ascii_of_string text) (Code, 0%Z)).2.

End Cxx.

(** ** The state the scripts run in *)

(** [w_cwd] is the working directory, [w_files] the files written so far
    (a header file is kept as the list of pieces written to it, its text is
    [Cxx.text]), [w_dirs] the directories that exist, as the scripts spell
    them, and [w_stdout] the lines printed.

    [w_scan] is the file system below the asset root that the script walks:
    [w_scan files] is the directory tree that [os.walk] finds there when
    [files] are the files written so far.  Where the output directory lies
    outside the asset root, the tree is the same for all [files]; where it
    lies inside, the headers that a run writes show in the tree that the next
    walk finds.  [w_tree] is the tree found now. *)
Record world : Type := MkWorld {
  w_cwd : string;
  w_scan : gmap string (list Cxx.item) -> node;
  w_files : gmap string (list Cxx.item);
  w_dirs : gset string;
  w_stdout : list string
}.

Definition w_tree (w : world) : node := w_scan w (w_files w).

(** The state with the tree [tree] at an asset root that no written file
    lies in, and with no directory made yet. *)
Definition World (cwd : string) (tree : node) (files : gmap string (list Cxx.item))
    (stdout : list string) : world :=
  {| w_cwd := cwd; w_scan := fun _ => tree; w_files := files; w_dirs := ∅;
     w_stdout := stdout |}.

Definition write_file (w : world) (path : string) (unit : list Cxx.item) : world :=
  {| w_cwd := w_cwd w; w_scan := w_scan w;
     w_files := <[path := unit]> (w_files w); w_dirs := w_dirs w;
     w_stdout := w_stdout w |}.

Definition print (w : world) (line : string) : world :=
  {| w_cwd := w_cwd w; w_scan := w_scan w;
     w_files := w_files w; w_dirs := w_dirs w;
     w_stdout := w_stdout w ++ [line] |}.

(** The files of [files] that lie in the directory [dir], as the entries of
    a directory: the name and the bytes of the text of each. *)
Definition listed (dir : string) (files : gmap string (list Cxx.item))
  : list (string * node) :=
  omap (fun '(path, unit) =>
          if String.prefix (dir +:+ "/") path
          then Some (substring (String.length dir + 1) (String.length path) path,
                     File (list_byte_of_string (Cxx.text unit)))
          else None)
    (map_to_list files).

(** [os.makedirs(path, exist_ok=True)].  The call is taken to succeed: the
    failures of the file system on a path that cannot be made (no
    permission, a file in the way, the empty path) are left out of the
    model. *)
Definition makedirs (w : world) (path : string) : world :=
  {| w_cwd := w_cwd w; w_scan := w_scan w;
     w_files := w_files w; w_dirs := {[path]} ∪ w_dirs w;
     w_stdout := w_stdout w |}.

(** Whether [dir] is a directory; the empty path stands for the working
    directory, as it does in [os.path.join(dir, name)]. *)
Definition isdir (w : world) (dir : string) : bool :=
  String.eqb dir "" || bool_decide (dir ∈ w_dirs w).

(** [open(os.path.join(dir, name), 'w')] for a [name] without a slash: the
    path that is opened, or [FileNotFoundError] when [dir] is not a
    directory.  Other failures of the file system are left out. *)
Definition open_w (w : world) (dir name : string) : py string :=
  let path := OsPath.join dir name in
  if isdir w dir then Ok path else Raise (FileNotFoundError path).

(** ** bundle_web_files.py *)

Module BundleWebFiles.

Import Cxx.

Definition sanitize_var_name (name : string) : py string :=
  let name := Py.re_sub_not_alnum "_" name in
  c ← Py.index0 name;
  if Py.char_isdigit c then Ok ("_" +:+ name) else Ok name.

Definition mime_types : gmap string string :=
  Py.dict [
    (".html", "text/html");
    (".css", "text/css");
    (".js", "application/javascript");
    (".json", "application/json");
    (".png", "image/png");
    (".jpg", "image/jpeg");
    (".jpeg", "image/jpeg");
    (".gif", "image/gif");
    (".svg", "image/svg+xml");
    (".ico", "image/x-icon")
  ].

Definition get_mime_type (file_path : string) : string :=
  let ext := Py.lower (OsPath.splitext file_path).2 in
  default "application/octet-stream" (mime_types !! ext).

(** Lines 43-50: the list [web_files] of pairs [(file_path, rel_path)]; the
    model keeps the bytes of the file as a third component. *)
Definition collect_web_files (w : world) : py (list (string * string * list byte)) :=
  for_each (Os.walk "web" (w_tree w))
    (fun web_files '(root, _, files) =>
       for_each files
         (fun web_files '(file, data) =>
            if Py.startswith file "." then Ok web_files
            else
              let file_path := OsPath.join root file in
              rel_path ← OsPath.relpath (w_cwd w) file_path "web";
              Ok (web_files ++ [(file_path, rel_path, data)]))
         web_files)
    [].

(** Lines 54-66. *)
Definition prologue : list item :=
  [Verbatim (lines [
     "// Auto-generated file - DO NOT EDIT";
     "// Index of all bundled web files";
     "";
     "#pragma once";
     "";
     "#include <string>";
     "#include <unordered_map>";
     "#include <vector>";
     "";
     "namespace dht_hunter {";
     "namespace web_bundle {";
     ""])].

(** Lines 69-88: the block of one file. *)
Definition file_block (f : list item) (entry : string * string * list byte)
  : py (list item) :=
  let '(file_path, rel_path, content) := entry in
  var_name ← sanitize_var_name rel_path;
  let mime_type := get_mime_type file_path in
  Ok (f ++ [Verbatim ("// Bundled file: " +:+ rel_path +:+ nl);
            DefBytes var_name content;
            DefString (var_name +:+ "_path") rel_path;
            DefString (var_name +:+ "_mime") mime_type;
            Verbatim nl]).

(** Lines 91-94. *)
Definition files_head : list item :=
  [Verbatim (lines [
     "// Get all bundled files";
     "inline std::unordered_map<std::string, const std::vector<unsigned char>*> get_bundled_files() {";
     "    std::unordered_map<std::string, const std::vector<unsigned char>*> files;"])].

(** Lines 100-106. *)
Definition paths_head : list item :=
  [Verbatim (lines [
     "    return files;";
     "}";
     "";
     "// Get all bundled file paths";
     "inline std::unordered_map<std::string, std::string> get_bundled_file_paths() {";
     "    std::unordered_map<std::string, std::string> paths;"])].

(** Lines 112-118. *)
Definition mime_types_head : list item :=
  [Verbatim (lines [
     "    return paths;";
     "}";
     "";
     "// Get all bundled file MIME types";
     "inline std::unordered_map<std::string, std::string> get_bundled_file_mime_types() {";
     "    std::unordered_map<std::string, std::string> mime_types;"])].

(** Lines 124-149. *)
Definition epilogue : list item :=
  [Verbatim (lines [
     "    return mime_types;";
     "}";
     "";
     "// Get a bundled file by path";
     "inline const std::vector<unsigned char>* get_bundled_file(const std::string& path) {";
     "    auto files = get_bundled_files();";
     "    auto it = files.find(path);";
     "    if (it != files.end()) {";
     "        return it->second;";
     "    }";
     "    return nullptr;";
     "}";
     "";
     "// Get a bundled file MIME type by path";
     "inline std::string get_bundled_file_mime_type(const std::string& path) {";
     "    auto mime_types = get_bundled_file_mime_types();";
     "    auto it = mime_types.find(path);";
     "    if (it != mime_types.end()) {";
     "        return it->second;";
     "    }";
     "    return " +:+ dq +:+ "application/octet-stream" +:+ dq +:+ ";";
     "}";
     "";
     "} // namespace web_bundle";
     "} // namespace dht_hunter"])].

Definition files_line (f : list item) (entry : string * string * list byte)
  : py (list item) :=
  let '(_, rel_path, _) := entry in
  var_name ← sanitize_var_name rel_path;
  Ok (f ++ [Assign "files" (KLit rel_path) (AddrOf var_name)]).

Definition paths_line (f : list item) (entry : string * string * list byte)
  : py (list item) :=
  let '(_, rel_path, _) := entry in
  var_name ← sanitize_var_name rel_path;
  Ok (f ++ [Assign "paths" (KLit rel_path) (Ident (var_name +:+ "_path"))]).

Definition mime_types_line (f : list item) (entry : string * string * list byte)
  : py (list item) :=
  let '(_, rel_path, _) := entry in
  var_name ← sanitize_var_name rel_path;
  Ok (f ++ [Assign "mime_types" (KLit rel_path) (Ident (var_name +:+ "_mime"))]).

Definition output_dir : string := "include/dht_hunter/web/bundle".

(** The header written for the list [web_files] (lines 53-149). *)
Definition web_bundle_hpp (web_files : list (string * string * list byte))
  : py (list item) :=
  let f := prologue in
  f ← for_each web_files file_block f;
  let f := f ++ files_head in
  f ← for_each web_files files_line f;
  let f := f ++ paths_head in
  f ← for_each web_files paths_line f;
  let f := f ++ mime_types_head in
  f ← for_each web_files mime_types_line f;
  Ok (f ++ epilogue).

(** [main]: the output directory is made first (line 40), then the walk
    lists the files, then the header is opened and written.  A run that
    raises gives [Raise] and no state; no run does (see [main_combined]
    below). *)
Definition main (w : world) : py world :=
  let w := makedirs w output_dir in
  web_files ← collect_web_files w;
  path ← open_w w output_dir "web_bundle.hpp";
  f ← web_bundle_hpp web_files;
  let w := write_file w path f in
  Ok (print w ("Generated web_bundle.hpp with " +:+ pretty (length web_files) +:+ " files")).

End BundleWebFiles.

(** ** tools/web_bundler.py *)

Module WebBundler.

Import Cxx.

Definition sanitize_var_name (name : string) : py string :=
  let name := Py.re_sub_not_alnum "_" name in
  c ← Py.index0 name;
  if Py.char_isdigit c then Ok ("_" +:+ name) else Ok name.

Definition mime_types : gmap string string :=
  Py.dict [
    (".html", "text/html");
    (".css", "text/css");
    (".js", "application/javascript");
    (".json", "application/json");
    (".png", "image/png");
    (".jpg", "image/jpeg");
    (".jpeg", "image/jpeg");
    (".gif", "image/gif");
    (".svg", "image/svg+xml");
    (".ico", "image/x-icon")
  ].

Definition get_mime_type (file_path : string) : string :=
  let ext := Py.lower (OsPath.splitext file_path).2 in
  default "application/octet-stream" (mime_types !! ext).

(** The header of one file (lines 38-71). *)
Definition header_content (namespace rel_path var_name file_path : string)
    (content : list byte) : list item :=
  [Verbatim (lines [
     "// Auto-generated file - DO NOT EDIT";
     "// Generated from " +:+ rel_path;
     "";
     "#pragma once";
     "";
     "#include <string>";
     "#include <vector>";
     "";
     "namespace " +:+ namespace +:+ " {";
     "namespace web_bundle {";
     "";
     "// Content of " +:+ rel_path]);
   DefBytes var_name content;
   Verbatim (lines [""; "// File path"]);
   DefString (var_name +:+ "_path") rel_path;
   Verbatim (lines [""; "// MIME type"]);
   DefString (var_name +:+ "_mime") (get_mime_type file_path);
   Verbatim (lines [
     "";
     "} // namespace web_bundle";
     "} // namespace " +:+ namespace])].

(** [process_file]: the file at [file_path] holds the bytes [content].  The
    relative path is taken from the literal ['web'], not from [--web-dir].
    The script reads the file here, when its turn comes; [content] is what
    the tree held when the walk listed the file.  The two differ only where
    the run itself has written over the file in between, which takes an
    output directory inside the asset root. *)
Definition process_file (w : world) (file_path : string) (content : list byte)
    (output_dir namespace : string) : py (world * (string * string)) :=
  rel_path ← OsPath.relpath (w_cwd w) file_path "web";
  var_name ← sanitize_var_name rel_path;
  let header := header_content namespace rel_path var_name file_path content in
  let w := makedirs w output_dir in
  output_path ← open_w w output_dir (var_name +:+ ".hpp");
  Ok (write_file w output_path header, (rel_path, var_name)).

(** [generate_index_file]: lines 102-179. *)
Definition index_content (files : list (string * string)) (namespace : string)
  : list item :=
  [Verbatim (lines [
     "// Auto-generated file - DO NOT EDIT";
     "// Index of all bundled web files";
     "";
     "#pragma once";
     "";
     "#include <string>";
     "#include <unordered_map>";
     "#include <vector>";
     ""])]
  ++ map (fun '(_, var_name) => IncludeHpp var_name) files
  ++ [Verbatim (lines [
     "";
     "namespace " +:+ namespace +:+ " {";
     "namespace web_bundle {";
     "";
     "// Get all bundled files";
     "inline std::unordered_map<std::string, const std::vector<unsigned char>*> get_bundled_files() {";
     "    std::unordered_map<std::string, const std::vector<unsigned char>*> files;"])]
  ++ map (fun '(_, var_name) =>
            Assign "files" (KLit (var_name +:+ "_path")) (AddrOf var_name)) files
  ++ [Verbatim (lines [
     "    return files;";
     "}";
     "";
     "// Get all bundled file paths";
     "inline std::unordered_map<std::string, std::string> get_bundled_file_paths() {";
     "    std::unordered_map<std::string, std::string> paths;"])]
  ++ map (fun '(rel_path, var_name) =>
            Assign "paths" (KLit rel_path) (Ident (var_name +:+ "_path"))) files
  ++ [Verbatim (lines [
     "    return paths;";
     "}";
     "";
     "// Get all bundled file MIME types";
     "inline std::unordered_map<std::string, std::string> get_bundled_file_mime_types() {";
     "    std::unordered_map<std::string, std::string> mime_types;"])]
  ++ map (fun '(_, var_name) =>
            Assign "mime_types" (KVar (var_name +:+ "_path")) (Ident (var_name +:+ "_mime")))
       files
  (* Lines 154-179 are a plain string, not an f-string: the doubled braces
     and the text {namespace} are written as they stand. *)
  ++ [Verbatim (lines [
     "    return mime_types;";
     "}";
     "";
     "// Get a bundled file by path";
     "inline const std::vector<unsigned char>* get_bundled_file(const std::string& path) {";
     "    auto files = get_bundled_files();";
     "    auto it = files.find(path);";
     "    if (it != files.end()) {";
     "        return it->second;";
     "    }";
     "    return nullptr;";
     "}";
     "";
     "// Get a bundled file MIME type by path";
     "inline std::string get_bundled_file_mime_type(const std::string& path) {";
     "    auto mime_types = get_bundled_file_mime_types();";
     "    auto it = mime_types.find(path);";
     "    if (it != mime_types.end()) {";
     "        return it->second;";
     "    }";
     "    return " +:+ dq +:+ "application/octet-stream" +:+ dq +:+ ";";
     "}";
     "";
     "}}  // namespace web_bundle";
     "}}  // namespace {namespace}"])].

(** The index is opened in the output directory as it is (lines 182-184):
    unlike [process_file], this function does not make the directory. *)
Definition generate_index_file (w : world) (files : list (string * string))
    (output_dir namespace : string) : py world :=
  let index := index_content files namespace in
  output_path ← open_w w output_dir "web_bundle.hpp";
  Ok (write_file w output_path index).

(** The parsed command line. *)
Record args : Type := Args {
  web_dir : string;
  output_dir : string;
  namespace : string
}.

Definition default_args : args :=
  {| web_dir := "web";
     output_dir := "include/dht_hunter/web/bundle";
     namespace := "dht_hunter" |}.

(** Lines 194-200: the list [web_files] of paths, each with its bytes. *)
Definition collect_web_files (a : args) (w : world) : list (string * list byte) :=
  flat_map
    (fun '(root, _, files) =>
       flat_map
         (fun '(file, data) =>
            if Py.startswith file "." then []
            else [(OsPath.join root file, data)])
         files)
    (Os.walk (web_dir a) (w_tree w)).

(** Lines 203-207: one turn of the loop over [web_files]. *)
Definition process_step (a : args) (st : world * list (string * string))
    (entry : string * list byte) : py (world * list (string * string)) :=
  let '(w, processed_files) := st in
  let '(file_path, content) := entry in
  '(w, (rel_path, var_name)) ← process_file w file_path content (output_dir a) (namespace a);
  let processed_files := processed_files ++ [(rel_path, var_name)] in
  Ok (print w ("Processed " +:+ rel_path +:+ " -> " +:+ var_name +:+ ".hpp"),
      processed_files).

(** [main], after the command line is parsed into [a]. *)
Definition main (a : args) (w : world) : py world :=
  let web_files := collect_web_files a w in
  '(w, processed_files) ← for_each web_files (process_step a) (w, []);
  w ← generate_index_file w processed_files (output_dir a) (namespace a);
  Ok (print w ("Generated web_bundle.hpp with "
               +:+ pretty (length processed_files) +:+ " files")).

End WebBundler.

(** ** The specification's side *)

Module Spec.

(** *** Reading a byte array back (section 8, round trip) *)

(** The reader of a braced list of [0x..] elements, one character at a
    time.  [Open]: before the opening brace; [Elem]: an element, a closing
    brace or white space may follow; [Zero], [Hex1], [Hex2 h]: inside an
    element, after [0], after [0x], and after the first digit [h]; [Comma]:
    after an element; [Closed]: after the closing brace. *)
Inductive reader : Type :=
| Open
| Elem
| Zero
| Hex1
| Hex2 (h : N)
| Comma
| Closed.

Definition is_space (c : ascii) : bool :=
  Ascii.eqb c " " || Ascii.eqb c "010" || Ascii.eqb c "009" || Ascii.eqb c "013".

Definition hex_value (c : ascii) : option N :=
  let n := N_of_ascii c in
  if ((48 <=? n) && (n <=? 57))%N then Some (n - 48)%N
  else if ((97 <=? n) && (n <=? 102))%N then Some (n - 87)%N
  else if ((65 <=? n) && (n <=? 70))%N then Some (n - 55)%N
  else None.

(** One character: the next state and the bytes read so far (last first). *)
Definition read_char (st : reader * list byte) (c : ascii) : option (reader * list byte) :=
  let '(q, acc) := st in
  match q with
  | Open =>
      if Ascii.eqb c "{" then Some (Elem, acc)
      else if is_space c then Some (Open, acc) else None
  | Elem =>
      if Ascii.eqb c "0" then Some (Zero, acc)
      else if Ascii.eqb c "}" then Some (Closed, acc)
      else if is_space c then Some (Elem, acc) else None
  | Zero => if Ascii.eqb c "x" then Some (Hex1, acc) else None
  | Hex1 => h ← hex_value c; Some (Hex2 h, acc)
  | Hex2 h =>
      l ← hex_value c;
      b ← Byte.of_N (16 * h + l);
      Some (Comma, b :: acc)
  | Comma =>
      if Ascii.eqb c "," then Some (Elem, acc)
      else if Ascii.eqb c "}" then Some (Closed, acc)
      else if is_space c then Some (Comma, acc) else None
  | Closed => if is_space c then Some (Closed, acc) else None
  end.

Fixpoint read (s : string) (st : reader * list byte) : option (reader * list byte) :=
  match s with
  | EmptyString => Some st
  | String c rest => st' ← read_char st c; read rest st'
  end.

(** The bytes that a braced list denotes. *)
Definition decode (literal : string) : option (list byte) :=
  match read literal (Open, []) with
  | Some (Closed, acc) => Some (rev acc)
  | _ => None
  end.

(** *** Symbolic names (section 4.1) *)

Definition in_A_Za_z0_9 (c : ascii) : bool :=
  (Ascii.leb "A" c && Ascii.leb c "Z")
  || (Ascii.leb "a" c && Ascii.leb c "z")
  || (Ascii.leb "0" c && Ascii.leb c "9").

Definition is_digit (c : ascii) : bool := Ascii.leb "0" c && Ascii.leb c "9".

Fixpoint replace_outside (s : string) : string :=
  match s with
  | EmptyString => EmptyString
  | String c rest => String (if in_A_Za_z0_9 c then c else "_"%char) (replace_outside rest)
  end.

(** Replace every character outside [A-Za-z0-9] with [_]; if the first
    character of the result is a digit, prepend [_]. *)
Definition symbolic_name (relativePath : string) : string :=
  let replaced := replace_outside relativePath in
  match replaced with
  | String c _ => if is_digit c then String "_" replaced else replaced
  | EmptyString => replaced
  end.

(** The strings matched in full by [[_A-Za-z][_A-Za-z0-9]*]. *)
Definition ident_start (c : ascii) : bool :=
  Ascii.eqb c "_" || (Ascii.leb "A" c && Ascii.leb c "Z") || (Ascii.leb "a" c && Ascii.leb c "z").

Definition ident_char (c : ascii) : bool :=
  ident_start c || (Ascii.leb "0" c && Ascii.leb c "9").

Definition is_identifier (s : string) : bool :=
  match s with
  | EmptyString => false
  | String c rest => ident_start c && forallb ident_char (list_ascii_of_string rest)
  end.

(** *** MIME resolution (section 4.2) *)

Definition mime_table : list (string * string) :=
  [("html", "text/html");
   ("css", "text/css");
   ("js", "application/javascript");
   ("json", "application/json");
   ("png", "image/png");
   ("jpg", "image/jpeg");
   ("jpeg", "image/jpeg");
   ("gif", "image/gif");
   ("svg", "image/svg+xml");
   ("ico", "image/x-icon")].

Fixpoint assoc (k : string) (table : list (string * string)) : option string :=
  match table with
  | [] => None
  | (k', v) :: rest => if String.eqb k k' then Some v else assoc k rest
  end.

(** [ext] is the lower-cased extension as [os.path.splitext] gives it: empty
    when the file has none, and otherwise a dot followed by the extension. *)
Definition resolve_mime (ext : string) : string :=
  match ext with
  | String "." e => default "application/octet-stream" (assoc e mime_table)
  | _ => "application/octet-stream"
  end.

(** The resolution rule in the words of section 4.2: the extension of the
    file, lower-cased, is looked up in the table.  These definitions use
    nothing of the code's [os.path.splitext] and [str.lower]. *)

(** What follows the last [sep] in [s], if [s] has one. *)
Fixpoint after_last (sep : ascii) (s : string) : option string :=
  match s with
  | EmptyString => None
  | String c rest =>
      match after_last sep rest with
      | Some t => Some t
      | None => if Ascii.eqb c sep then Some rest else None
      end
  end.

(** The name of the file: what follows the last slash of the path. *)
Definition base_name (path : string) : string :=
  default path (after_last "/" path).

(** A name without the dots that it starts with: the dot of [.gitignore]
    starts a hidden name, not an extension. *)
Fixpoint without_leading_dots (name : string) : string :=
  match name with
  | String "." rest => without_leading_dots rest
  | _ => name
  end.

(** The extension of the file, without its dot: what follows the last dot
    of the name; [None] for a name without extension. *)
Definition extension (path : string) : option string :=
  after_last "." (without_leading_dots (base_name path)).

(** Lower case, for the characters below code point 256: the capitals are
    [A] to [Z] and U+00C0 to U+00DE without the multiplication sign U+00D7,
    and the small letter of each lies 32 places up. *)
Definition is_capital (n : nat) : bool :=
  ((65 <=? n) && (n <=? 90))%nat
  || ((192 <=? n) && (n <=? 222) && negb (n =? 215))%nat.

Definition lowercase_char (c : ascii) : ascii :=
  if is_capital (nat_of_ascii c) then ascii_of_nat (nat_of_ascii c + 32) else c.

Fixpoint lowercase (s : string) : string :=
  match s with
  | EmptyString => EmptyString
  | String c rest => String (lowercase_char c) (lowercase rest)
  end.

Definition mime_type (path : string) : string :=
  match extension path with
  | Some e => default "application/octet-stream" (assoc (lowercase e) mime_table)
  | None => "application/octet-stream"
  end.

(** *** Files of a tree and hidden names (sections 4.1 and 6) *)

(** The files of a tree: the names of the directories from the root down to
    the file, the name of the file, and its bytes. *)
Fixpoint located (n : node) : list (list string * string * list byte) :=
  match n with
  | File _ => []
  | Dir entries =>
      map (fun '(file, data) => ([], file, data)) (Os.filenames entries)
      ++ flat_map
           (fun '(name, child) =>
              map (fun '(ds, file, data) => (name :: ds, file, data)) (located child))
           entries
  end.

(** The path under which [os.walk(top)] reaches a file. *)
Definition path_below (top : string) (ds : list string) (file : string) : string :=
  OsPath.join (fold_left OsPath.join ds top) file.

Definition hidden (name : string) : bool := Py.startswith name ".".

(** The contents of two directories are the same when they hold the same
    files with the same bytes at the same places, in whatever order the
    entries of each directory are listed. *)
Definition same_contents (t1 t2 : node) : Prop :=
  Permutation (located t1) (located t2).

(** Two entries of a bundle collide when their relative paths differ and
    their symbolic names are equal. *)
Definition collide (rel1 rel2 : string) : Prop :=
  rel1 <> rel2 /\ symbolic_name rel1 = symbolic_name rel2.

End Spec.

(** ** Sample inputs *)

Module Sample.

Definition cwd : string := "/home/dev/DHT_Hunter".

Definition bytes (s : string) : list byte := list_byte_of_string s.

(** A root with the single file [index.html]. *)
Definition index_only : world :=
  World cwd (Dir [("index.html", File (bytes "<h1>DHT</h1>"))]) ∅ [].

(** The files of the lookup test of section 8. *)
Definition two_files : world :=
  World cwd
    (Dir [("index.html", File (bytes "<h1>DHT</h1>"));
          ("css", Dir [("a.css", File (bytes "b{}"))])])
    ∅ [].

(** Two files whose names sanitize to [a_b_css]. *)
Definition colliding : world :=
  World cwd
    (Dir [("a.b.css", File (bytes "first"));
          ("a-b.css", File (bytes "second"))])
    ∅ [].

(** Two files with distinct symbolic names, [app] and [app_path]. *)
Definition derived_clash : world :=
  World cwd
    (Dir [("app", File (bytes "#!"));
          ("app.path", File (bytes "/bin"))])
    ∅ [].

(** A hidden file in the root and a file inside a hidden directory. *)
Definition with_hidden : world :=
  World cwd
    (Dir [(".gitkeep", File []);
          (".git", Dir [("config", File (bytes "[core]"))]);
          ("app.js", File (bytes "x=1"))])
    ∅ [].

(** The same root as [index_only], run after an earlier header was left in
    the output directory. *)
Definition index_only_stale : world :=
  {| w_cwd := cwd;
     w_scan := fun _ => Dir [("index.html", File (bytes "<h1>DHT</h1>"))];
     w_files := {[ "include/dht_hunter/web/bundle/web_bundle.hpp" := [Cxx.Verbatim "stale"] ]};
     w_dirs := {[ "include/dht_hunter/web/bundle" ]};
     w_stdout := ["earlier output"] |}.

(** Two pages, and the same two pages listed in the other order. *)
Definition two_pages : world :=
  World cwd
    (Dir [("a.html", File (bytes "<p>a</p>"));
          ("b.html", File (bytes "<p>b</p>"))])
    ∅ [].

Definition two_pages_reordered : world :=
  World cwd
    (Dir [("b.html", File (bytes "<p>b</p>"));
          ("a.html", File (bytes "<p>a</p>"))])
    ∅ [].

(** A run of web_bundler.py with [--output-dir web/gen]: the output
    directory lies inside the asset root [web], so the headers written
    there are entries of the directory [gen] in the next walk. *)
Definition output_below_root : WebBundler.args :=
  WebBundler.Args "web" "web/gen" "dht_hunter".

Definition root_with_output : world :=
  {| w_cwd := cwd;
     w_scan := fun files =>
       Dir (("index.html", File (bytes "<h1>DHT</h1>"))
            :: match listed "web/gen" files with
               | [] => []
               | headers => [("gen", Dir headers)]
               end);
     w_files := ∅;
     w_dirs := ∅;
     w_stdout := [] |}.

(** The header that both scripts write last. *)
Definition web_bundle_hpp : string := "include/dht_hunter/web/bundle/web_bundle.hpp".

(** The definitions and assignments read from the headers after a run of
    each script. *)
Definition combined (w : world) : option Cxx.program :=
  match BundleWebFiles.main w with
  | Ok w' =>
      match Cxx.compile (w_files w') BundleWebFiles.output_dir with
      | Ok p => Some p
      | Raise _ => None
      end
  | Raise _ => None
  end.

Definition split (w : world) : option Cxx.program :=
  match WebBundler.main WebBundler.default_args w with
  | Ok w' =>
      match Cxx.compile (w_files w') (WebBundler.output_dir WebBundler.default_args) with
      | Ok p => Some p
      | Raise _ => None
      end
  | Raise _ => None
  end.

End Sample.

(** ** The runs as functions

    The loops of the scripts never raise (this is proved below), so each run
    that completes is also a plain function of the state it starts in.  These
    functions are what the proofs reason about: [Pure.main_combined] is shown
    equal to the run of [bundle_web_files.py], and [Pure.main_split] to the
    run of [web_bundler.py] where that run finds its output directory. *)

Module Pure.

Import Cxx.

(** [os.path.relpath(file_path, "web")], and the empty string where it raises. *)
Definition rel_path (cwd file_path : string) : string :=
  match OsPath.relpath cwd file_path "web" with
  | Ok r => r
  | Raise _ => ""
  end.

(** The files that [os.walk(top)] reaches, each with the [root] of its triple. *)
Definition walked (top : string) (tree : node) : list (string * string * list byte) :=
  flat_map (fun '(root, _, files) => map (fun '(file, data) => (root, file, data)) files)
    (Os.walk top tree).

Definition keep (entry : string * string * list byte) : bool :=
  let '(_, file, _) := entry in negb (Py.startswith file ".").

(** bundle_web_files.py *)

Definition web_files (cwd : string) (tree : node) : list (string * string * list byte) :=
  map (fun '(root, file, data) =>
         (OsPath.join root file, rel_path cwd (OsPath.join root file), data))
    (List.filter keep (walked "web" tree)).

(** Every entry has a non-empty relative path. *)
Definition named (web_files : list (string * string * list byte)) : Prop :=
  forall file_path rel_path content,
    In (file_path, rel_path, content) web_files -> rel_path <> "".

Definition file_block (entry : string * string * list byte) : list item :=
  let '(file_path, rel_path, content) := entry in
  let var_name := Spec.symbolic_name rel_path in
  [Verbatim ("// Bundled file: " +:+ rel_path +:+ nl);
   DefBytes var_name content;
   DefString (var_name +:+ "_path") rel_path;
   DefString (var_name +:+ "_mime") (BundleWebFiles.get_mime_type file_path);
   Verbatim nl].

Definition files_line (entry : string * string * list byte) : list item :=
  let '(_, rel_path, _) := entry in
  [Assign "files" (KLit rel_path) (AddrOf (Spec.symbolic_name rel_path))].

Definition paths_line (entry : string * string * list byte) : list item :=
  let '(_, rel_path, _) := entry in
  [Assign "paths" (KLit rel_path) (Ident (Spec.symbolic_name rel_path +:+ "_path"))].

Definition mime_types_line (entry : string * string * list byte) : list item :=
  let '(_, rel_path, _) := entry in
  [Assign "mime_types" (KLit rel_path) (Ident (Spec.symbolic_name rel_path +:+ "_mime"))].

Definition web_bundle_hpp (web_files : list (string * string * list byte)) : list item :=
  ((((((((BundleWebFiles.prologue ++ flat_map file_block web_files)
         ++ BundleWebFiles.files_head) ++ flat_map files_line web_files)
       ++ BundleWebFiles.paths_head) ++ flat_map paths_line web_files)
     ++ BundleWebFiles.mime_types_head) ++ flat_map mime_types_line web_files)
   ++ BundleWebFiles.epilogue).

(** The identifiers that the header declares for an entry, and the
    definitions that they add to the globals of the program. *)
Definition identifiers (entry : string * string * list byte) : list string :=
  let '(_, rel_path, _) := entry in
  let var_name := Spec.symbolic_name rel_path in
  [var_name; var_name +:+ "_path"; var_name +:+ "_mime"].

Definition bind_entry (env : gmap string value) (entry : string * string * list byte)
  : gmap string value :=
  let '(file_path, rel_path, content) := entry in
  let var_name := Spec.symbolic_name rel_path in
  <[var_name +:+ "_mime" := VString (BundleWebFiles.get_mime_type file_path)]>
    (<[var_name +:+ "_path" := VString rel_path]>
       (<[var_name := VBytes content]> env)).

(** The relative path of the entry can stand between quotes as it is. *)
Definition plain (entry : string * string * list byte) : Prop :=
  let '(_, rel_path, _) := entry in
  forallb plain_char (list_ascii_of_string rel_path) = true.

Definition main_combined (w : world) : world :=
  let web_files := web_files (w_cwd w) (w_tree w) in
  print
    (write_file (makedirs w BundleWebFiles.output_dir)
       (OsPath.join BundleWebFiles.output_dir "web_bundle.hpp")
       (web_bundle_hpp web_files))
    ("Generated web_bundle.hpp with " +:+ pretty (length web_files) +:+ " files").

(** tools/web_bundler.py *)

Definition split_web_files (a : WebBundler.args) (tree : node) : list (string * list byte) :=
  map (fun '(root, file, data) => (OsPath.join root file, data))
    (List.filter keep (walked (WebBundler.web_dir a) tree)).

(** The path and the text of the header that [process_file] writes. *)
Definition header_path (a : WebBundler.args) (cwd : string) (entry : string * list byte)
  : string :=
  OsPath.join (WebBundler.output_dir a)
    (Spec.symbolic_name (rel_path cwd entry.1) +:+ ".hpp").

Definition header (a : WebBundler.args) (cwd : string) (entry : string * list byte)
  : list item :=
  WebBundler.header_content (WebBundler.namespace a) (rel_path cwd entry.1)
    (Spec.symbolic_name (rel_path cwd entry.1)) entry.1 entry.2.

Definition process_step (a : WebBundler.args) (cwd : string)
    (st : world * list (string * string)) (entry : string * list byte)
  : world * list (string * string) :=
  let rel := rel_path cwd entry.1 in
  let var_name := Spec.symbolic_name rel in
  (print (write_file (makedirs st.1 (WebBundler.output_dir a))
            (header_path a cwd entry) (header a cwd entry))
     ("Processed " +:+ rel +:+ " -> " +:+ var_name +:+ ".hpp"),
   st.2 ++ [(rel, var_name)]).

Definition main_split (a : WebBundler.args) (w : world) : world :=
  let st := fold_left (process_step a (w_cwd w)) (split_web_files a (w_tree w)) (w, []) in
  print
    (write_file st.1 (OsPath.join (WebBundler.output_dir a) "web_bundle.hpp")
       (WebBundler.index_content st.2 (WebBundler.namespace a)))
    ("Generated web_bundle.hpp with " +:+ pretty (length st.2) +:+ " files").

(** The files that a run of web_bundler.py writes: the header of every
    entry, a later one replacing an earlier one at the same path, and then
    the index. *)
Definition split_written (a : WebBundler.args) (cwd : string) (tree : node)
  : gmap string (list item) :=
  let entries := split_web_files a tree in
  <[OsPath.join (WebBundler.output_dir a) "web_bundle.hpp" :=
      WebBundler.index_content
        (map (fun e => (rel_path cwd e.1, Spec.symbolic_name (rel_path cwd e.1))) entries)
        (WebBundler.namespace a)]>
    (fold_left (fun m e => <[header_path a cwd e := header a cwd e]> m) entries ∅).

End Pure.

(** ** Notions used by the further properties *)

Module Facts.

(** The characters of a byte array as the scripts write it: the digits, the
    letters [a] to [f], [x], the comma, the space, the line break and the two
    braces. *)
Definition array_char (c : ascii) : bool :=
  (Ascii.leb "0" c && Ascii.leb c "9")
  || (Ascii.leb "a" c && Ascii.leb c "f")
  || Ascii.eqb c "x" || Ascii.eqb c "," || Ascii.eqb c " "
  || Ascii.eqb c "010" || Ascii.eqb c "{" || Ascii.eqb c "}".

(** The entries of [web_files] in web_bundler.py, each with the relative
    path that [process_file] computes for it (line 32). *)
Definition split_entries (a : WebBundler.args) (w : world)
  : list (string * string * list byte) :=
  map (fun '(file_path, content) => (file_path, Pure.rel_path (w_cwd w) file_path, content))
    (WebBundler.collect_web_files a w).

(** The characters of a namespace name: those of an identifier and the
    colon of a nested name such as [dht_hunter::web]. *)
Definition namespace_char (c : ascii) : bool :=
  Spec.ident_char c || Ascii.eqb c ":".

(** The characters that leave the reader of [Cxx.brace_depth] in code at
    the depth it has: no slash, no quote, no brace. *)
Definition code_char (c : ascii) : bool :=
  negb (Ascii.eqb c "/" || Ascii.eqb c "034" || Ascii.eqb c "{" || Ascii.eqb c "}").

(** A component of a normalized path: not empty and without a slash. *)
Definition component (name : string) : bool :=
  negb (String.eqb name "")
  && forallb (fun c => negb (Ascii.eqb c "/")) (list_ascii_of_string name).

(** The names that a directory entry can have: not empty, not [.] or [..],
    and without a slash. *)
Definition file_name (name : string) : bool :=
  negb (String.eqb name "") && negb (String.eqb name ".") && negb (String.eqb name "..")
  && forallb (fun c => negb (Ascii.eqb c "/")) (list_ascii_of_string name).

(** Read from code at any depth, [text] ends in code with [k] more braces
    open than before. *)
Definition opens (text : string) (k : Z) : Prop :=
  forall depth : Z,
    fold_left Cxx.lex_char (list_ascii_of_string text) (Cxx.Code, depth)
    = (Cxx.Code, (depth + k)%Z).

End Facts.

(** * Proofs *)

(** ** Characters *)

Ltac by_cases_on_char c :=
  destruct c as [[] [] [] [] [] [] [] []]; vm_compute; try reflexivity; try discriminate.

Lemma class_spec (c : ascii) : Py.class_a_zA_Z0_9 c = Spec.in_A_Za_z0_9 c.
Proof. by_cases_on_char c. Qed.

Lemma isdigit_after_sub (c : ascii) :
  Py.char_isdigit (if Spec.in_A_Za_z0_9 c then c else "_"%char)
  = Spec.is_digit (if Spec.in_A_Za_z0_9 c then c else "_"%char).
Proof. by_cases_on_char c. Qed.

Lemma replaced_is_ident_char (c : ascii) :
  Spec.ident_char (if Spec.in_A_Za_z0_9 c then c else "_"%char) = true.
Proof. by_cases_on_char c. Qed.

Lemma replaced_start (c : ascii) :
  Spec.is_digit (if Spec.in_A_Za_z0_9 c then c else "_"%char) = false ->
  Spec.ident_start (if Spec.in_A_Za_z0_9 c then c else "_"%char) = true.
Proof. by_cases_on_char c. Qed.

Lemma ident_char_fixed (c : ascii) :
  Spec.ident_char c = true -> (if Spec.in_A_Za_z0_9 c then c else "_"%char) = c.
Proof. by_cases_on_char c. Qed.

Lemma ident_start_no_digit (c : ascii) :
  Spec.ident_start c = true -> Spec.ident_char c = true /\ Spec.is_digit c = false.
Proof. by_cases_on_char c; split; reflexivity. Qed.

(** ** Symbolic names *)

Lemma re_sub_spec (s : string) : Py.re_sub_not_alnum "_" s = Spec.replace_outside s.
Proof.
  induction s as [|c s IH]; simpl; [reflexivity|].
  now rewrite IH, class_spec.
Qed.

Lemma replace_outside_ident (s : string) :
  forallb Spec.ident_char (list_ascii_of_string (Spec.replace_outside s)) = true.
Proof.
  induction s as [|c s IH]; simpl; [reflexivity|].
  now rewrite replaced_is_ident_char, IH.
Qed.

Lemma replace_outside_fixed (s : string) :
  forallb Spec.ident_char (list_ascii_of_string s) = true -> Spec.replace_outside s = s.
Proof.
  induction s as [|c s IH]; simpl; [reflexivity|].
  intros H. apply andb_prop in H as [Hc Hs].
  now rewrite (ident_char_fixed c Hc), (IH Hs).
Qed.

Lemma sanitize_combined_spec (s : string) :
  s <> "" -> BundleWebFiles.sanitize_var_name s = Ok (Spec.symbolic_name s).
Proof.
  intros Hs. unfold BundleWebFiles.sanitize_var_name, Spec.symbolic_name.
  rewrite re_sub_spec.
  destruct s as [|c s]; [congruence|]. cbn.
  rewrite isdigit_after_sub.
  now destruct (Spec.is_digit _).
Qed.

Lemma sanitize_same (s : string) :
  WebBundler.sanitize_var_name s = BundleWebFiles.sanitize_var_name s.
Proof. reflexivity. Qed.

Lemma symbolic_name_is_identifier (s : string) :
  s <> "" -> Spec.is_identifier (Spec.symbolic_name s) = true.
Proof.
  intros Hs. unfold Spec.symbolic_name.
  pose proof (replace_outside_ident s) as Hall.
  destruct s as [|c s]; [congruence|]. cbn in *.
  destruct (Spec.is_digit _) eqn:Hd.
  - cbn. exact Hall.
  - cbn. apply andb_prop in Hall as [_ Hrest].
    now rewrite (replaced_start c Hd), Hrest.
Qed.

Lemma symbolic_name_fixed (n : string) :
  Spec.is_identifier n = true -> Spec.symbolic_name n = n.
Proof.
  destruct n as [|c n]; [discriminate|]. cbn.
  intros H. apply andb_prop in H as [Hc Hn].
  destruct (ident_start_no_digit c Hc) as [Hc' Hd].
  unfold Spec.symbolic_name. cbn.
  rewrite (ident_char_fixed c Hc'), Hd, (replace_outside_fixed n Hn).
  reflexivity.
Qed.

Lemma symbolic_name_nonempty (s : string) : s <> "" -> Spec.symbolic_name s <> "".
Proof.
  intros Hs. unfold Spec.symbolic_name.
  destruct s as [|c s]; [congruence|]. cbn.
  now destruct (Spec.is_digit _).
Qed.

(** C4.  For a non-empty relative path, [sanitize_var_name] of either script
    returns the name that the specification derives (every character outside
    [A-Za-z0-9] replaced with an underscore, then an underscore prepended
    when the first character is a digit), and that name is matched in full by
    [[_A-Za-z][_A-Za-z0-9]*]. *)
Theorem sanitize_var_name_spec (relativePath : string) :
  relativePath <> "" ->
  BundleWebFiles.sanitize_var_name relativePath = Ok (Spec.symbolic_name relativePath)
  /\ WebBundler.sanitize_var_name relativePath = Ok (Spec.symbolic_name relativePath)
  /\ Spec.is_identifier (Spec.symbolic_name relativePath) = true.
Proof.
  intros H. split; [|split].
  - now apply sanitize_combined_spec.
  - rewrite sanitize_same. now apply sanitize_combined_spec.
  - now apply symbolic_name_is_identifier.
Qed.

(** The first example of section 8: [css/main-v2.css]. *)
Lemma sanitize_var_name_spec_witness :
  "css/main-v2.css" <> ""
  /\ BundleWebFiles.sanitize_var_name "css/main-v2.css" = Ok "css_main_v2_css"
  /\ WebBundler.sanitize_var_name "css/main-v2.css" = Ok "css_main_v2_css"
  /\ Spec.is_identifier "css_main_v2_css" = true.
Proof.
  split; [discriminate|].
  exact (sanitize_var_name_spec "css/main-v2.css" ltac:(discriminate)).
Defined.

(** The second example of section 8: [3d/model.json]. *)
Example sanitize_3d_model :
  BundleWebFiles.sanitize_var_name "3d/model.json" = Ok "_3d_model_json"
  /\ WebBundler.sanitize_var_name "3d/model.json" = Ok "_3d_model_json"
  /\ Spec.is_identifier "_3d_model_json" = true.
Proof. repeat split. Qed.

(** C9.  [sanitize_var_name] of either script raises [IndexError] exactly on
    the empty string and returns a name exactly on the non-empty strings: the
    error branch cannot be reached by a caller that passes a non-empty
    relative path. *)
Theorem sanitize_var_name_defined (name : string) :
  (BundleWebFiles.sanitize_var_name name = Raise (IndexError "string index out of range")
   <-> name = "")
  /\ ((exists n, BundleWebFiles.sanitize_var_name name = Ok n) <-> name <> "")
  /\ (WebBundler.sanitize_var_name name = Raise (IndexError "string index out of range")
      <-> name = "")
  /\ ((exists n, WebBundler.sanitize_var_name name = Ok n) <-> name <> "").
Proof.
  assert (Hraise : BundleWebFiles.sanitize_var_name name
                   = Raise (IndexError "string index out of range") <-> name = "").
  { split.
    - destruct name as [|c s]; [reflexivity|].
      rewrite sanitize_combined_spec; discriminate.
    - intros ->. reflexivity. }
  assert (Hok : (exists n, BundleWebFiles.sanitize_var_name name = Ok n) <-> name <> "").
  { split.
    - intros [n Hn] ->. discriminate.
    - intros H. eexists. now apply sanitize_combined_spec. }
  repeat split; try apply Hraise; try apply Hok.
Qed.

Lemma sanitize_var_name_defined_witness :
  BundleWebFiles.sanitize_var_name "" = Raise (IndexError "string index out of range")
  /\ (exists n, WebBundler.sanitize_var_name "index.html" = Ok n).
Proof.
  split.
  - apply (proj1 (sanitize_var_name_defined "")). reflexivity.
  - apply (proj2 (proj2 (proj2 (sanitize_var_name_defined "index.html")))). discriminate.
Defined.

(** C10.  For a non-empty string, applying [sanitize_var_name] to its own
    result returns that result again. *)
Theorem sanitize_var_name_idempotent (s : string) :
  s <> "" ->
  exists n,
    BundleWebFiles.sanitize_var_name s = Ok n
    /\ BundleWebFiles.sanitize_var_name n = Ok n
    /\ WebBundler.sanitize_var_name s = Ok n
    /\ WebBundler.sanitize_var_name n = Ok n.
Proof.
  intros H. exists (Spec.symbolic_name s).
  assert (Hn : BundleWebFiles.sanitize_var_name (Spec.symbolic_name s)
               = Ok (Spec.symbolic_name s)).
  { rewrite sanitize_combined_spec by now apply symbolic_name_nonempty.
    f_equal. apply symbolic_name_fixed. now apply symbolic_name_is_identifier. }
  repeat split; try exact Hn; now apply sanitize_combined_spec.
Qed.

Lemma sanitize_var_name_idempotent_witness :
  "3d/model.json" <> ""
  /\ exists n,
       BundleWebFiles.sanitize_var_name "3d/model.json" = Ok n
       /\ BundleWebFiles.sanitize_var_name n = Ok n
       /\ WebBundler.sanitize_var_name "3d/model.json" = Ok n
       /\ WebBundler.sanitize_var_name n = Ok n.
Proof.
  split; [discriminate|].
  exact (sanitize_var_name_idempotent "3d/model.json" ltac:(discriminate)).
Defined.

(** ** MIME types *)

Lemma assoc_miss (e k v : string) (rest : list (string * string)) :
  String "." e <> String "." k -> Spec.assoc e ((k, v) :: rest) = Spec.assoc e rest.
Proof.
  intros H. cbn. destruct (String.eqb_spec e k) as [->|]; [congruence|reflexivity].
Qed.

Lemma dict_lookup_spec (ext : string) :
  default "application/octet-stream" (BundleWebFiles.mime_types !! ext)
  = Spec.resolve_mime ext.
Proof.
  unfold BundleWebFiles.mime_types, Py.dict. cbn [fold_left fst snd].
  repeat (rewrite lookup_insert; case_decide; [subst ext; reflexivity|]).
  rewrite lookup_empty. cbn.
  unfold Spec.resolve_mime.
  destruct ext as [|c e]; [reflexivity|].
  destruct (Ascii.eqb_spec c ".") as [->|Hc].
  - unfold Spec.mime_table.
    repeat (rewrite assoc_miss by congruence). reflexivity.
  - destruct c as [[] [] [] [] [] [] [] []]; try reflexivity. congruence.
Qed.

(** *** The extension, as [os.path.splitext] finds it *)

Lemma append_length (a b : string) :
  String.length (a +:+ b) = String.length a + String.length b.
Proof.
  induction a as [|c a IH]; [reflexivity|].
  change (String c a +:+ b) with (String c (a +:+ b)). cbn. now rewrite IH.
Qed.

Lemma rfind_from_shift (c : ascii) (s : string) :
  forall i last,
    (-1 <= Py.rfind c s < Z.of_nat (String.length s))%Z
    /\ Py.rfind_from c i last s
       = (if (0 <=? Py.rfind c s)%Z then i + Py.rfind c s else last)%Z.
Proof.
  unfold Py.rfind.
  induction s as [|d s IH]; intros i last; [cbn; split; [lia|reflexivity]|].
  cbn [Py.rfind_from String.length].
  destruct (IH (i + 1)%Z (if Ascii.eqb d c then i else last)) as [Hb ->].
  destruct (IH (0 + 1)%Z (if Ascii.eqb d c then 0%Z else (-1)%Z)) as [_ ->].
  destruct (0 <=? Py.rfind_from c 0 (-1) s)%Z eqn:Hs.
  - apply Z.leb_le in Hs. split; [lia|].
    destruct (0 <=? 0 + 1 + Py.rfind_from c 0 (-1) s)%Z eqn:H1; [lia|].
    apply Z.leb_gt in H1. lia.
  - destruct (Ascii.eqb d c); cbn; split; try lia; reflexivity.
Qed.

Lemma rfind_from_app (c : ascii) (a b : string) :
  forall i last,
    Py.rfind_from c i last (a +:+ b)
    = Py.rfind_from c (i + Z.of_nat (String.length a)) (Py.rfind_from c i last a) b.
Proof.
  induction a as [|d a IH]; intros i last.
  - cbn. now rewrite Z.add_0_r.
  - change (String d a +:+ b) with (String d (a +:+ b)).
    cbn [Py.rfind_from String.length]. rewrite IH. f_equal. lia.
Qed.

Lemma rfind_app (c : ascii) (a b : string) :
  Py.rfind c (a +:+ b)
  = (if (0 <=? Py.rfind c b)%Z then Z.of_nat (String.length a) + Py.rfind c b
     else Py.rfind c a)%Z.
Proof.
  unfold Py.rfind at 1. rewrite rfind_from_app.
  destruct (rfind_from_shift c b (0 + Z.of_nat (String.length a))
              (Py.rfind_from c 0 (-1) a)) as [_ ->].
  now rewrite Z.add_0_l.
Qed.

Lemma substring_app_r (a b : string) (n m : nat) :
  substring (String.length a + n) m (a +:+ b) = substring n m b.
Proof.
  induction a as [|d a IH]; [reflexivity|].
  change (String d a +:+ b) with (String d (a +:+ b)). cbn. apply IH.
Qed.

Lemma ends_with_slash (s : string) :
  Py.endswith s "/" = true -> exists r, s = r +:+ "/".
Proof.
  unfold Py.endswith.
  induction s as [|c s IH]; [discriminate|].
  destruct s as [|c' s].
  - cbn. destruct (Ascii.eqb_spec c "/") as [->|]; [|discriminate].
    intros _. now exists "".
  - intros H. destruct IH as [r ->].
    + cbn [String.length] in *. cbn [Nat.leb] in *.
      replace (S (S (String.length s)) - 1) with (S (String.length s)) in H by lia.
      replace (S (String.length s) - 1) with (String.length s) by lia.
      exact H.
    + now exists (String c r).
Qed.

(** The extension of a path is the extension of what follows a prefix that
    is empty or ends with a slash. *)
Lemma splitext_after_prefix (prefix file : string) :
  prefix = "" \/ (exists r, prefix = r +:+ "/") ->
  (OsPath.splitext (prefix +:+ file)).2 = (OsPath.splitext file).2.
Proof.
  intros Hprefix.
  assert (Hsep : Py.rfind "/" (prefix +:+ file)
                 = (Z.of_nat (String.length prefix) + Py.rfind "/" file)%Z).
  { rewrite rfind_app.
    destruct (rfind_from_shift "/" file 0 0) as [Hb _].
    destruct (0 <=? Py.rfind "/" file)%Z eqn:Hs; [reflexivity|].
    apply Z.leb_gt in Hs.
    destruct Hprefix as [->|[r ->]]; [cbn; lia|].
    rewrite rfind_app, append_length. cbn. lia. }
  assert (Hdot : (Py.rfind "." prefix < Z.of_nat (String.length prefix) - 1
                  \/ prefix = "")%Z).
  { destruct Hprefix as [->|[r ->]]; [now right|left].
    rewrite rfind_app, append_length. cbn.
    destruct (rfind_from_shift "." r 0 0) as [Hb _]. lia. }
  destruct (rfind_from_shift "/" file 0 0) as [Hbs _].
  destruct (rfind_from_shift "." file 0 0) as [Hbd _].
  unfold OsPath.splitext. rewrite Hsep, (rfind_app "." prefix file).
  destruct (0 <=? Py.rfind "." file)%Z eqn:Hd.
  - apply Z.leb_le in Hd.
    set (sf := Py.rfind "/" file) in *. set (df := Py.rfind "." file) in *.
    replace (Z.of_nat (String.length prefix) + sf <? Z.of_nat (String.length prefix) + df)%Z
      with (sf <? df)%Z
      by (destruct (Z.ltb_spec sf df), (Z.ltb_spec (Z.of_nat (String.length prefix) + sf)
                                         (Z.of_nat (String.length prefix) + df)); lia).
    unfold Py.slice, Py.slice_from.
    replace (Z.to_nat (Z.of_nat (String.length prefix) + sf + 1))
      with (String.length prefix + Z.to_nat (sf + 1)) by lia.
    replace (Z.to_nat (Z.of_nat (String.length prefix) + df
                       - (Z.of_nat (String.length prefix) + sf + 1)))
      with (Z.to_nat (df - (sf + 1))) by lia.
    replace (Z.to_nat (Z.of_nat (String.length prefix) + df))
      with (String.length prefix + Z.to_nat df) by lia.
    rewrite !substring_app_r, append_length.
    replace (String.length prefix + String.length file
             - (String.length prefix + Z.to_nat df))
      with (String.length file - Z.to_nat df) by lia.
    now destruct (_ && _).
  - apply Z.leb_gt in Hd.
    assert (H1 : (Z.of_nat (String.length prefix) + Py.rfind "/" file
                  <? Py.rfind "." prefix)%Z = false).
    { apply Z.ltb_ge. destruct Hdot as [Hdot| ->]; [lia|cbn; lia]. }
    assert (H2 : (Py.rfind "/" file <? Py.rfind "." file)%Z = false)
      by (apply Z.ltb_ge; lia).
    now rewrite H1, H2.
Qed.

(** *** The extension, as the specification has it *)

Lemma after_last_none (sep : ascii) (s : string) :
  Spec.after_last sep s = None ->
  forall i last, Py.rfind_from sep i last s = last.
Proof.
  induction s as [|c s IH]; intros H i last; [reflexivity|].
  cbn [Spec.after_last] in H. cbn [Py.rfind_from].
  destruct (Spec.after_last sep s); [discriminate|].
  destruct (Ascii.eqb c sep); [discriminate|]. now apply IH.
Qed.

Lemma after_last_some (sep : ascii) (s t : string) :
  Spec.after_last sep s = Some t ->
  exists pre, s = pre +:+ String sep t /\ Spec.after_last sep t = None.
Proof.
  revert t. induction s as [|c s IH]; intros t H; [discriminate|].
  cbn [Spec.after_last] in H.
  destruct (Spec.after_last sep s) as [t'|] eqn:Hs.
  - injection H as ->. destruct (IH t eq_refl) as (pre & -> & Ht).
    now exists (String c pre).
  - destruct (Ascii.eqb_spec c sep) as [->|]; [|discriminate].
    injection H as ->. now exists "".
Qed.

Lemma after_last_app (sep : ascii) (pre t : string) :
  Spec.after_last sep t = None ->
  Spec.after_last sep (pre +:+ String sep t) = Some t.
Proof.
  intros Ht. induction pre as [|c pre IH].
  - change ("" +:+ String sep t) with (String sep t). cbn [Spec.after_last].
    now rewrite Ht, Ascii.eqb_refl.
  - change (String c pre +:+ String sep t) with (String c (pre +:+ String sep t)).
    cbn [Spec.after_last]. now rewrite IH.
Qed.

Lemma rfind_last (sep : ascii) (pre t : string) :
  Spec.after_last sep t = None ->
  Py.rfind sep (pre +:+ String sep t) = Z.of_nat (String.length pre).
Proof.
  intros Ht. rewrite rfind_app.
  assert (H : Py.rfind sep (String sep t) = 0%Z).
  { unfold Py.rfind. cbn [Py.rfind_from]. rewrite Ascii.eqb_refl.
    now apply after_last_none. }
  rewrite H. cbn. lia.
Qed.

Lemma without_leading_dots_cons (c : ascii) (s : string) :
  Spec.without_leading_dots (String c s)
  = if Ascii.eqb c "." then Spec.without_leading_dots s else String c s.
Proof. destruct c as [[] [] [] [] [] [] [] []]; reflexivity. Qed.

Lemma without_leading_dots_none (s : string) :
  Spec.after_last "." s = None -> Spec.without_leading_dots s = s.
Proof.
  destruct s as [|c s]; [reflexivity|]. intros H.
  rewrite without_leading_dots_cons. cbn [Spec.after_last] in H.
  destruct (Spec.after_last "." s); [discriminate|].
  now destruct (Ascii.eqb c ".").
Qed.

Lemma without_leading_dots_only (pre s : string) :
  existsb (fun c => negb (Ascii.eqb c ".")) (list_ascii_of_string pre) = false ->
  Spec.without_leading_dots (pre +:+ s) = Spec.without_leading_dots s.
Proof.
  induction pre as [|c pre IH]; [reflexivity|].
  change (String c pre +:+ s) with (String c (pre +:+ s)).
  cbn [list_ascii_of_string existsb]. rewrite without_leading_dots_cons. intros H.
  apply orb_false_elim in H as [Hc Hpre].
  destruct (Ascii.eqb c "."); [now apply IH|discriminate].
Qed.

Lemma without_leading_dots_stem (pre s : string) :
  existsb (fun c => negb (Ascii.eqb c ".")) (list_ascii_of_string pre) = true ->
  exists stem, Spec.without_leading_dots (pre +:+ s) = stem +:+ s.
Proof.
  induction pre as [|c pre IH]; [discriminate|].
  change (String c pre +:+ s) with (String c (pre +:+ s)).
  cbn [list_ascii_of_string existsb]. rewrite without_leading_dots_cons. intros H.
  destruct (Ascii.eqb c "."); [now apply IH|].
  now exists (String c pre).
Qed.

Lemma substring_prefix (a b : string) : substring 0 (String.length a) (a +:+ b) = a.
Proof.
  induction a as [|c a IH]; [now destruct b|].
  change (String c a +:+ b) with (String c (a +:+ b)). cbn. now rewrite IH.
Qed.

Lemma substring_all (s : string) : substring 0 (String.length s) s = s.
Proof. induction s as [|c s IH]; [reflexivity|]. cbn. now rewrite IH. Qed.

Lemma substring_suffix (a b : string) :
  substring (String.length a) (String.length (a +:+ b) - String.length a) (a +:+ b) = b.
Proof.
  rewrite <- (Nat.add_0_r (String.length a)) at 1. rewrite substring_app_r.
  rewrite append_length.
  replace (String.length a + String.length b - String.length a) with (String.length b) by lia.
  apply substring_all.
Qed.

(** The extension of a name without a slash. *)
Lemma splitext_name (name : string) :
  Spec.after_last "/" name = None ->
  (OsPath.splitext name).2
  = match Spec.after_last "." (Spec.without_leading_dots name) with
    | Some e => String "." e
    | None => ""
    end.
Proof.
  intros Hname. unfold OsPath.splitext.
  assert (Hsep : Py.rfind "/" name = (-1)%Z) by now apply after_last_none.
  rewrite Hsep.
  destruct (Spec.after_last "." name) as [t|] eqn:Hdot.
  - apply after_last_some in Hdot as (pre & -> & Ht).
    rewrite (rfind_last "." pre t Ht).
    unfold Py.slice, Py.slice_from.
    replace (-1 + 1)%Z with 0%Z by lia.
    rewrite Z.sub_0_r, Nat2Z.id. cbn [Z.to_nat].
    rewrite substring_prefix, substring_suffix.
    assert (Hlt : (-1 <? Z.of_nat (String.length pre))%Z = true) by (apply Z.ltb_lt; lia).
    rewrite Hlt. cbn [andb].
    destruct (existsb _ (list_ascii_of_string pre)) eqn:Hpre; cbn [snd].
    + destruct (without_leading_dots_stem pre (String "." t) Hpre) as [stem ->].
      now rewrite after_last_app.
    + rewrite (without_leading_dots_only pre _ Hpre), without_leading_dots_cons.
      cbn [Ascii.eqb Bool.eqb]. rewrite (without_leading_dots_none t Ht). now rewrite Ht.
  - rewrite (without_leading_dots_none name Hdot), Hdot.
    assert (Hnone : Py.rfind "." name = (-1)%Z) by now apply after_last_none.
    rewrite Hnone. reflexivity.
Qed.

Lemma base_name_spec (path : string) :
  exists prefix,
    path = prefix +:+ Spec.base_name path
    /\ (prefix = "" \/ exists r, prefix = r +:+ "/")
    /\ Spec.after_last "/" (Spec.base_name path) = None.
Proof.
  unfold Spec.base_name.
  destruct (Spec.after_last "/" path) as [t|] eqn:H; cbn [default].
  - apply after_last_some in H as (pre & -> & Ht).
    exists (pre +:+ "/"). split; [|split; [right; now exists pre|exact Ht]].
    clear. induction pre as [|c pre IH]; [reflexivity|].
    change (String c pre +:+ String "/" t) with (String c (pre +:+ String "/" t)).
    now rewrite IH.
  - exists "". split; [reflexivity|]. split; [now left|exact H].
Qed.

Lemma splitext_extension (path : string) :
  (OsPath.splitext path).2
  = match Spec.extension path with
    | Some e => String "." e
    | None => ""
    end.
Proof.
  destruct (base_name_spec path) as (prefix & Hpath & Hprefix & Hname).
  rewrite Hpath at 1. rewrite (splitext_after_prefix prefix _ Hprefix).
  now apply splitext_name.
Qed.

Lemma lower_lowercase_char (c : ascii) : Py.char_lower c = Spec.lowercase_char c.
Proof. by_cases_on_char c. Qed.

Lemma lower_lowercase (s : string) : Py.lower s = Spec.lowercase s.
Proof.
  induction s as [|c s IH]; [reflexivity|]. cbn. now rewrite lower_lowercase_char, IH.
Qed.

(** C5.  The MIME type that either script resolves for a path is the one
    of the specification's rule: the extension of the file (what follows the
    last dot of the file's name, the dots that the name starts with apart)
    is lower-cased and looked up in the table; a file without extension, and
    an extension that the table does not have, give
    [application/octet-stream]. *)
Theorem get_mime_type_spec (file_path : string) :
  BundleWebFiles.get_mime_type file_path = Spec.mime_type file_path
  /\ WebBundler.get_mime_type file_path = Spec.mime_type file_path
  /\ (Spec.extension file_path = None ->
      BundleWebFiles.get_mime_type file_path = "application/octet-stream")
  /\ (forall e,
        Spec.extension file_path = Some e ->
        Spec.assoc (Spec.lowercase e) Spec.mime_table = None ->
        BundleWebFiles.get_mime_type file_path = "application/octet-stream").
Proof.
  assert (H : BundleWebFiles.get_mime_type file_path = Spec.mime_type file_path).
  { unfold BundleWebFiles.get_mime_type. cbv zeta.
    rewrite dict_lookup_spec, splitext_extension. unfold Spec.mime_type.
    destruct (Spec.extension file_path) as [e|]; [|reflexivity].
    cbn [Py.lower]. rewrite lower_lowercase. reflexivity. }
  split; [exact H|]. split; [exact H|]. rewrite H. unfold Spec.mime_type.
  split.
  - now intros ->.
  - intros e -> Hmiss. now rewrite Hmiss.
Qed.

(** An extension in upper case below two directories, and a hidden name
    below a directory with a dot in its name. *)
Lemma get_mime_type_spec_witness :
  BundleWebFiles.get_mime_type "web/img/PHOTO.JPEG" = "image/jpeg"
  /\ WebBundler.get_mime_type "web/v1.2/.profile" = "application/octet-stream".
Proof.
  split.
  - exact (proj1 (get_mime_type_spec "web/img/PHOTO.JPEG")).
  - exact (proj1 (proj2 (get_mime_type_spec "web/v1.2/.profile"))).
Defined.

(** The examples of section 8, and an upper-case extension. *)
Example get_mime_type_examples :
  BundleWebFiles.get_mime_type "index.html" = "text/html"
  /\ BundleWebFiles.get_mime_type "app.js" = "application/javascript"
  /\ BundleWebFiles.get_mime_type "logo.svg" = "image/svg+xml"
  /\ BundleWebFiles.get_mime_type "data.bin" = "application/octet-stream"
  /\ WebBundler.get_mime_type "web/img/PHOTO.JPEG" = "image/jpeg"
  /\ WebBundler.get_mime_type "web/LICENSE" = "application/octet-stream"
  /\ WebBundler.get_mime_type "web/v1.2/readme" = "application/octet-stream".
Proof. vm_compute. repeat split. Qed.

(** ** The byte array and its reader *)

Lemma read_app (s1 s2 : string) (st : Spec.reader * list byte) :
  Spec.read (s1 +:+ s2) st = Spec.read s1 st ≫= Spec.read s2.
Proof.
  revert st. induction s1 as [|c s1 IH]; intros st; [reflexivity|].
  change (String c s1 +:+ s2) with (String c (s1 +:+ s2)).
  cbn [Spec.read].
  destruct (Spec.read_char st c) as [st'|]; [apply IH|reflexivity].
Qed.

Lemma read_element (b : byte) (acc : list byte) :
  Spec.read ("0x" +:+ Py.format_02x b +:+ ", ") (Spec.Elem, acc)
  = Some (Spec.Elem, b :: acc).
Proof. destruct b; reflexivity. Qed.

Lemma read_indent (acc : list byte) :
  Spec.read (Cxx.nl +:+ "    ") (Spec.Elem, acc) = Some (Spec.Elem, acc).
Proof. reflexivity. Qed.

Lemma read_open (acc : list byte) :
  Spec.read ("{" +:+ Cxx.nl) (Spec.Open, acc) = Some (Spec.Elem, acc).
Proof. reflexivity. Qed.

Lemma read_close (acc : list byte) :
  Spec.read (Cxx.nl +:+ "}") (Spec.Elem, acc) = Some (Spec.Closed, acc).
Proof. reflexivity. Qed.

Lemma read_write_bytes (content : list byte) :
  forall (i : nat) (acc : list byte),
    Spec.read (Cxx.write_bytes i content) (Spec.Elem, acc)
    = Some (Spec.Elem, rev content ++ acc).
Proof.
  induction content as [|b content IH]; intros i acc; [reflexivity|].
  cbn [Cxx.write_bytes rev].
  rewrite read_app.
  assert (Hpre : Spec.read (if (i mod 12 =? 0)%nat then Cxx.nl +:+ "    " else "")
                   (Spec.Elem, acc) = Some (Spec.Elem, acc)).
  { destruct (i mod 12 =? 0)%nat; reflexivity. }
  rewrite Hpre. cbn [mbind option_bind].
  change ("0x" +:+ Py.format_02x b +:+ ", " +:+ Cxx.write_bytes (S i) content)
    with (("0x" +:+ Py.format_02x b +:+ ", ") +:+ Cxx.write_bytes (S i) content).
  rewrite read_app, read_element. cbn [mbind option_bind].
  rewrite IH, <- app_assoc. reflexivity.
Qed.

(** C3.  Reading back the braced list of [0x..] elements that either script
    writes for a file gives the bytes of the file, one byte for each element
    in the order of the file; this holds for the empty file as well.  The
    declaration written for the asset is this list between the name and the
    closing semicolon, and both scripts write that declaration with the bytes
    read from the file. *)
Theorem byte_literal_round_trip (name : string) (content : list byte) :
  Spec.decode (Cxx.initializer content) = Some content
  /\ Cxx.render (Cxx.DefBytes name content)
     = "inline const std::vector<unsigned char> " +:+ name +:+ " = "
       +:+ Cxx.initializer content +:+ ";" +:+ Cxx.nl
  /\ (forall f f' file_path rel_path,
        BundleWebFiles.file_block f (file_path, rel_path, content) = Ok f' ->
        In (Cxx.DefBytes (Spec.symbolic_name rel_path) content) f')
  /\ (forall namespace rel_path file_path,
        In (Cxx.DefBytes name content)
          (WebBundler.header_content namespace rel_path name file_path content)).
Proof.
  split; [|split; [reflexivity|split]].
  - unfold Spec.decode, Cxx.initializer.
    change ("{" +:+ Cxx.nl +:+ Cxx.write_bytes 0 content +:+ Cxx.nl +:+ "}")
      with (("{" +:+ Cxx.nl) +:+ Cxx.write_bytes 0 content +:+ (Cxx.nl +:+ "}")).
    rewrite read_app, read_open. cbn [mbind option_bind].
    rewrite read_app, read_write_bytes. cbn [mbind option_bind].
    rewrite read_close, app_nil_r, rev_involutive. reflexivity.
  - intros f f' fp rel. unfold BundleWebFiles.file_block.
    destruct rel as [|c rel]; [discriminate|].
    rewrite sanitize_combined_spec by discriminate. cbn [mbind result_bind].
    intros [= <-]. apply in_or_app. right. cbn. tauto.
  - intros ns rel fp. cbn. tauto.
Qed.

Example byte_literal_empty_file :
  Cxx.initializer [] = "{" +:+ Cxx.nl +:+ Cxx.nl +:+ "}"
  /\ Spec.decode (Cxx.initializer []) = Some [].
Proof. split; reflexivity. Qed.

(** ** Loops that do not raise *)

Lemma for_each_fold {E A S : Type} (I : S -> Prop) (g : S -> A -> S)
    (body : S -> A -> result E S) (xs : list A) :
  forall acc : S,
    I acc ->
    (forall acc x, In x xs -> I acc -> body acc x = Ok (g acc x) /\ I (g acc x)) ->
    for_each xs body acc = Ok (fold_left g xs acc) /\ I (fold_left g xs acc).
Proof.
  induction xs as [|x xs IH]; intros acc Hacc Hbody; cbn; [now split|].
  destruct (Hbody acc x (or_introl eq_refl) Hacc) as [-> Hnext]. cbn.
  apply IH; [exact Hnext|].
  intros acc' y Hy. apply Hbody. now right.
Qed.

Lemma fold_left_app_flat_map {A B : Type} (F : A -> list B) (xs : list A) :
  forall acc : list B,
    fold_left (fun acc x => acc ++ F x) xs acc = acc ++ flat_map F xs.
Proof.
  induction xs as [|x xs IH]; intros acc; cbn; [now rewrite app_nil_r|].
  now rewrite IH, <- app_assoc.
Qed.

Lemma for_each_flat {E A B : Type} (F : A -> list B)
    (body : list B -> A -> result E (list B)) (xs : list A) (acc : list B) :
  (forall acc x, In x xs -> body acc x = Ok (acc ++ F x)) ->
  for_each xs body acc = Ok (acc ++ flat_map F xs).
Proof.
  intros Hbody.
  destruct (for_each_fold (fun _ => True) (fun acc x => acc ++ F x) body xs acc I)
    as [-> _]; [now split; auto|].
  now rewrite fold_left_app_flat_map.
Qed.

(** ** Paths *)

Lemma startswith_nonempty (b : string) : Py.startswith b "/" = true -> b <> "".
Proof. now destruct b. Qed.

Lemma append_nonempty (a b : string) : a <> "" -> a +:+ b <> "".
Proof. now destruct a. Qed.

Lemma join_nonempty (path b : string) : path <> "" -> OsPath.join path b <> "".
Proof.
  intros H. unfold OsPath.join.
  destruct (Py.startswith b "/") eqn:Hb; [now apply startswith_nonempty|].
  destruct (_ || _); now apply append_nonempty.
Qed.

Lemma join_all_nonempty (p : list string) :
  forall a : string, a <> "" -> OsPath.join_all a p <> "".
Proof.
  unfold OsPath.join_all.
  induction p as [|b p IH]; intros a Ha; cbn; [exact Ha|].
  apply IH. now apply join_nonempty.
Qed.

Lemma nonempty_spec (x : string) : OsPath.nonempty x = true -> x <> "".
Proof. unfold OsPath.nonempty. now destruct (String.eqb_spec x ""). Qed.

(** [relpath] raises on the empty path only, and never returns the empty
    string. *)
Lemma relpath_total (cwd path start : string) :
  path <> "" ->
  exists r, OsPath.relpath cwd path start = Ok r /\ r <> "".
Proof.
  intros Hp. unfold OsPath.relpath.
  destruct (String.eqb_spec path ""); [contradiction|].
  set (start_list := List.filter _ (Py.split _ (OsPath.abspath cwd start))).
  set (path_list := List.filter _ (Py.split _ (OsPath.abspath cwd path))).
  set (i := length (OsPath.commonprefix start_list path_list)).
  destruct (repeat ".." (length start_list - i) ++ drop i path_list) as [|a p] eqn:Hrel.
  - exists ".". now split.
  - exists (OsPath.join_all a p). split; [reflexivity|].
    apply join_all_nonempty.
    assert (Ha : In a (repeat ".." (length start_list - i) ++ drop i path_list))
      by (rewrite Hrel; now left).
    apply in_app_or in Ha as [Ha|Ha].
    + apply repeat_spec in Ha. now subst a.
    + apply nonempty_spec.
      assert (Hin : In a path_list).
      { rewrite <- (take_drop i path_list). apply in_or_app. now right. }
      unfold path_list in Hin. apply List.filter_In in Hin. tauto.
Qed.

Lemma rel_path_ok (cwd file_path : string) :
  file_path <> "" ->
  OsPath.relpath cwd file_path "web" = Ok (Pure.rel_path cwd file_path)
  /\ Pure.rel_path cwd file_path <> "".
Proof.
  intros H. unfold Pure.rel_path.
  destruct (relpath_total cwd file_path "web" H) as (r & -> & Hr). now split.
Qed.

(** ** The walk *)

Lemma node_induction (P : node -> Prop) :
  (forall data, P (File data)) ->
  (forall entries, Forall (fun e => P e.2) entries -> P (Dir entries)) ->
  forall n, P n.
Proof.
  intros HF HD. fix IH 1. intros [data|entries]; [apply HF|].
  apply HD. induction entries as [|[name child] rest IHrest]; constructor.
  - apply IH.
  - exact IHrest.
Qed.

Lemma walk_dir_roots (n : node) :
  forall top, top <> "" -> forall root ds fs, In (root, ds, fs) (Os.walk_dir top n) -> root <> "".
Proof.
  induction n as [data|entries IH] using node_induction; intros top Htop root ds fs Hin.
  - destruct Hin.
  - cbn in Hin. destruct Hin as [Heq|Hin]; [congruence|].
    apply in_flat_map in Hin as ([name child] & Hentry & Hin).
    rewrite Forall_forall in IH.
    eapply (IH (name, child) (proj2 (list_elem_of_In _ _) Hentry) (OsPath.join top name));
      [now apply join_nonempty|exact Hin].
Qed.

Lemma walked_roots (top : string) (tree : node) (root file : string) (data : list byte) :
  In (root, file, data) (Pure.walked top tree) -> root <> "".
Proof.
  unfold Pure.walked, Os.walk. intros Hin.
  destruct (String.eqb_spec top ""); [destruct Hin|].
  apply in_flat_map in Hin as ([[root' ds] fs] & Hw & Hin).
  apply in_map_iff in Hin as ([file' data'] & Heq & _).
  injection Heq as -> _ _.
  now apply (walk_dir_roots tree top) in Hw.
Qed.

(** The two loops over the triples of the walk, as one pass over the files. *)
Lemma nested_flat_map {B : Type} (h : string * string * list byte -> B)
    (l : list (string * list string * list (string * list byte))) :
  flat_map
    (fun '(root, _, files) =>
       flat_map (fun '(file, data) =>
                   if Py.startswith file "." then [] else [h (root, file, data)])
         files) l
  = map h (List.filter Pure.keep
             (flat_map (fun '(root, _, files) =>
                          map (fun '(file, data) => (root, file, data)) files) l)).
Proof.
  induction l as [|[[root ds] files] l IH]; [reflexivity|].
  cbn [flat_map]. rewrite IH, List.filter_app, map_app. f_equal.
  clear. induction files as [|[file data] files IH]; [reflexivity|].
  cbn [flat_map map List.filter Pure.keep]. rewrite IH.
  now destruct (Py.startswith file ".").
Qed.

(** ** bundle_web_files.py as a function *)

Lemma collect_combined (w : world) :
  BundleWebFiles.collect_web_files w = Ok (Pure.web_files (w_cwd w) (w_tree w)).
Proof.
  unfold BundleWebFiles.collect_web_files, Pure.web_files, Pure.walked.
  rewrite <- nested_flat_map.
  rewrite (for_each_flat
           (fun '(root, _, files) =>
              flat_map (fun '(file, data) =>
                          if Py.startswith file "." then []
                          else [(OsPath.join root file,
                                 Pure.rel_path (w_cwd w) (OsPath.join root file), data)])
                files)); [reflexivity|].
  intros acc [[root ds] files] Hw.
  assert (Hroot : root <> "").
  { unfold Os.walk in Hw. destruct (String.eqb_spec "web" ""); [destruct Hw|].
    now apply (walk_dir_roots (w_tree w) "web") in Hw. }
  apply for_each_flat.
  intros acc' [file data] _.
  destruct (Py.startswith file "."); [now rewrite app_nil_r|].
  destruct (rel_path_ok (w_cwd w) (OsPath.join root file)) as [-> _];
    [now apply join_nonempty|reflexivity].
Qed.

Lemma web_files_nonempty (cwd : string) (tree : node)
    (file_path rel_path : string) (content : list byte) :
  In (file_path, rel_path, content) (Pure.web_files cwd tree) ->
  file_path <> "" /\ rel_path <> "".
Proof.
  unfold Pure.web_files. intros Hin.
  apply in_map_iff in Hin as ([[root file] data] & Heq & Hin).
  injection Heq as <- <- _.
  apply List.filter_In in Hin as [Hin _]. apply walked_roots in Hin.
  assert (Hfp : OsPath.join root file <> "") by now apply join_nonempty.
  split; [exact Hfp|]. now apply rel_path_ok.
Qed.

Lemma web_bundle_hpp_combined (web_files : list (string * string * list byte)) :
  Pure.named web_files ->
  BundleWebFiles.web_bundle_hpp web_files = Ok (Pure.web_bundle_hpp web_files).
Proof.
  intros Hnamed. unfold BundleWebFiles.web_bundle_hpp, Pure.web_bundle_hpp.
  rewrite (for_each_flat Pure.file_block); cbn [mbind result_bind].
  2:{ intros acc [[fp rel] content] Hin. cbn.
      rewrite sanitize_combined_spec by apply (Hnamed _ _ _ Hin). reflexivity. }
  rewrite (for_each_flat Pure.files_line); cbn [mbind result_bind].
  2:{ intros acc [[fp rel] content] Hin. cbn.
      rewrite sanitize_combined_spec by apply (Hnamed _ _ _ Hin). reflexivity. }
  rewrite (for_each_flat Pure.paths_line); cbn [mbind result_bind].
  2:{ intros acc [[fp rel] content] Hin. cbn.
      rewrite sanitize_combined_spec by apply (Hnamed _ _ _ Hin). reflexivity. }
  rewrite (for_each_flat Pure.mime_types_line); cbn [mbind result_bind].
  2:{ intros acc [[fp rel] content] Hin. cbn.
      rewrite sanitize_combined_spec by apply (Hnamed _ _ _ Hin). reflexivity. }
  reflexivity.
Qed.

(** ** Directories *)

Lemma isdir_makedirs (w : world) (dir : string) : isdir (makedirs w dir) dir = true.
Proof.
  unfold isdir, makedirs. cbn [w_dirs].
  rewrite bool_decide_eq_true_2; [apply orb_true_r|].
  apply elem_of_union_l, elem_of_singleton. reflexivity.
Qed.

Lemma isdir_makedirs_other (w : world) (dir other : string) :
  isdir w dir = true -> isdir (makedirs w other) dir = true.
Proof.
  unfold isdir, makedirs. cbn [w_dirs]. intros H.
  apply orb_true_iff in H as [H|H]; [now rewrite H|].
  apply bool_decide_eq_true_1 in H.
  rewrite bool_decide_eq_true_2; [apply orb_true_r|].
  now apply elem_of_union_r.
Qed.

Lemma open_w_isdir (w : world) (dir name : string) :
  isdir w dir = true -> open_w w dir name = Ok (OsPath.join dir name).
Proof. unfold open_w. now intros ->. Qed.

Lemma open_w_missing (w : world) (dir name : string) :
  isdir w dir = false -> open_w w dir name = Raise (FileNotFoundError (OsPath.join dir name)).
Proof. unfold open_w. now intros ->. Qed.

Lemma main_combined (w : world) : BundleWebFiles.main w = Ok (Pure.main_combined w).
Proof.
  unfold BundleWebFiles.main, Pure.main_combined. cbv zeta.
  rewrite collect_combined. cbn [mbind result_bind].
  rewrite (open_w_isdir _ _ _ (isdir_makedirs w BundleWebFiles.output_dir)).
  cbn [mbind result_bind].
  rewrite web_bundle_hpp_combined; [reflexivity|].
  intros fp rel content Hin. now apply web_files_nonempty in Hin.
Qed.

(** ** tools/web_bundler.py as a function *)

Lemma collect_split (a : WebBundler.args) (w : world) :
  WebBundler.collect_web_files a w = Pure.split_web_files a (w_tree w).
Proof.
  unfold WebBundler.collect_web_files, Pure.split_web_files, Pure.walked.
  rewrite <- nested_flat_map. reflexivity.
Qed.

Lemma split_web_files_nonempty (a : WebBundler.args) (tree : node)
    (file_path : string) (content : list byte) :
  In (file_path, content) (Pure.split_web_files a tree) -> file_path <> "".
Proof.
  unfold Pure.split_web_files. intros Hin.
  apply in_map_iff in Hin as ([[root file] data] & Heq & Hin).
  injection Heq as <- _.
  apply List.filter_In in Hin as [Hin _]. apply walked_roots in Hin.
  now apply join_nonempty.
Qed.

Lemma process_step_split (a : WebBundler.args) (w : world)
    (processed : list (string * string)) (file_path : string) (content : list byte) :
  file_path <> "" ->
  WebBundler.process_step a (w, processed) (file_path, content)
  = Ok (Pure.process_step a (w_cwd w) (w, processed) (file_path, content)).
Proof.
  intros Hfp. unfold WebBundler.process_step, WebBundler.process_file.
  destruct (rel_path_ok (w_cwd w) file_path Hfp) as [-> Hrel].
  cbn [mbind result_bind].
  rewrite sanitize_same, (sanitize_combined_spec _ Hrel).
  cbn [mbind result_bind].
  rewrite (open_w_isdir _ _ _ (isdir_makedirs w (WebBundler.output_dir a))).
  reflexivity.
Qed.

Lemma process_step_cwd (a : WebBundler.args) (cwd : string)
    (st : world * list (string * string)) (entry : string * list byte) :
  w_cwd (Pure.process_step a cwd st entry).1 = w_cwd st.1.
Proof. reflexivity. Qed.

Lemma process_steps_split (a : WebBundler.args) (w : world) :
  for_each (WebBundler.collect_web_files a w) (WebBundler.process_step a) (w, [])
  = Ok (fold_left (Pure.process_step a (w_cwd w)) (Pure.split_web_files a (w_tree w)) (w, [])).
Proof.
  rewrite collect_split.
  destruct (for_each_fold (fun st => w_cwd st.1 = w_cwd w)
              (Pure.process_step a (w_cwd w)) (WebBundler.process_step a)
              (Pure.split_web_files a (w_tree w)) (w, [])) as [-> _].
  - reflexivity.
  - intros [w' processed] [fp content] Hin Hcwd. cbn in Hcwd.
    rewrite process_step_split by now apply split_web_files_nonempty in Hin.
    rewrite Hcwd. split; [reflexivity|exact Hcwd].
  - reflexivity.
Qed.

Lemma process_steps_dirs (a : WebBundler.args) (cwd : string)
    (l : list (string * list byte)) :
  forall st,
    w_dirs (fold_left (Pure.process_step a cwd) l st).1
    = match l with
      | [] => w_dirs st.1
      | _ :: _ => {[WebBundler.output_dir a]} ∪ w_dirs st.1
      end.
Proof.
  induction l as [|e l IH]; intros st; [reflexivity|].
  cbn [fold_left]. rewrite IH. destruct e as [fp content].
  assert (Hstep : w_dirs (Pure.process_step a cwd st (fp, content)).1
                  = {[WebBundler.output_dir a]} ∪ w_dirs st.1) by reflexivity.
  rewrite Hstep. destruct l; [reflexivity|].
  now rewrite (assoc_L (∪)), (idemp_L (∪)).
Qed.

(** The output directory is there after the loop when a file was processed
    or when it was there before the run. *)
Lemma process_steps_isdir (a : WebBundler.args) (w : world) :
  isdir (fold_left (Pure.process_step a (w_cwd w))
           (Pure.split_web_files a (w_tree w)) (w, [])).1 (WebBundler.output_dir a)
  = negb (bool_decide (Pure.split_web_files a (w_tree w) = []))
    || isdir w (WebBundler.output_dir a).
Proof.
  unfold isdir at 1. rewrite process_steps_dirs.
  destruct (Pure.split_web_files a (w_tree w)) as [|e l]; [reflexivity|].
  cbn [fst negb orb]. rewrite (bool_decide_eq_false_2 (_ :: _ = [])) by discriminate.
  cbn [negb orb]. rewrite bool_decide_eq_true_2; [apply orb_true_r|].
  apply elem_of_union_l, elem_of_singleton. reflexivity.
Qed.

(** The run of [web_bundler.py] completes when it bundles a file or finds
    its output directory ... *)
Lemma main_split (a : WebBundler.args) (w : world) :
  Pure.split_web_files a (w_tree w) <> [] \/ isdir w (WebBundler.output_dir a) = true ->
  WebBundler.main a w = Ok (Pure.main_split a w).
Proof.
  intros Hrun. unfold WebBundler.main, Pure.main_split.
  rewrite process_steps_split. cbn [mbind result_bind].
  pose proof (process_steps_isdir a w) as Hdir.
  destruct (fold_left _ _ _) as [w' processed]. cbn [fst snd] in *.
  unfold WebBundler.generate_index_file. rewrite open_w_isdir; [reflexivity|].
  rewrite Hdir. destruct Hrun as [Hne| ->]; [|apply orb_true_r].
  now rewrite bool_decide_eq_false_2.
Qed.

(** ... and raises otherwise: with nothing to bundle, nothing made the
    output directory, and the index cannot be opened. *)
Lemma main_split_raises (a : WebBundler.args) (w : world) :
  Pure.split_web_files a (w_tree w) = [] ->
  isdir w (WebBundler.output_dir a) = false ->
  WebBundler.main a w
  = Raise (FileNotFoundError (OsPath.join (WebBundler.output_dir a) "web_bundle.hpp")).
Proof.
  intros Hnone Hdir. unfold WebBundler.main.
  rewrite process_steps_split, Hnone. cbn [fold_left mbind result_bind].
  unfold WebBundler.generate_index_file. now rewrite open_w_missing.
Qed.

(** A run that completes is the run of [Pure.main_split]. *)
Lemma main_split_ok (a : WebBundler.args) (w w' : world) :
  WebBundler.main a w = Ok w' ->
  w' = Pure.main_split a w
  /\ (Pure.split_web_files a (w_tree w) <> [] \/ isdir w (WebBundler.output_dir a) = true).
Proof.
  intros Hrun.
  destruct (Pure.split_web_files a (w_tree w)) as [|e l] eqn:Hl.
  - destruct (isdir w (WebBundler.output_dir a)) eqn:Hdir.
    + rewrite main_split in Hrun by (now right). injection Hrun as <-.
      split; [reflexivity|now right].
    + now rewrite main_split_raises in Hrun.
  - rewrite main_split in Hrun by (left; rewrite Hl; discriminate).
    injection Hrun as <-. split; [reflexivity|now left].
Qed.

(** ** Determinism *)

Lemma combined_target :
  OsPath.join BundleWebFiles.output_dir "web_bundle.hpp" = Sample.web_bundle_hpp.
Proof. reflexivity. Qed.

Lemma main_combined_files (w : world) :
  w_files (Pure.main_combined w)
  = <[Sample.web_bundle_hpp :=
        Pure.web_bundle_hpp (Pure.web_files (w_cwd w) (w_tree w))]> (w_files w).
Proof. reflexivity. Qed.

Lemma main_combined_file (w : world) :
  w_files (Pure.main_combined w) !! Sample.web_bundle_hpp
  = Some (Pure.web_bundle_hpp (Pure.web_files (w_cwd w) (w_tree w))).
Proof. rewrite main_combined_files. apply lookup_insert_eq. Qed.

(** A second run writes the same files where the walk finds the tree that
    the first run found. *)
Lemma main_combined_again (w : world) :
  w_tree (Pure.main_combined w) = w_tree w ->
  w_files (Pure.main_combined (Pure.main_combined w)) = w_files (Pure.main_combined w).
Proof.
  intros Htree. rewrite (main_combined_files (Pure.main_combined w)), Htree.
  change (w_cwd (Pure.main_combined w)) with (w_cwd w).
  rewrite main_combined_files. apply insert_insert_eq.
Qed.

Lemma writes_over {V : Type} (key : string * list byte -> string)
    (val : string * list byte -> V) (l : list (string * list byte)) :
  forall m : gmap string V,
    fold_left (fun m e => <[key e := val e]> m) l m
    = fold_left (fun m e => <[key e := val e]> m) l ∅ ∪ m.
Proof.
  induction l as [|e l IH]; intros m; cbn [fold_left].
  - now rewrite (left_id_L ∅ (∪)).
  - rewrite (IH (<[key e := val e]> m)), (IH (<[key e := val e]> ∅)).
    rewrite (insert_union_singleton_l m), insert_empty.
    now rewrite (assoc_L (∪)).
Qed.

Lemma process_steps_files (a : WebBundler.args) (cwd : string)
    (l : list (string * list byte)) :
  forall st,
    w_files (fold_left (Pure.process_step a cwd) l st).1
    = fold_left (fun m e => <[Pure.header_path a cwd e := Pure.header a cwd e]> m) l
        (w_files st.1).
Proof.
  induction l as [|e l IH]; intros st; [reflexivity|].
  cbn [fold_left]. now rewrite IH.
Qed.

Lemma process_steps_processed (a : WebBundler.args) (cwd : string)
    (l : list (string * list byte)) :
  forall st,
    (fold_left (Pure.process_step a cwd) l st).2
    = st.2 ++ map (fun e => (Pure.rel_path cwd e.1,
                             Spec.symbolic_name (Pure.rel_path cwd e.1))) l.
Proof.
  induction l as [|e l IH]; intros st; cbn [fold_left map]; [now rewrite app_nil_r|].
  rewrite IH. cbn [Pure.process_step snd]. now rewrite <- app_assoc.
Qed.

Lemma main_split_files (a : WebBundler.args) (w : world) :
  w_files (Pure.main_split a w)
  = Pure.split_written a (w_cwd w) (w_tree w) ∪ w_files w.
Proof.
  unfold Pure.main_split, Pure.split_written.
  cbn [print write_file w_files].
  rewrite process_steps_files, process_steps_processed. cbn [fst snd app].
  rewrite writes_over. apply insert_union_l.
Qed.

Lemma process_steps_frame (a : WebBundler.args) (cwd : string)
    (l : list (string * list byte)) :
  forall st,
    w_cwd (fold_left (Pure.process_step a cwd) l st).1 = w_cwd st.1
    /\ w_scan (fold_left (Pure.process_step a cwd) l st).1 = w_scan st.1.
Proof.
  induction l as [|e l IH]; intros st; [now split|].
  cbn [fold_left]. destruct (IH (Pure.process_step a cwd st e)) as [-> ->]. now split.
Qed.

Lemma main_split_cwd (a : WebBundler.args) (w : world) :
  w_cwd (Pure.main_split a w) = w_cwd w.
Proof.
  exact (proj1 (process_steps_frame a (w_cwd w)
                  (Pure.split_web_files a (w_tree w)) (w, []))).
Qed.

Lemma main_split_again (a : WebBundler.args) (w : world) :
  w_tree (Pure.main_split a w) = w_tree w ->
  w_files (Pure.main_split a (Pure.main_split a w)) = w_files (Pure.main_split a w).
Proof.
  intros Htree.
  rewrite (main_split_files a (Pure.main_split a w)), Htree, main_split_cwd.
  rewrite main_split_files, (assoc_L (∪)), (idemp_L (∪)). reflexivity.
Qed.

(** The files that bundle_web_files.py bundles, from the files of the tree. *)
Lemma walk_dir_located (n : node) :
  forall top,
    flat_map (fun '(root, _, files) => map (fun '(file, data) => (root, file, data)) files)
      (Os.walk_dir top n)
    = map (fun '(ds, file, data) => (fold_left OsPath.join ds top, file, data))
        (Spec.located n).
Proof.
  induction n as [data|entries IH] using node_induction; intros top; [reflexivity|].
  cbn [Os.walk_dir Spec.located flat_map].
  rewrite map_app, map_map. f_equal.
  - apply map_ext. now intros [file data].
  - induction IH as [|[name child] rest Hchild _ IHrest]; [reflexivity|].
    cbn [flat_map]. rewrite flat_map_app, map_app, IHrest. f_equal.
    cbn in Hchild. rewrite Hchild, map_map. apply map_ext. now intros [[ds file] data].
Qed.

Lemma walked_located (top : string) (tree : node) :
  top <> "" ->
  Pure.walked top tree
  = map (fun '(ds, file, data) => (fold_left OsPath.join ds top, file, data))
      (Spec.located tree).
Proof.
  intros Htop. unfold Pure.walked, Os.walk.
  destruct (String.eqb_spec top ""); [contradiction|]. apply walk_dir_located.
Qed.

Lemma filter_permutation {A : Type} (p : A -> bool) (l1 l2 : list A) :
  Permutation l1 l2 -> Permutation (List.filter p l1) (List.filter p l2).
Proof.
  induction 1 as [|x l1 l2 _ IH|x y l|l1 l2 l3 _ IH1 _ IH2]; cbn [List.filter].
  - constructor.
  - destruct (p x); [now constructor|exact IH].
  - destruct (p x), (p y); try reflexivity. apply perm_swap.
  - now transitivity (List.filter p l2).
Qed.

Lemma web_files_permutation (cwd : string) (t1 t2 : node) :
  Spec.same_contents t1 t2 ->
  Permutation (Pure.web_files cwd t1) (Pure.web_files cwd t2).
Proof.
  intros Hsame. unfold Pure.web_files.
  rewrite !walked_located by discriminate.
  apply Permutation_map, filter_permutation, Permutation_map. exact Hsame.
Qed.

Lemma web_files_listing (cwd : string) (t1 t2 : node) :
  Spec.located t1 = Spec.located t2 -> Pure.web_files cwd t1 = Pure.web_files cwd t2.
Proof.
  intros Hsame. unfold Pure.web_files.
  rewrite !walked_located by discriminate. now rewrite Hsame.
Qed.

Lemma flat_map_permutation {A B : Type} (f : A -> list B) (l1 l2 : list A) :
  Permutation l1 l2 -> Permutation (flat_map f l1) (flat_map f l2).
Proof.
  induction 1 as [|x l1 l2 _ IH|x y l|l1 l2 l3 _ IH1 _ IH2]; cbn [flat_map].
  - constructor.
  - now apply Permutation_app_head.
  - rewrite !app_assoc. apply Permutation_app_tail, Permutation_app_comm.
  - now transitivity (flat_map f l2).
Qed.

Lemma web_bundle_hpp_permutation (l1 l2 : list (string * string * list byte)) :
  Permutation l1 l2 -> Permutation (Pure.web_bundle_hpp l1) (Pure.web_bundle_hpp l2).
Proof.
  intros Hperm. unfold Pure.web_bundle_hpp.
  repeat first [ apply Permutation_app_tail
               | apply Permutation_app_head
               | apply Permutation_app
               | now apply flat_map_permutation
               | reflexivity ].
Qed.




(** ** Hidden names *)

Lemma filter_map_commute {A B : Type} (g : A -> B) (p : B -> bool) (l : list A) :
  List.filter p (map g l) = map g (List.filter (fun x => p (g x)) l).
Proof.
  induction l as [|x l IH]; [reflexivity|]. cbn.
  destruct (p (g x)); cbn; now rewrite IH.
Qed.

Lemma kept_files (top : string) (tree : node) :
  top <> "" ->
  map (fun '(root, file, data) => (OsPath.join root file, data))
    (List.filter Pure.keep (Pure.walked top tree))
  = map (fun '(ds, file, data) => (Spec.path_below top ds file, data))
      (List.filter (fun '(_, file, _) => negb (Spec.hidden file)) (Spec.located tree)).
Proof.
  intros Htop. rewrite (walked_located top tree Htop), filter_map_commute, map_map.
  rewrite (List.filter_ext _ (fun '(_, file, _) => negb (Spec.hidden file)))
    by now intros [[ds file] data].
  apply map_ext. now intros [[ds file] data].
Qed.

Lemma web_files_paths (cwd : string) (tree : node) :
  map (fun '(file_path, _, data) => (file_path, data)) (Pure.web_files cwd tree)
  = map (fun '(root, file, data) => (OsPath.join root file, data))
      (List.filter Pure.keep (Pure.walked "web" tree)).
Proof.
  unfold Pure.web_files. rewrite map_map. apply map_ext. now intros [[root file] data].
Qed.

(** C6, as the scripts have it.  The files that become entries of
    [web_files] are the files of the tree whose own name does not start with
    a dot, in the order of the walk: a file whose name starts with a dot is
    skipped wherever it lies, and the names of the directories above a file
    play no part. *)
Theorem hidden_files_skipped (a : WebBundler.args) (w : world) :
  WebBundler.web_dir a <> "" ->
  (exists web_files,
     BundleWebFiles.collect_web_files w = Ok web_files
     /\ map (fun '(file_path, _, data) => (file_path, data)) web_files
        = map (fun '(ds, file, data) => (Spec.path_below "web" ds file, data))
            (List.filter (fun '(_, file, _) => negb (Spec.hidden file))
               (Spec.located (w_tree w))))
  /\ WebBundler.collect_web_files a w
     = map (fun '(ds, file, data) => (Spec.path_below (WebBundler.web_dir a) ds file, data))
         (List.filter (fun '(_, file, _) => negb (Spec.hidden file))
            (Spec.located (w_tree w))).
Proof.
  intros Hdir. split.
  - exists (Pure.web_files (w_cwd w) (w_tree w)). split; [apply collect_combined|].
    rewrite web_files_paths. now apply kept_files.
  - rewrite collect_split. now apply kept_files.
Qed.

Lemma hidden_files_skipped_witness :
  (exists web_files,
     BundleWebFiles.collect_web_files Sample.with_hidden = Ok web_files
     /\ map (fun '(file_path, _, data) => (file_path, data)) web_files
        = [("web/app.js", Sample.bytes "x=1"); ("web/.git/config", Sample.bytes "[core]")])
  /\ WebBundler.collect_web_files WebBundler.default_args Sample.with_hidden
     = [("web/app.js", Sample.bytes "x=1"); ("web/.git/config", Sample.bytes "[core]")].
Proof.
  exact (hidden_files_skipped WebBundler.default_args Sample.with_hidden
           ltac:(discriminate)).
Defined.

(** C6, as the claim has it, fails: [config] lies under the hidden directory
    [.git] and is an entry of [web_files] in both scripts, and the header
    written by bundle_web_files.py declares its bytes. *)
Lemma file_under_hidden_directory_is_bundled :
  In ([".git"], "config", Sample.bytes "[core]") (Spec.located (w_tree Sample.with_hidden))
  /\ Spec.hidden ".git" = true
  /\ BundleWebFiles.collect_web_files Sample.with_hidden
     = Ok [("web/app.js", "app.js", Sample.bytes "x=1");
           ("web/.git/config", ".git/config", Sample.bytes "[core]")]
  /\ WebBundler.collect_web_files WebBundler.default_args Sample.with_hidden
     = [("web/app.js", Sample.bytes "x=1"); ("web/.git/config", Sample.bytes "[core]")]
  /\ exists w' f,
       BundleWebFiles.main Sample.with_hidden = Ok w'
       /\ w_files w' !! Sample.web_bundle_hpp = Some f
       /\ In (Cxx.DefBytes "_git_config" (Sample.bytes "[core]")) f
       /\ In (Cxx.DefString "_git_config_path" ".git/config") f.
Proof.
  split; [cbn; tauto|]. split; [reflexivity|]. split; [reflexivity|]. split; [reflexivity|].
  exists (Pure.main_combined Sample.with_hidden). eexists.
  split; [apply main_combined|]. split; [apply main_combined_file|].
  vm_compute. tauto.
Qed.


(** ** Colliding names *)

Lemma chars_app (a b : string) :
  list_ascii_of_string (a +:+ b) = list_ascii_of_string a ++ list_ascii_of_string b.
Proof.
  induction a as [|c a IH]; [reflexivity|].
  change (String c a +:+ b) with (String c (a +:+ b)). cbn. now rewrite IH.
Qed.

Lemma ident_start_not_slash (c : ascii) : Spec.ident_start c = true -> Ascii.eqb c "/" = false.
Proof. by_cases_on_char c. Qed.

Lemma identifier_file_name (var_name suffix : string) :
  Spec.is_identifier var_name = true -> Py.startswith (var_name +:+ suffix) "/" = false.
Proof.
  destruct var_name as [|c n]; [discriminate|].
  change (String c n +:+ suffix) with (String c (n +:+ suffix)).
  cbn -[ascii_dec]. intros H. apply andb_prop in H as [Hc _].
  apply ident_start_not_slash in Hc.
  destruct (ascii_dec "/" c) as [<-|]; [discriminate|reflexivity].
Qed.

Lemma chars_inj (a b : string) :
  list_ascii_of_string a = list_ascii_of_string b -> a = b.
Proof.
  intros H. rewrite <- (string_of_list_ascii_of_string a), H.
  apply string_of_list_ascii_of_string.
Qed.

Lemma append_inv_head (p a b : string) : p +:+ a = p +:+ b -> a = b.
Proof.
  intros H. apply chars_inj. apply (f_equal list_ascii_of_string) in H.
  rewrite !chars_app in H. now apply app_inv_head in H.
Qed.

Lemma append_inv_tail (a b s : string) : a +:+ s = b +:+ s -> a = b.
Proof.
  intros H. apply chars_inj. apply (f_equal list_ascii_of_string) in H.
  rewrite !chars_app in H. now apply app_inv_tail in H.
Qed.

Lemma join_name_inj (dir n1 n2 : string) :
  Py.startswith n1 "/" = false ->
  Py.startswith n2 "/" = false ->
  OsPath.join dir n1 = OsPath.join dir n2 -> n1 = n2.
Proof.
  unfold OsPath.join. intros -> ->.
  destruct (_ || _); intros H.
  - now apply append_inv_head in H.
  - change (dir +:+ "/" +:+ n1) with (dir +:+ ("/" +:+ n1)) in H.
    change (dir +:+ "/" +:+ n2) with (dir +:+ ("/" +:+ n2)) in H.
    apply append_inv_head in H. now injection H.
Qed.

Lemma header_path_inj (dir v1 v2 : string) :
  Spec.is_identifier v1 = true ->
  Spec.is_identifier v2 = true ->
  OsPath.join dir (v1 +:+ ".hpp") = OsPath.join dir (v2 +:+ ".hpp") -> v1 = v2.
Proof.
  intros H1 H2 H. apply join_name_inj in H; try now apply identifier_file_name.
  now apply append_inv_tail in H.
Qed.

Lemma combined_declares (web_files : list (string * string * list byte))
    (file_path rel_path : string) (content : list byte) :
  In (file_path, rel_path, content) web_files ->
  In (Cxx.DefBytes (Spec.symbolic_name rel_path) content) (Pure.web_bundle_hpp web_files).
Proof.
  intros Hin. unfold Pure.web_bundle_hpp.
  do 7 (apply in_or_app; left).
  apply in_or_app; right.
  apply in_flat_map. exists (file_path, rel_path, content).
  split; [exact Hin|]. cbn. tauto.
Qed.

Lemma writes_elsewhere {A V : Type} (key : A -> string) (val : A -> V) (k : string)
    (l : list A) :
  forall m : gmap string V,
    (forall e, In e l -> key e <> k) ->
    fold_left (fun m e => <[key e := val e]> m) l m !! k = m !! k.
Proof.
  induction l as [|e l IH]; intros m Hl; [reflexivity|].
  cbn [fold_left]. rewrite IH by (intros e' He'; apply Hl; now right).
  apply lookup_insert_ne. apply Hl. now left.
Qed.

Lemma last_write_wins {A V : Type} (key : A -> string) (val : A -> V)
    (before after : list A) (entry : A) (m : gmap string V) :
  (forall later, In later after -> key later <> key entry) ->
  fold_left (fun m e => <[key e := val e]> m) (before ++ entry :: after) m !! key entry
  = Some (val entry).
Proof.
  intros Hafter. rewrite fold_left_app. cbn [fold_left].
  rewrite writes_elsewhere by exact Hafter. apply lookup_insert_eq.
Qed.

Lemma combined_declares_path (web_files : list (string * string * list byte))
    (file_path rel_path : string) (content : list byte) :
  In (file_path, rel_path, content) web_files ->
  In (Cxx.DefString (Spec.symbolic_name rel_path +:+ "_path") rel_path)
    (Pure.web_bundle_hpp web_files).
Proof.
  intros Hin. unfold Pure.web_bundle_hpp.
  do 7 (apply in_or_app; left).
  apply in_or_app; right.
  apply in_flat_map. exists (file_path, rel_path, content).
  split; [exact Hin|]. cbn. tauto.
Qed.




(** ** The two modes side by side *)

Lemma replace_outside_length (s : string) :
  String.length (Spec.replace_outside s) = String.length s.
Proof. induction s as [|c s IH]; cbn; [reflexivity|now rewrite IH]. Qed.

Lemma symbolic_name_length (s : string) :
  String.length s <= String.length (Spec.symbolic_name s).
Proof.
  unfold Spec.symbolic_name.
  pose proof (replace_outside_length s) as Hlen.
  destruct (Spec.replace_outside s) as [|c r]; [cbn in *; lia|].
  destruct (Spec.is_digit c); cbn in *; lia.
Qed.

(** The key that web_bundler.py line 128 writes for a file is never the
    relative path of that file: it is at least five characters longer. *)
Lemma split_key_is_not_the_path (rel_path : string) :
  Spec.symbolic_name rel_path +:+ "_path" <> rel_path.
Proof.
  intros Heq. apply (f_equal String.length) in Heq.
  rewrite append_length in Heq.
  pose proof (symbolic_name_length rel_path). cbn in Heq. lia.
Qed.

(** C1 at the root that holds [index.html] alone.  Both scripts complete and
    their output declares the same identifiers with the same values, and the
    maps of paths and of MIME types agree; but the map of
    [get_bundled_files()] has the key [index.html] after bundle_web_files.py
    and the key [index_html_path] after web_bundler.py, which writes the name
    of the path variable between quotes (line 128).  The index of
    web_bundler.py is read here for its definitions and assignments; its
    braces do not balance, see [split_index_braces]. *)
Theorem modes_disagree_on_files_map :
  exists pc ps,
    Sample.combined Sample.index_only = Some pc
    /\ Sample.split Sample.index_only = Some ps
    /\ Cxx.globals pc = Cxx.globals ps
    /\ Cxx.get_bundled_file_paths pc = Ok {[ "index.html" := "index.html" ]}
    /\ Cxx.get_bundled_file_paths ps = Ok {[ "index.html" := "index.html" ]}
    /\ Cxx.get_bundled_file_mime_types pc = Ok {[ "index.html" := "text/html" ]}
    /\ Cxx.get_bundled_file_mime_types ps = Ok {[ "index.html" := "text/html" ]}
    /\ Cxx.get_bundled_files pc = Ok {[ "index.html" := "index_html" ]}
    /\ Cxx.get_bundled_files ps = Ok {[ "index_html_path" := "index_html" ]}
    /\ In (Cxx.Assign "files" (Cxx.KLit "index.html") (Cxx.AddrOf "index_html"))
         (Cxx.index pc)
    /\ In (Cxx.Assign "files" (Cxx.KLit "index_html_path") (Cxx.AddrOf "index_html"))
         (Cxx.index ps).
Proof.
  exists (default (Cxx.Program ∅ []) (Sample.combined Sample.index_only)),
    (default (Cxx.Program ∅ []) (Sample.split Sample.index_only)).
  repeat apply conj; try (vm_compute; reflexivity); vm_compute; tauto.
Qed.

(** C7 at the files of the lookup test of section 8.  After
    bundle_web_files.py the lookups are as the claim says (and so they are
    for every tree with plain paths and distinct identifiers, see
    [combined_lookups]).  After web_bundler.py
    [get_bundled_file("css/a.css")] is the null pointer although the path is
    stored, and [get_bundled_file("css_a_css_path")] finds the bytes although
    that is no stored path; the MIME lookups are as the claim says in
    both. *)
Theorem split_lookup_misses_stored_path :
  exists pc ps,
    Sample.combined Sample.two_files = Some pc
    /\ Sample.split Sample.two_files = Some ps
    /\ Cxx.get_bundled_file pc "css/a.css" = Ok (Some "css_a_css")
    /\ Cxx.deref pc "css_a_css" = Some (Sample.bytes "b{}")
    /\ Cxx.get_bundled_file pc "missing.txt" = Ok None
    /\ Cxx.get_bundled_file_mime_type pc "css/a.css" = Ok "text/css"
    /\ Cxx.get_bundled_file_mime_type pc "missing.txt" = Ok "application/octet-stream"
    /\ Cxx.get_bundled_file ps "css/a.css" = Ok None
    /\ Cxx.get_bundled_file ps "index.html" = Ok None
    /\ Cxx.get_bundled_file ps "css_a_css_path" = Ok (Some "css_a_css")
    /\ Cxx.deref ps "css_a_css" = Some (Sample.bytes "b{}")
    /\ Cxx.get_bundled_file_mime_type ps "css/a.css" = Ok "text/css"
    /\ Cxx.get_bundled_file_mime_type ps "missing.txt" = Ok "application/octet-stream".
Proof.
  exists (default (Cxx.Program ∅ []) (Sample.combined Sample.two_files)),
    (default (Cxx.Program ∅ []) (Sample.split Sample.two_files)).
  repeat apply conj; vm_compute; reflexivity.
Qed.

(** The index of web_bundler.py closes two braces more than it opens: its
    last part (lines 154-179) is a plain string, so [}}] is written as it
    stands.  The header of bundle_web_files.py and the per-file headers are
    balanced. *)
Example split_index_braces :
  Cxx.brace_depth
    (Cxx.text (WebBundler.index_content [("index.html", "index_html")] "dht_hunter"))
  = (-2)%Z
  /\ Cxx.brace_depth
       (Cxx.text (WebBundler.header_content "dht_hunter" "index.html" "index_html"
                    "web/index.html" (Sample.bytes "<h1>DHT</h1>")))
     = 0%Z
  /\ Cxx.brace_depth
       (Cxx.text (Pure.web_bundle_hpp
                    [("web/index.html", "index.html", Sample.bytes "<h1>DHT</h1>")]))
     = 0%Z.
Proof. repeat apply conj; vm_compute; reflexivity. Qed.

(** In every run of web_bundler.py that completes, the assignment written
    to the body of [get_bundled_files()] for a file has the key
    [{var_name}_path] between quotes, which is not the relative path of the
    file. *)
Lemma split_files_key_everywhere (a : WebBundler.args) (w w' : world) :
  WebBundler.main a w = Ok w' ->
  exists index,
    w_files w' !! OsPath.join (WebBundler.output_dir a) "web_bundle.hpp" = Some index
    /\ forall file_path content,
         In (file_path, content) (WebBundler.collect_web_files a w) ->
         exists rel_path var_name,
           OsPath.relpath (w_cwd w) file_path "web" = Ok rel_path
           /\ WebBundler.sanitize_var_name rel_path = Ok var_name
           /\ In (Cxx.Assign "files" (Cxx.KLit (var_name +:+ "_path")) (Cxx.AddrOf var_name))
                index
           /\ var_name +:+ "_path" <> rel_path.
Proof.
  intros Hrun. apply main_split_ok in Hrun as [-> _]. eexists. split.
  - rewrite main_split_files. unfold Pure.split_written.
    erewrite lookup_union_Some_l; [reflexivity|apply lookup_insert_eq].
  - intros fp content Hin. rewrite collect_split in Hin.
    pose proof (split_web_files_nonempty a (w_tree w) fp content Hin) as Hfp.
    destruct (rel_path_ok (w_cwd w) fp Hfp) as [Hrel Hne].
    exists (Pure.rel_path (w_cwd w) fp), (Spec.symbolic_name (Pure.rel_path (w_cwd w) fp)).
    split; [exact Hrel|].
    split; [rewrite sanitize_same; now apply sanitize_combined_spec|].
    split; [|apply split_key_is_not_the_path].
    unfold WebBundler.index_content.
    apply in_or_app. right. apply in_or_app. right. apply in_or_app. right.
    apply in_or_app. left.
    apply in_map_iff.
    exists (Pure.rel_path (w_cwd w) fp, Spec.symbolic_name (Pure.rel_path (w_cwd w) fp)).
    split; [reflexivity|].
    apply in_map_iff. exists (fp, content). now split.
Qed.

(** The text of a declaration of thirteen bytes: a line break and four
    spaces before the first and the thirteenth element, and a comma and a
    space after every element. *)
Example def_bytes_text :
  Cxx.text [Cxx.DefBytes "logo_png" (Sample.bytes "0123456789abc")]
  = Cxx.lines [
      "inline const std::vector<unsigned char> logo_png = {";
      "";
      "    0x30, 0x31, 0x32, 0x33, 0x34, 0x35, 0x36, 0x37, 0x38, 0x39, 0x61, 0x62, ";
      "    0x63, ";
      "};"].
Proof. reflexivity. Qed.

(** ** The lookups after bundle_web_files.py *)

Lemma for_each_app {E A S : Type} (body : S -> A -> result E S) (l1 l2 : list A) :
  forall acc : S,
    for_each (l1 ++ l2) body acc = for_each l1 body acc ≫= for_each l2 body.
Proof.
  induction l1 as [|x l1 IH]; intros acc; [reflexivity|].
  cbn [app for_each]. destruct (body acc x) as [acc'|e]; [apply IH|reflexivity].
Qed.

Lemma for_each_skip {E A S : Type} (body : S -> A -> result E S) (l : list A) (acc : S) :
  (forall x, In x l -> body acc x = Ok acc) -> for_each l body acc = Ok acc.
Proof.
  induction l as [|x l IH]; intros Hl; [reflexivity|].
  cbn [for_each]. rewrite (Hl x (or_introl eq_refl)). apply IH.
  intros y Hy. apply Hl. now right.
Qed.

Lemma assoc_in (e : string) (table : list (string * string)) (v : string) :
  Spec.assoc e table = Some v -> In v (map snd table).
Proof.
  induction table as [|[k v'] table IH]; [discriminate|]. cbn.
  destruct (String.eqb e k); [intros [= ->]; now left|intros H; right; now apply IH].
Qed.

Lemma mime_type_plain (file_path : string) :
  Cxx.literal (BundleWebFiles.get_mime_type file_path)
  = Ok (BundleWebFiles.get_mime_type file_path).
Proof.
  unfold BundleWebFiles.get_mime_type. cbv zeta. rewrite dict_lookup_spec.
  unfold Spec.resolve_mime.
  destruct (Py.lower _) as [|c e]; [reflexivity|].
  destruct (Ascii.eqb_spec c ".") as [->|Hc].
  - destruct (Spec.assoc e Spec.mime_table) as [v|] eqn:Hv; [|reflexivity].
    apply assoc_in in Hv. cbn in Hv.
    repeat destruct Hv as [<-|Hv]; try reflexivity. destruct Hv.
  - destruct c as [[] [] [] [] [] [] [] []]; try reflexivity. congruence.
Qed.

Lemma identifiers_distinct (entry : string * string * list byte) :
  NoDup (Pure.identifiers entry) ->
  let var_name := Spec.symbolic_name entry.1.2 in
  var_name <> var_name +:+ "_path"
  /\ var_name <> var_name +:+ "_mime"
  /\ var_name +:+ "_path" <> var_name +:+ "_mime".
Proof.
  destruct entry as [[fp rel] content]. cbn. intros Hnodup.
  apply NoDup_cons in Hnodup as [H1 Hnodup]. apply NoDup_cons in Hnodup as [H2 _].
  repeat split; intros Heq.
  - apply H1. rewrite <- Heq. repeat constructor.
  - apply H1. rewrite <- Heq. repeat constructor.
  - apply H2. rewrite <- Heq. repeat constructor.
Qed.

Lemma bind_other (env : gmap string Cxx.value) (entry : string * string * list byte)
    (x : string) :
  x ∉ Pure.identifiers entry -> Pure.bind_entry env entry !! x = env !! x.
Proof.
  destruct entry as [[fp rel] content]. cbn. intros Hx.
  rewrite !lookup_insert_ne; [reflexivity|..]; intros <-; apply Hx; repeat constructor.
Qed.

Lemma binds_other (web_files : list (string * string * list byte)) (x : string) :
  forall env : gmap string Cxx.value,
    x ∉ flat_map Pure.identifiers web_files ->
    fold_left Pure.bind_entry web_files env !! x = env !! x.
Proof.
  induction web_files as [|e l IH]; intros env Hx; [reflexivity|].
  cbn [fold_left flat_map] in *. apply not_elem_of_app in Hx as [He Hl].
  now rewrite IH, bind_other.
Qed.

Lemma block_declares (env : gmap string Cxx.value) (entry : string * string * list byte) :
  Pure.plain entry ->
  NoDup (Pure.identifiers entry) ->
  (forall x, x ∈ Pure.identifiers entry -> env !! x = None) ->
  for_each (Pure.file_block entry) Cxx.declare env = Ok (Pure.bind_entry env entry).
Proof.
  intros Hplain Hnodup Hfresh.
  destruct (identifiers_distinct entry Hnodup) as (H12 & H13 & H23).
  destruct entry as [[fp rel] content]. cbn [Pure.plain Pure.identifiers fst snd] in *.
  cbn [Pure.file_block for_each Cxx.declare mbind result_bind].
  unfold Cxx.define, Cxx.literal.
  rewrite Hfresh by (repeat constructor). cbn [mbind result_bind].
  rewrite Hplain. cbn [mbind result_bind].
  rewrite lookup_insert_ne, Hfresh by first [congruence | repeat constructor].
  cbn [mbind result_bind].
  fold (Cxx.literal (BundleWebFiles.get_mime_type fp)). rewrite mime_type_plain.
  cbn [mbind result_bind].
  rewrite !lookup_insert_ne, Hfresh by first [congruence | repeat constructor]. reflexivity.
Qed.

Lemma blocks_declare (web_files : list (string * string * list byte)) :
  forall env : gmap string Cxx.value,
    Forall Pure.plain web_files ->
    NoDup (flat_map Pure.identifiers web_files) ->
    (forall x, x ∈ flat_map Pure.identifiers web_files -> env !! x = None) ->
    for_each (flat_map Pure.file_block web_files) Cxx.declare env
    = Ok (fold_left Pure.bind_entry web_files env).
Proof.
  induction web_files as [|e l IH]; intros env Hplain Hnodup Hfresh; [reflexivity|].
  cbn [flat_map fold_left] in *.
  apply Forall_cons in Hplain as [He Hl].
  apply NoDup_app in Hnodup as (Hide & Hdisj & Hrest).
  rewrite for_each_app, block_declares; [|exact He|exact Hide|].
  - cbn [mbind result_bind]. apply IH; [exact Hl|exact Hrest|].
    intros x Hx. rewrite bind_other.
    + apply Hfresh. apply elem_of_app. now right.
    + intros Hin. now apply (Hdisj x).
  - intros x Hx. apply Hfresh. apply elem_of_app. now left.
Qed.

Lemma bound (web_files : list (string * string * list byte))
    (file_path rel_path : string) (content : list byte) :
  forall env : gmap string Cxx.value,
    NoDup (flat_map Pure.identifiers web_files) ->
    In (file_path, rel_path, content) web_files ->
    let env' := fold_left Pure.bind_entry web_files env in
    env' !! Spec.symbolic_name rel_path = Some (Cxx.VBytes content)
    /\ env' !! (Spec.symbolic_name rel_path +:+ "_path") = Some (Cxx.VString rel_path)
    /\ env' !! (Spec.symbolic_name rel_path +:+ "_mime")
       = Some (Cxx.VString (BundleWebFiles.get_mime_type file_path)).
Proof.
  induction web_files as [|e l IH]; intros env Hnodup Hin; [destruct Hin|].
  cbn [flat_map fold_left] in *.
  apply NoDup_app in Hnodup as (Hide & Hdisj & Hrest).
  destruct Hin as [->|Hin]; [|now apply IH].
  destruct (identifiers_distinct _ Hide) as (H12 & H13 & H23). cbn [fst snd] in *.
  cbv zeta.
  rewrite !binds_other by (apply Hdisj; repeat constructor).
  cbn [Pure.bind_entry].
  rewrite lookup_insert_ne, lookup_insert_ne, lookup_insert_eq by congruence.
  rewrite lookup_insert_ne, lookup_insert_eq by congruence.
  now rewrite lookup_insert_eq.
Qed.

Lemma elaborate_declares (files : gmap string (list Cxx.item)) (dir : string)
    (l : list Cxx.item) :
  (forall name, ~ In (Cxx.IncludeHpp name) l) ->
  forall (seen : gset string) (env : gmap string Cxx.value),
    for_each l (Cxx.elaborate files dir) (seen, env)
    = env' ← for_each l Cxx.declare env; Ok (seen, env').
Proof.
  induction l as [|it l IH]; intros Hl seen env; [reflexivity|].
  assert (Hrest : forall name, ~ In (Cxx.IncludeHpp name) l)
    by (intros name Hin; apply (Hl name); now right).
  cbn [for_each].
  destruct it as [t|x c|x v|name|m k v];
    try (cbn [Cxx.elaborate fst snd];
         destruct (Cxx.declare env _) as [env'|e]; [apply (IH Hrest)|reflexivity]).
  exfalso. apply (Hl name). now left.
Qed.

(** The pieces of the header are of three kinds: one verbatim text, the
    blocks of the files, and the lines of one map. *)
Ltac piece H :=
  first [ apply in_flat_map in H as ([[? ?] ?] & _ & H); cbn in H | cbn in H ];
  repeat destruct H as [H|H]; try contradiction.

Lemma combined_no_include (web_files : list (string * string * list byte)) (name : string) :
  ~ In (Cxx.IncludeHpp name) (Pure.web_bundle_hpp web_files).
Proof.
  unfold Pure.web_bundle_hpp. intros H.
  repeat (apply in_app_or in H as [H|H]); piece H; discriminate.
Qed.

Lemma combined_globals (web_files : list (string * string * list byte)) :
  Forall Pure.plain web_files ->
  NoDup (flat_map Pure.identifiers web_files) ->
  for_each (Pure.web_bundle_hpp web_files) Cxx.declare ∅
  = Ok (fold_left Pure.bind_entry web_files ∅).
Proof.
  intros Hplain Hnodup. unfold Pure.web_bundle_hpp. rewrite !for_each_app.
  rewrite (for_each_skip _ BundleWebFiles.prologue) by (intros x Hx; piece Hx; subst x; reflexivity).
  cbn [mbind result_bind].
  rewrite blocks_declare; [|exact Hplain|exact Hnodup|intros x _; apply lookup_empty].
  cbn [mbind result_bind].
  repeat (rewrite for_each_skip by (intros x Hx; piece Hx; subst x; reflexivity);
          cbn [mbind result_bind]).
  reflexivity.
Qed.

Lemma lookup_written {A V : Type} (key : A -> string) (val : A -> V) (l : list A)
    (m : gmap string V) (entry : A) :
  In entry l ->
  (forall other, In other l -> key other = key entry -> val other = val entry) ->
  fold_left (fun m e => <[key e := val e]> m) l m !! key entry = Some (val entry).
Proof.
  induction l as [|x l IH] using rev_ind; intros Hin Hsame; [destruct Hin|].
  rewrite fold_left_app. cbn [fold_left].
  destruct (decide (key x = key entry)) as [Heq|Hne].
  - rewrite Heq, lookup_insert_eq. f_equal. apply Hsame; [|exact Heq].
    apply in_or_app. right. now left.
  - rewrite lookup_insert_ne by exact Hne.
    apply in_app_or in Hin as [Hin|[->|[]]]; [|congruence].
    apply IH; [exact Hin|]. intros other Hother. apply Hsame. apply in_or_app. now left.
Qed.

Lemma files_lines (env : gmap string Cxx.value)
    (web_files : list (string * string * list byte)) :
  Forall Pure.plain web_files ->
  (forall fp rel content, In (fp, rel, content) web_files ->
     env !! Spec.symbolic_name rel = Some (Cxx.VBytes content)) ->
  forall acc,
    for_each (flat_map Pure.files_line web_files) (Cxx.run_assign env "files") acc
    = Ok (fold_left (fun acc e => <[e.1.2 := Spec.symbolic_name e.1.2]> acc) web_files acc).
Proof.
  induction web_files as [|[[fp rel] content] l IH]; intros Hplain Henv acc; [reflexivity|].
  apply Forall_cons in Hplain as [He Hl].
  cbn [flat_map Pure.files_line app for_each Cxx.run_assign String.eqb Ascii.eqb
       Cxx.eval_key Cxx.eval_val fold_left fst snd].
  cbn. unfold Cxx.literal. cbn [Pure.plain] in He. rewrite He. cbn [mbind result_bind].
  rewrite (Henv fp rel content) by now left. cbn [mbind result_bind].
  apply IH; [exact Hl|]. intros fp' rel' c' Hin. apply (Henv fp'). now right.
Qed.

Lemma mime_types_lines (env : gmap string Cxx.value)
    (web_files : list (string * string * list byte)) :
  Forall Pure.plain web_files ->
  (forall fp rel content, In (fp, rel, content) web_files ->
     env !! (Spec.symbolic_name rel +:+ "_mime")
     = Some (Cxx.VString (BundleWebFiles.get_mime_type fp))) ->
  forall acc,
    for_each (flat_map Pure.mime_types_line web_files) (Cxx.run_assign env "mime_types") acc
    = Ok (fold_left (fun acc e => <[e.1.2 := BundleWebFiles.get_mime_type e.1.1]> acc)
            web_files acc).
Proof.
  induction web_files as [|[[fp rel] content] l IH]; intros Hplain Henv acc; [reflexivity|].
  apply Forall_cons in Hplain as [He Hl].
  cbn. unfold Cxx.literal. cbn [Pure.plain] in He. rewrite He. cbn [mbind result_bind].
  rewrite (Henv fp rel content) by now left. cbn [mbind result_bind].
  apply IH; [exact Hl|]. intros fp' rel' c' Hin. apply (Henv fp' rel' c'). now right.
Qed.

Lemma combined_files_map (env : gmap string Cxx.value)
    (web_files : list (string * string * list byte)) :
  Forall Pure.plain web_files ->
  (forall fp rel content, In (fp, rel, content) web_files ->
     env !! Spec.symbolic_name rel = Some (Cxx.VBytes content)) ->
  Cxx.get_bundled_files (Cxx.Program env (Pure.web_bundle_hpp web_files))
  = Ok (fold_left (fun acc e => <[e.1.2 := Spec.symbolic_name e.1.2]> acc) web_files ∅).
Proof.
  intros Hplain Henv.
  unfold Cxx.get_bundled_files, Cxx.build_map, Pure.web_bundle_hpp.
  cbn [Cxx.index Cxx.globals]. rewrite !for_each_app.
  repeat (rewrite for_each_skip by (intros x Hx; piece Hx; subst x; reflexivity);
          cbn [mbind result_bind]).
  rewrite files_lines by assumption. cbn [mbind result_bind].
  repeat (rewrite for_each_skip by (intros x Hx; piece Hx; subst x; reflexivity);
          cbn [mbind result_bind]).
  reflexivity.
Qed.

Lemma combined_mime_types_map (env : gmap string Cxx.value)
    (web_files : list (string * string * list byte)) :
  Forall Pure.plain web_files ->
  (forall fp rel content, In (fp, rel, content) web_files ->
     env !! (Spec.symbolic_name rel +:+ "_mime")
     = Some (Cxx.VString (BundleWebFiles.get_mime_type fp))) ->
  Cxx.get_bundled_file_mime_types (Cxx.Program env (Pure.web_bundle_hpp web_files))
  = Ok (fold_left (fun acc e => <[e.1.2 := BundleWebFiles.get_mime_type e.1.1]> acc)
          web_files ∅).
Proof.
  intros Hplain Henv.
  unfold Cxx.get_bundled_file_mime_types, Cxx.build_map, Pure.web_bundle_hpp.
  cbn [Cxx.index Cxx.globals]. rewrite !for_each_app.
  repeat (rewrite for_each_skip by (intros x Hx; piece Hx; subst x; reflexivity);
          cbn [mbind result_bind]).
  rewrite mime_types_lines by assumption. cbn [mbind result_bind].
  repeat (rewrite for_each_skip by (intros x Hx; piece Hx; subst x; reflexivity);
          cbn [mbind result_bind]).
  reflexivity.
Qed.

(** After bundle_web_files.py the lookups are as section 4.5 says, for every
    tree whose relative paths can stand between quotes as they are and whose
    generated identifiers are all distinct: [get_bundled_file] returns the
    pointer to the bytes of the file for a stored path and the null pointer
    for any other path, and [get_bundled_file_mime_type] returns the MIME
    type of the file for a stored path and the fallback for any other. *)
Lemma combined_lookups (w : world) :
  let web_files := Pure.web_files (w_cwd w) (w_tree w) in
  Forall Pure.plain web_files ->
  NoDup (flat_map Pure.identifiers web_files) ->
  exists w' p,
    BundleWebFiles.main w = Ok w'
    /\ Cxx.compile (w_files w') BundleWebFiles.output_dir = Ok p
    /\ (forall file_path rel_path content,
          In (file_path, rel_path, content) web_files ->
          exists ptr,
            Cxx.get_bundled_file p rel_path = Ok (Some ptr)
            /\ Cxx.deref p ptr = Some content
            /\ Cxx.get_bundled_file_mime_type p rel_path
               = Ok (BundleWebFiles.get_mime_type file_path))
    /\ (forall path,
          (forall file_path content, ~ In (file_path, path, content) web_files) ->
          Cxx.get_bundled_file p path = Ok None
          /\ Cxx.get_bundled_file_mime_type p path = Ok "application/octet-stream").
Proof.
  intros web_files Hplain Hnodup.
  set (env := fold_left Pure.bind_entry web_files (∅ : gmap string Cxx.value)).
  assert (Hbound : forall fp rel content, In (fp, rel, content) web_files ->
            env !! Spec.symbolic_name rel = Some (Cxx.VBytes content)
            /\ env !! (Spec.symbolic_name rel +:+ "_path") = Some (Cxx.VString rel)
            /\ env !! (Spec.symbolic_name rel +:+ "_mime")
               = Some (Cxx.VString (BundleWebFiles.get_mime_type fp))).
  { intros fp rel content Hin. now apply (bound web_files fp rel content ∅ Hnodup). }
  exists (Pure.main_combined w), (Cxx.Program env (Pure.web_bundle_hpp web_files)).
  split; [apply main_combined|]. split.
  { unfold Cxx.compile. rewrite combined_target, main_combined_file.
    rewrite elaborate_declares by apply combined_no_include.
    fold web_files. rewrite combined_globals by assumption. reflexivity. }
  assert (Hfiles := combined_files_map env web_files Hplain
                      (fun fp rel c Hin => proj1 (Hbound fp rel c Hin))).
  assert (Hmimes := combined_mime_types_map env web_files Hplain
                      (fun fp rel c Hin => proj2 (proj2 (Hbound fp rel c Hin)))).
  unfold Cxx.get_bundled_file, Cxx.get_bundled_file_mime_type.
  rewrite Hfiles, Hmimes. cbn [mbind result_bind]. split.
  - intros fp rel content Hin. exists (Spec.symbolic_name rel).
    rewrite (lookup_written (fun e : string * string * list byte => e.1.2)
               (fun e => Spec.symbolic_name e.1.2) web_files ∅ (fp, rel, content) Hin)
      by (intros other _ Heq; cbn in *; now rewrite Heq).
    rewrite (lookup_written (fun e : string * string * list byte => e.1.2)
               (fun e => BundleWebFiles.get_mime_type e.1.1) web_files ∅
               (fp, rel, content) Hin).
    + split; [reflexivity|]. split; [|reflexivity].
      unfold Cxx.deref. cbn [Cxx.globals]. now rewrite (proj1 (Hbound fp rel content Hin)).
    + intros [[fp' rel'] c'] Hother Heq. cbn in *. subst rel'.
      destruct (Hbound fp' rel c' Hother) as (_ & _ & H1).
      destruct (Hbound fp rel content Hin) as (_ & _ & H2). congruence.
  - intros path Habsent.
    rewrite !writes_elsewhere, !lookup_empty; [now split|..];
      intros [[fp rel] c] Hin <-; now apply (Habsent fp c).
Qed.

(** The files of the lookup test of section 8 meet the two conditions. *)
Example combined_lookups_two_files :
  exists w' p,
    BundleWebFiles.main Sample.two_files = Ok w'
    /\ Cxx.compile (w_files w') BundleWebFiles.output_dir = Ok p
    /\ (forall file_path rel_path content,
          In (file_path, rel_path, content)
            [("web/index.html", "index.html", Sample.bytes "<h1>DHT</h1>");
             ("web/css/a.css", "css/a.css", Sample.bytes "b{}")] ->
          exists ptr,
            Cxx.get_bundled_file p rel_path = Ok (Some ptr)
            /\ Cxx.deref p ptr = Some content
            /\ Cxx.get_bundled_file_mime_type p rel_path
               = Ok (BundleWebFiles.get_mime_type file_path))
    /\ (forall path,
          (forall file_path content,
             ~ In (file_path, path, content)
                 [("web/index.html", "index.html", Sample.bytes "<h1>DHT</h1>");
                  ("web/css/a.css", "css/a.css", Sample.bytes "b{}")]) ->
          Cxx.get_bundled_file p path = Ok None
          /\ Cxx.get_bundled_file_mime_type p path = Ok "application/octet-stream").
Proof.
  apply (combined_lookups Sample.two_files).
  - repeat constructor.
  - apply (bool_decide_unpack _). vm_compute. exact I.
Qed.

(** The second condition asks more than distinct symbolic names: [app] and
    [app.path] have the symbolic names [app] and [app_path], and the header
    declares [app_path] twice, as the path of the first file and as the bytes
    of the second. *)
Example derived_identifiers_clash :
  Spec.symbolic_name "app" <> Spec.symbolic_name "app.path"
  /\ (exists w',
        BundleWebFiles.main Sample.derived_clash = Ok w'
        /\ Cxx.compile (w_files w') BundleWebFiles.output_dir
           = Raise (Cxx.Redefinition "app_path")).
Proof.
  split; [discriminate|].
  exists (Pure.main_combined Sample.derived_clash).
  split; [apply main_combined|vm_compute; reflexivity].
Qed.

(** * Further properties *)

(** ** Names that [sanitize_var_name] leaves as they are *)

(** X1.  [sanitize_var_name] of either script returns its argument unchanged
    exactly when the argument is matched in full by
    [[_A-Za-z][_A-Za-z0-9]*]: the identifiers are the names that need no
    sanitizing, and every other name is changed or refused. *)
Theorem sanitize_var_name_fixed_points (name : string) :
  (BundleWebFiles.sanitize_var_name name = Ok name <-> Spec.is_identifier name = true)
  /\ (WebBundler.sanitize_var_name name = Ok name <-> Spec.is_identifier name = true).
Proof.
  assert (H : BundleWebFiles.sanitize_var_name name = Ok name
              <-> Spec.is_identifier name = true).
  { split.
    - intros Hfix. destruct name as [|c name]; [discriminate|].
      rewrite sanitize_combined_spec in Hfix by discriminate.
      injection Hfix as Hfix. rewrite <- Hfix.
      now apply symbolic_name_is_identifier.
    - intros Hid. rewrite sanitize_combined_spec by now destruct name.
      f_equal. now apply symbolic_name_fixed. }
  split; [exact H|]. rewrite sanitize_same. exact H.
Qed.

(** ** The text of a byte array *)

Lemma element_chars (b : byte) :
  forallb Facts.array_char (list_ascii_of_string ("0x" +:+ Py.format_02x b +:+ ", ")) = true
  /\ String.length ("0x" +:+ Py.format_02x b +:+ ", ") = 6.
Proof. destruct b; split; reflexivity. Qed.

Lemma lines_started (i : nat) :
  (i + 12) / 12 = (i + 11) / 12 + (if (i mod 12 =? 0)%nat then 1 else 0).
Proof.
  pose proof (Nat.div_mod_eq i 12) as Hi.
  pose proof (Nat.mod_upper_bound i 12 ltac:(lia)) as Hr.
  destruct (Nat.eqb_spec (i mod 12) 0) as [H0|H0].
  - rewrite <- (Nat.div_unique (i + 12) 12 (i / 12 + 1) 0) by lia.
    rewrite <- (Nat.div_unique (i + 11) 12 (i / 12) 11) by lia. lia.
  - rewrite <- (Nat.div_unique (i + 12) 12 (i / 12 + 1) (i mod 12)) by lia.
    rewrite <- (Nat.div_unique (i + 11) 12 (i / 12 + 1) (i mod 12 - 1)) by lia. lia.
Qed.

Lemma write_bytes_text (content : list byte) :
  forall i,
    forallb Facts.array_char (list_ascii_of_string (Cxx.write_bytes i content)) = true
    /\ String.length (Cxx.write_bytes i content) + 5 * ((i + 11) / 12)
       = 6 * length content + 5 * ((i + length content + 11) / 12).
Proof.
  induction content as [|b content IH]; intros i.
  - split; [reflexivity|]. cbn [Cxx.write_bytes length String.length].
    now rewrite Nat.add_0_r.
  - destruct (IH (S i)) as [IHc IHl]. destruct (element_chars b) as [Hc Hl].
    cbn [Cxx.write_bytes length].
    change ("0x" +:+ Py.format_02x b +:+ ", " +:+ Cxx.write_bytes (S i) content)
      with (("0x" +:+ Py.format_02x b +:+ ", ") +:+ Cxx.write_bytes (S i) content).
    set (element := "0x" +:+ Py.format_02x b +:+ ", ") in *.
    set (rest := Cxx.write_bytes (S i) content) in *.
    rewrite !chars_app, !forallb_app, !append_length, Hc, Hl, IHc.
    pose proof (lines_started i) as Hi.
    replace (S i + length content + 11) with (i + S (length content) + 11) in IHl by lia.
    replace (S i + 11) with (i + 12) in IHl by lia.
    destruct (i mod 12 =? 0)%nat; split; try reflexivity.
    + change (String.length (Cxx.nl +:+ "    ")) with 5. lia.
    + change (String.length "") with 0. lia.
Qed.

(** X2.  The braced list that either script writes for a file of [n] bytes
    holds only hexadecimal digits in lower case, [x], commas, spaces, line
    breaks and the two braces, and its length is fixed by [n] alone: six
    characters for each byte, five for the line break and indentation that
    open each row of twelve, and four for the braces and their line
    breaks. *)
Theorem byte_array_text (content : list byte) :
  forallb Facts.array_char (list_ascii_of_string (Cxx.initializer content)) = true
  /\ String.length (Cxx.initializer content)
     = 6 * length content + 5 * ((length content + 11) / 12) + 4.
Proof.
  destruct (write_bytes_text content 0) as [Hc Hl].
  unfold Cxx.initializer. set (body := Cxx.write_bytes 0 content) in *.
  rewrite !chars_app, !forallb_app, !append_length, Hc.
  split; [reflexivity|]. cbn in *. lia.
Qed.

(** ** MIME types and the shape of the path *)

Lemma char_lower_keeps_slash (d : ascii) :
  Ascii.eqb (Py.char_lower d) "/" = Ascii.eqb d "/".
Proof. by_cases_on_char d. Qed.

Lemma char_lower_keeps_dot (d : ascii) :
  Ascii.eqb (Py.char_lower d) "." = Ascii.eqb d ".".
Proof. by_cases_on_char d. Qed.

Lemma char_lower_idempotent (d : ascii) :
  Py.char_lower (Py.char_lower d) = Py.char_lower d.
Proof. by_cases_on_char d. Qed.

Lemma lower_idempotent (s : string) : Py.lower (Py.lower s) = Py.lower s.
Proof.
  induction s as [|c s IH]; [reflexivity|]. cbn. now rewrite char_lower_idempotent, IH.
Qed.

Lemma lower_length (s : string) : String.length (Py.lower s) = String.length s.
Proof. induction s as [|c s IH]; [reflexivity|]. cbn. now rewrite IH. Qed.

Lemma rfind_from_lower (c : ascii) (s : string) :
  (forall d, Ascii.eqb (Py.char_lower d) c = Ascii.eqb d c) ->
  forall i last, Py.rfind_from c i last (Py.lower s) = Py.rfind_from c i last s.
Proof.
  intros Hc. induction s as [|d s IH]; intros i last; [reflexivity|].
  cbn. now rewrite Hc, IH.
Qed.

Lemma substring_lower (s : string) :
  forall n m, substring n m (Py.lower s) = Py.lower (substring n m s).
Proof.
  induction s as [|c s IH]; intros [|n] [|m]; cbn; try reflexivity.
  - now rewrite IH.
  - apply IH.
  - apply IH.
Qed.

Lemma dots_only_lower (s : string) :
  existsb (fun c => negb (Ascii.eqb c ".")) (list_ascii_of_string (Py.lower s))
  = existsb (fun c => negb (Ascii.eqb c ".")) (list_ascii_of_string s).
Proof.
  induction s as [|c s IH]; [reflexivity|]. cbn. now rewrite char_lower_keeps_dot, IH.
Qed.

Lemma splitext_lower (p : string) :
  OsPath.splitext (Py.lower p)
  = (Py.lower (OsPath.splitext p).1, Py.lower (OsPath.splitext p).2).
Proof.
  unfold OsPath.splitext, Py.rfind, Py.slice, Py.slice_from.
  rewrite !rfind_from_lower by (apply char_lower_keeps_slash || apply char_lower_keeps_dot).
  rewrite !substring_lower, dots_only_lower, lower_length.
  now destruct (_ && _).
Qed.

Lemma mime_type_of_lower (file_path : string) :
  BundleWebFiles.get_mime_type (Py.lower file_path) = BundleWebFiles.get_mime_type file_path.
Proof.
  unfold BundleWebFiles.get_mime_type. cbv zeta.
  rewrite splitext_lower. cbn [fst snd]. now rewrite lower_idempotent.
Qed.

(** X3.  [get_mime_type] of either script does not tell upper case from
    lower case: two paths that are equal once lower-cased have the same MIME
    type. *)
Theorem get_mime_type_ignores_case (p q : string) :
  Py.lower p = Py.lower q ->
  BundleWebFiles.get_mime_type p = BundleWebFiles.get_mime_type q
  /\ WebBundler.get_mime_type p = WebBundler.get_mime_type q.
Proof.
  intros H.
  assert (Hpq : BundleWebFiles.get_mime_type p = BundleWebFiles.get_mime_type q).
  { now rewrite <- (mime_type_of_lower p), <- (mime_type_of_lower q), H. }
  split; exact Hpq.
Qed.

Lemma get_mime_type_ignores_case_witness :
  Py.lower "img/Logo.PNG" = Py.lower "IMG/logo.png"
  /\ BundleWebFiles.get_mime_type "img/Logo.PNG" = BundleWebFiles.get_mime_type "IMG/logo.png"
  /\ WebBundler.get_mime_type "img/Logo.PNG" = WebBundler.get_mime_type "IMG/logo.png".
Proof.
  split; [reflexivity|].
  exact (get_mime_type_ignores_case "img/Logo.PNG" "IMG/logo.png" eq_refl).
Defined.

(** X4.  The MIME type of [os.path.join(root, file)], which is the path
    that both scripts pass to [get_mime_type], is the MIME type of the file
    name alone: no directory name, even one with a dot in it, changes the
    type of a file. *)
Theorem get_mime_type_ignores_directory (root file : string) :
  BundleWebFiles.get_mime_type (OsPath.join root file) = BundleWebFiles.get_mime_type file
  /\ WebBundler.get_mime_type (OsPath.join root file) = WebBundler.get_mime_type file.
Proof.
  assert (H : (OsPath.splitext (OsPath.join root file)).2 = (OsPath.splitext file).2).
  { unfold OsPath.join.
    destruct (Py.startswith file "/"); [reflexivity|].
    destruct (String.eqb_spec root "") as [->|Hroot]; cbn [orb].
    - apply splitext_after_prefix. now left.
    - destruct (Py.endswith root "/") eqn:Hend.
      + apply splitext_after_prefix. right. now apply ends_with_slash.
      + change (root +:+ "/" +:+ file) with (root +:+ ("/" +:+ file)).
        assert (Hassoc : root +:+ ("/" +:+ file) = (root +:+ "/") +:+ file).
        { clear. induction root as [|c r IH]; [reflexivity|].
          change (String c r +:+ ("/" +:+ file)) with (String c (r +:+ ("/" +:+ file))).
          now rewrite IH. }
        rewrite Hassoc. apply splitext_after_prefix. right. now exists root. }
  unfold BundleWebFiles.get_mime_type, WebBundler.get_mime_type. cbv zeta.
  now rewrite H.
Qed.

(** ** The files that a run touches *)

Lemma written_by_some_entry {A V : Type} (key : A -> string) (val : A -> V)
    (l : list A) (m : gmap string V) (k : string) :
  fold_left (fun m e => <[key e := val e]> m) l m !! k <> m !! k ->
  exists e, In e l /\ key e = k.
Proof.
  revert m. induction l as [|x l IH]; intros m Hk; [now contradiction Hk|].
  cbn [fold_left] in Hk.
  destruct (decide (key x = k)) as [Heq|Hne].
  - exists x. split; [now left|exact Heq].
  - destruct (IH (<[key x := val x]> m)) as (e & He & Hkey).
    + now rewrite (lookup_insert_ne m (key x) k (val x) Hne).
    + exists e. split; [now right|exact Hkey].
Qed.

Lemma prefix_append (a b : string) : String.prefix a (a +:+ b) = true.
Proof.
  induction a as [|c a IH]; [now destruct b|].
  change (String c a +:+ b) with (String c (a +:+ b)). cbn.
  now destruct (ascii_dec c c).
Qed.

Lemma join_below (dir name : string) :
  Py.startswith name "/" = false -> Py.startswith (OsPath.join dir name) dir = true.
Proof.
  intros Hname. unfold OsPath.join, Py.startswith in *. rewrite Hname.
  destruct (_ || _); apply prefix_append.
Qed.



(** ** The three maps after bundle_web_files.py *)

Lemma paths_lines (env : gmap string Cxx.value)
    (web_files : list (string * string * list byte)) :
  Forall Pure.plain web_files ->
  (forall fp rel content, In (fp, rel, content) web_files ->
     env !! (Spec.symbolic_name rel +:+ "_path") = Some (Cxx.VString rel)) ->
  forall acc,
    for_each (flat_map Pure.paths_line web_files) (Cxx.run_assign env "paths") acc
    = Ok (fold_left (fun acc e => <[e.1.2 := e.1.2]> acc) web_files acc).
Proof.
  induction web_files as [|[[fp rel] content] l IH]; intros Hplain Henv acc; [reflexivity|].
  apply Forall_cons in Hplain as [He Hl].
  cbn. unfold Cxx.literal. cbn [Pure.plain] in He. rewrite He. cbn [mbind result_bind].
  rewrite (Henv fp rel content) by now left. cbn [mbind result_bind].
  apply IH; [exact Hl|]. intros fp' rel' c' Hin. apply (Henv fp' rel' c'). now right.
Qed.

Lemma combined_paths_map (env : gmap string Cxx.value)
    (web_files : list (string * string * list byte)) :
  Forall Pure.plain web_files ->
  (forall fp rel content, In (fp, rel, content) web_files ->
     env !! (Spec.symbolic_name rel +:+ "_path") = Some (Cxx.VString rel)) ->
  Cxx.get_bundled_file_paths (Cxx.Program env (Pure.web_bundle_hpp web_files))
  = Ok (fold_left (fun acc e => <[e.1.2 := e.1.2]> acc) web_files ∅).
Proof.
  intros Hplain Henv.
  unfold Cxx.get_bundled_file_paths, Cxx.build_map, Pure.web_bundle_hpp.
  cbn [Cxx.index Cxx.globals]. rewrite !for_each_app.
  repeat (rewrite for_each_skip by (intros x Hx; piece Hx; subst x; reflexivity);
          cbn [mbind result_bind]).
  rewrite paths_lines by assumption. cbn [mbind result_bind].
  repeat (rewrite for_each_skip by (intros x Hx; piece Hx; subst x; reflexivity);
          cbn [mbind result_bind]).
  reflexivity.
Qed.

Lemma for_each_app_ok {E A S : Type} (body : S -> A -> result E S) (l1 l2 : list A)
    (acc acc' : S) :
  for_each (l1 ++ l2) body acc = Ok acc' ->
  exists mid, for_each l1 body acc = Ok mid /\ for_each l2 body mid = Ok acc'.
Proof.
  rewrite for_each_app. destruct (for_each l1 body acc) as [mid|]; [|discriminate].
  intros H. now exists mid.
Qed.

Lemma block_declares_inv (env env' : gmap string Cxx.value)
    (entry : string * string * list byte) :
  for_each (Pure.file_block entry) Cxx.declare env = Ok env' ->
  Pure.plain entry
  /\ NoDup (Pure.identifiers entry)
  /\ (forall x, x ∈ Pure.identifiers entry -> env !! x = None)
  /\ env' = Pure.bind_entry env entry.
Proof.
  destruct entry as [[fp rel] content].
  cbn [Pure.file_block for_each Cxx.declare mbind result_bind Pure.plain Pure.identifiers].
  unfold Cxx.define, Cxx.literal.
  destruct (env !! Spec.symbolic_name rel) eqn:H1; [discriminate|].
  cbn [mbind result_bind].
  destruct (forallb Cxx.plain_char (list_ascii_of_string rel)) eqn:Hplain; [|discriminate].
  cbn [mbind result_bind].
  destruct (<[Spec.symbolic_name rel := _]> env !! (Spec.symbolic_name rel +:+ "_path"))
    eqn:H2; [discriminate|].
  cbn [mbind result_bind].
  fold (Cxx.literal (BundleWebFiles.get_mime_type fp)). rewrite mime_type_plain.
  cbn [mbind result_bind].
  destruct (_ !! (Spec.symbolic_name rel +:+ "_mime")) eqn:H3; [discriminate|].
  cbn [mbind result_bind]. intros [= <-].
  apply lookup_insert_None in H2 as [H2 N12].
  apply lookup_insert_None in H3 as [H3 N23].
  apply lookup_insert_None in H3 as [H3 N13].
  split; [reflexivity|]. split; [|split; [|reflexivity]].
  - repeat constructor; rewrite ?elem_of_cons, ?elem_of_nil; intuition congruence.
  - intros x Hx. rewrite !elem_of_cons, elem_of_nil in Hx.
    destruct Hx as [->|[->|[->|[]]]]; assumption.
Qed.

Lemma bind_entry_binds (env : gmap string Cxx.value) (entry : string * string * list byte)
    (x : string) :
  x ∈ Pure.identifiers entry -> Pure.bind_entry env entry !! x <> None.
Proof.
  destruct entry as [[fp rel] content]. cbn. intros Hx.
  rewrite !elem_of_cons, elem_of_nil in Hx.
  rewrite !lookup_insert_None. destruct Hx as [->|[->|[->|[]]]]; tauto.
Qed.

Lemma blocks_declare_inv (web_files : list (string * string * list byte)) :
  forall env env' : gmap string Cxx.value,
    for_each (flat_map Pure.file_block web_files) Cxx.declare env = Ok env' ->
    Forall Pure.plain web_files
    /\ NoDup (flat_map Pure.identifiers web_files)
    /\ (forall x, x ∈ flat_map Pure.identifiers web_files -> env !! x = None).
Proof.
  induction web_files as [|e l IH]; intros env env' H.
  - cbn. split; [constructor|]. split; [constructor|]. intros x Hx. inversion Hx.
  - cbn [flat_map] in *. apply for_each_app_ok in H as (mid & He & Hl).
    apply block_declares_inv in He as (Hplain & Hnodup & Hfresh & ->).
    apply IH in Hl as (Hplains & Hnodups & Hfreshs).
    assert (Hdisj : forall x, x ∈ Pure.identifiers e ->
                      x ∉ flat_map Pure.identifiers l).
    { intros x Hx Hin. now apply (bind_entry_binds env e x Hx), Hfreshs. }
    split; [now constructor|]. split.
    + apply NoDup_app. now repeat split.
    + intros x Hx. apply elem_of_app in Hx as [Hx|Hx]; [now apply Hfresh|].
      rewrite <- (bind_other env e x); [now apply Hfreshs|].
      intros Hin. now apply (Hdisj x).
Qed.

Lemma block_declares_error (env : gmap string Cxx.value)
    (entry : string * string * list byte) (err : Cxx.error) :
  Pure.plain entry ->
  for_each (Pure.file_block entry) Cxx.declare env = Raise err ->
  exists x, err = Cxx.Redefinition x /\ x ∈ Pure.identifiers entry.
Proof.
  destruct entry as [[fp rel] content].
  cbn [Pure.file_block for_each Cxx.declare mbind result_bind Pure.plain Pure.identifiers].
  intros Hplain. unfold Cxx.define.
  destruct (env !! Spec.symbolic_name rel).
  { intros [= <-]. eexists. split; [reflexivity|]. repeat constructor. }
  cbn [mbind result_bind]. unfold Cxx.literal. rewrite Hplain.
  cbn [mbind result_bind].
  destruct (_ !! (Spec.symbolic_name rel +:+ "_path")).
  { intros [= <-]. eexists. split; [reflexivity|]. repeat constructor. }
  cbn [mbind result_bind].
  fold (Cxx.literal (BundleWebFiles.get_mime_type fp)). rewrite mime_type_plain.
  cbn [mbind result_bind].
  destruct (_ !! (Spec.symbolic_name rel +:+ "_mime")).
  { intros [= <-]. eexists. split; [reflexivity|]. repeat constructor. }
  discriminate.
Qed.

Lemma blocks_declare_error (web_files : list (string * string * list byte)) :
  forall (env : gmap string Cxx.value) (err : Cxx.error),
    Forall Pure.plain web_files ->
    for_each (flat_map Pure.file_block web_files) Cxx.declare env = Raise err ->
    exists x, err = Cxx.Redefinition x /\ x ∈ flat_map Pure.identifiers web_files.
Proof.
  induction web_files as [|e l IH]; intros env err Hplain; [discriminate|].
  cbn [flat_map]. apply Forall_cons in Hplain as [He Hl].
  rewrite for_each_app.
  destruct (for_each (Pure.file_block e) Cxx.declare env) as [mid|err'] eqn:Hblock.
  - cbn [mbind result_bind]. intros H. apply IH in H as (x & -> & Hx); [|exact Hl].
    exists x. split; [reflexivity|]. apply elem_of_app. now right.
  - cbn [mbind result_bind]. intros [= <-].
    apply block_declares_error in Hblock as (x & -> & Hx); [|exact He].
    exists x. split; [reflexivity|]. apply elem_of_app. now left.
Qed.

Lemma combined_declares_blocks (web_files : list (string * string * list byte)) :
  for_each (Pure.web_bundle_hpp web_files) Cxx.declare ∅
  = for_each (flat_map Pure.file_block web_files) Cxx.declare ∅.
Proof.
  unfold Pure.web_bundle_hpp. rewrite !for_each_app.
  rewrite (for_each_skip _ BundleWebFiles.prologue)
    by (intros x Hx; piece Hx; subst x; reflexivity).
  cbn [mbind result_bind].
  destruct (for_each (flat_map Pure.file_block web_files) Cxx.declare ∅) as [env|];
    [|reflexivity].
  cbn [mbind result_bind].
  repeat (rewrite for_each_skip by (intros x Hx; piece Hx; subst x; reflexivity);
          cbn [mbind result_bind]).
  reflexivity.
Qed.

(** What [Cxx.compile] does with the header of bundle_web_files.py: it
    declares the blocks of the entries, one after the other. *)
Lemma combined_compile (w : world) :
  Cxx.compile (w_files (Pure.main_combined w)) BundleWebFiles.output_dir
  = env ← for_each (flat_map Pure.file_block (Pure.web_files (w_cwd w) (w_tree w)))
            Cxx.declare ∅;
    Ok (Cxx.Program env (Pure.web_bundle_hpp (Pure.web_files (w_cwd w) (w_tree w)))).
Proof.
  unfold Cxx.compile. rewrite combined_target, main_combined_file.
  rewrite elaborate_declares by apply combined_no_include.
  rewrite combined_declares_blocks.
  now destruct (for_each _ _ _).
Qed.

Lemma combined_program (w : world) :
  let web_files := Pure.web_files (w_cwd w) (w_tree w) in
  Forall Pure.plain web_files ->
  NoDup (flat_map Pure.identifiers web_files) ->
  exists p,
    Cxx.compile (w_files (Pure.main_combined w)) BundleWebFiles.output_dir = Ok p
    /\ Cxx.globals p = fold_left Pure.bind_entry web_files ∅
    /\ Cxx.get_bundled_files p
       = Ok (fold_left (fun acc e => <[e.1.2 := Spec.symbolic_name e.1.2]> acc) web_files ∅)
    /\ Cxx.get_bundled_file_paths p
       = Ok (fold_left (fun acc e => <[e.1.2 := e.1.2]> acc) web_files ∅)
    /\ Cxx.get_bundled_file_mime_types p
       = Ok (fold_left (fun acc e => <[e.1.2 := BundleWebFiles.get_mime_type e.1.1]> acc)
               web_files ∅).
Proof.
  intros web_files Hplain Hnodup.
  set (env := fold_left Pure.bind_entry web_files (∅ : gmap string Cxx.value)).
  assert (Hbound : forall fp rel content, In (fp, rel, content) web_files ->
            env !! Spec.symbolic_name rel = Some (Cxx.VBytes content)
            /\ env !! (Spec.symbolic_name rel +:+ "_path") = Some (Cxx.VString rel)
            /\ env !! (Spec.symbolic_name rel +:+ "_mime")
               = Some (Cxx.VString (BundleWebFiles.get_mime_type fp))).
  { intros fp rel content Hin. now apply (bound web_files fp rel content ∅ Hnodup). }
  exists (Cxx.Program env (Pure.web_bundle_hpp web_files)).
  split.
  { unfold Cxx.compile. rewrite combined_target, main_combined_file.
    rewrite elaborate_declares by apply combined_no_include.
    fold web_files. rewrite combined_globals by assumption. reflexivity. }
  split; [reflexivity|].
  split; [exact (combined_files_map env web_files Hplain
                   (fun fp rel c Hin => proj1 (Hbound fp rel c Hin)))|].
  split; [exact (combined_paths_map env web_files Hplain
                   (fun fp rel c Hin => proj1 (proj2 (Hbound fp rel c Hin))))|].
  exact (combined_mime_types_map env web_files Hplain
           (fun fp rel c Hin => proj2 (proj2 (Hbound fp rel c Hin)))).
Qed.

(** X6.  [Cxx.compile] reads the definitions of the header that
    bundle_web_files.py writes unless it meets a redefinition or a path that
    cannot stand between quotes as it is.  Whenever it reads them, the three
    maps hold what they should: the keys of [get_bundled_files()],
    [get_bundled_file_paths()] and [get_bundled_file_mime_types()] are the
    relative paths of the entries of [web_files] and nothing else; and under
    the relative path of an entry the first map holds a pointer to the bytes
    of the file, the second the path itself and the third the MIME type of
    the file. *)
Theorem lookups_after_bundle_web_files (w w' : world)
    (web_files : list (string * string * list byte)) (p : Cxx.program) :
  BundleWebFiles.collect_web_files w = Ok web_files ->
  BundleWebFiles.main w = Ok w' ->
  Cxx.compile (w_files w') BundleWebFiles.output_dir = Ok p ->
  exists files paths mime_types,
    Cxx.get_bundled_files p = Ok files
    /\ Cxx.get_bundled_file_paths p = Ok paths
    /\ Cxx.get_bundled_file_mime_types p = Ok mime_types
    /\ (forall file_path rel_path content,
          In (file_path, rel_path, content) web_files ->
          (exists ptr, files !! rel_path = Some ptr /\ Cxx.deref p ptr = Some content)
          /\ paths !! rel_path = Some rel_path
          /\ mime_types !! rel_path = Some (BundleWebFiles.get_mime_type file_path))
    /\ (forall path,
          (forall file_path content, ~ In (file_path, path, content) web_files) ->
          files !! path = None /\ paths !! path = None /\ mime_types !! path = None).
Proof.
  rewrite collect_combined, main_combined. intros [= <-] [= <-] Hcompile.
  assert (Hread : Forall Pure.plain (Pure.web_files (w_cwd w) (w_tree w))
                  /\ NoDup (flat_map Pure.identifiers (Pure.web_files (w_cwd w) (w_tree w)))).
  { rewrite combined_compile in Hcompile.
    destruct (for_each _ Cxx.declare ∅) as [env|] eqn:Hdecl; [|discriminate].
    apply blocks_declare_inv in Hdecl. tauto. }
  destruct Hread as [Hplain Hnodup].
  destruct (combined_program w Hplain Hnodup)
    as (p' & Hp & Hglobals & Hfiles & Hpaths & Hmimes).
  assert (p' = p) as -> by congruence.
  set (web_files := Pure.web_files (w_cwd w) (w_tree w)) in *.
  do 3 eexists.
  split; [exact Hfiles|]. split; [exact Hpaths|]. split; [exact Hmimes|].
  split.
  - intros fp rel content Hin. repeat apply conj.
    + exists (Spec.symbolic_name rel). split.
      * apply (lookup_written (fun e : string * string * list byte => e.1.2)
                 (fun e => Spec.symbolic_name e.1.2) web_files ∅ (fp, rel, content) Hin).
        intros other _ Heq. cbn in *. now rewrite Heq.
      * unfold Cxx.deref. rewrite Hglobals.
        now rewrite (proj1 (bound web_files fp rel content ∅ Hnodup Hin)).
    + apply (lookup_written (fun e : string * string * list byte => e.1.2)
               (fun e => e.1.2) web_files ∅ (fp, rel, content) Hin).
      intros other _ Heq. exact Heq.
    + apply (lookup_written (fun e : string * string * list byte => e.1.2)
               (fun e => BundleWebFiles.get_mime_type e.1.1) web_files ∅
               (fp, rel, content) Hin).
      intros [[fp' rel'] c'] Hother Heq. cbn in *. subst rel'.
      destruct (bound web_files fp' rel c' ∅ Hnodup Hother) as (_ & _ & H1).
      destruct (bound web_files fp rel content ∅ Hnodup Hin) as (_ & _ & H2). congruence.
  - intros path Habsent.
    rewrite !writes_elsewhere, !lookup_empty; [now repeat apply conj|..];
      intros [[fp rel] c] Hin <-; now apply (Habsent fp c).
Qed.

Lemma lookups_after_bundle_web_files_witness :
  exists files paths mime_types,
    Cxx.get_bundled_files (default (Cxx.Program ∅ []) (Sample.combined Sample.two_files))
    = Ok files
    /\ Cxx.get_bundled_file_paths
         (default (Cxx.Program ∅ []) (Sample.combined Sample.two_files))
       = Ok paths
    /\ Cxx.get_bundled_file_mime_types
         (default (Cxx.Program ∅ []) (Sample.combined Sample.two_files))
       = Ok mime_types
    /\ (forall file_path rel_path content,
          In (file_path, rel_path, content)
            [("web/index.html", "index.html", Sample.bytes "<h1>DHT</h1>");
             ("web/css/a.css", "css/a.css", Sample.bytes "b{}")] ->
          (exists ptr,
             files !! rel_path = Some ptr
             /\ Cxx.deref (default (Cxx.Program ∅ []) (Sample.combined Sample.two_files)) ptr
                = Some content)
          /\ paths !! rel_path = Some rel_path
          /\ mime_types !! rel_path = Some (BundleWebFiles.get_mime_type file_path))
    /\ (forall path,
          (forall file_path content,
             ~ In (file_path, path, content)
                 [("web/index.html", "index.html", Sample.bytes "<h1>DHT</h1>");
                  ("web/css/a.css", "css/a.css", Sample.bytes "b{}")]) ->
          files !! path = None /\ paths !! path = None /\ mime_types !! path = None).
Proof.
  refine (lookups_after_bundle_web_files Sample.two_files
            (Pure.main_combined Sample.two_files)
            [("web/index.html", "index.html", Sample.bytes "<h1>DHT</h1>");
             ("web/css/a.css", "css/a.css", Sample.bytes "b{}")]
            (default (Cxx.Program ∅ []) (Sample.combined Sample.two_files)) _ _ _).
  - vm_compute. reflexivity.
  - apply main_combined.
  - vm_compute. reflexivity.
Defined.

(** ** The program after web_bundler.py *)

Lemma ident_char_plain (c : ascii) : Spec.ident_char c = true -> Cxx.plain_char c = true.
Proof. by_cases_on_char c. Qed.

Lemma ident_start_char (c : ascii) : Spec.ident_start c = true -> Spec.ident_char c = true.
Proof. unfold Spec.ident_char. now intros ->. Qed.

Lemma identifier_chars (v : string) :
  Spec.is_identifier v = true ->
  forallb Spec.ident_char (list_ascii_of_string v) = true.
Proof.
  destruct v as [|c v]; [discriminate|]. cbn. intros H.
  apply andb_prop in H as [Hc Hv]. now rewrite (ident_start_char c Hc).
Qed.

Lemma identifier_literal (v suffix : string) :
  Spec.is_identifier v = true ->
  forallb Cxx.plain_char (list_ascii_of_string suffix) = true ->
  Cxx.literal (v +:+ suffix) = Ok (v +:+ suffix).
Proof.
  intros Hv Hs. unfold Cxx.literal. rewrite chars_app, forallb_app, Hs, andb_true_r.
  apply identifier_chars in Hv.
  replace (forallb Cxx.plain_char (list_ascii_of_string v)) with true; [reflexivity|].
  symmetry. apply forallb_forall. intros c Hc. apply ident_char_plain.
  rewrite forallb_forall in Hv. now apply Hv.
Qed.

(** What the header of one file declares. *)
Lemma header_declares (env : gmap string Cxx.value) (namespace : string)
    (entry : string * string * list byte) :
  Pure.plain entry ->
  NoDup (Pure.identifiers entry) ->
  (forall x, x ∈ Pure.identifiers entry -> env !! x = None) ->
  for_each (WebBundler.header_content namespace entry.1.2 (Spec.symbolic_name entry.1.2)
              entry.1.1 entry.2)
    Cxx.declare env
  = Ok (Pure.bind_entry env entry).
Proof.
  intros Hplain Hnodup Hfresh.
  destruct (identifiers_distinct entry Hnodup) as (H12 & H13 & H23).
  destruct entry as [[fp rel] content]. cbn [Pure.plain Pure.identifiers fst snd] in *.
  cbn [WebBundler.header_content for_each Cxx.declare mbind result_bind].
  unfold Cxx.define, Cxx.literal.
  rewrite Hfresh by (repeat constructor). cbn [mbind result_bind].
  rewrite Hplain. cbn [mbind result_bind].
  rewrite lookup_insert_ne, Hfresh by first [congruence | repeat constructor].
  cbn [mbind result_bind].
  change (WebBundler.get_mime_type fp) with (BundleWebFiles.get_mime_type fp).
  fold (Cxx.literal (BundleWebFiles.get_mime_type fp)). rewrite mime_type_plain.
  cbn [mbind result_bind].
  rewrite !lookup_insert_ne, Hfresh by first [congruence | repeat constructor]. reflexivity.
Qed.

(** The pairs that [main] hands to [generate_index_file]. *)
Lemma includes_elaborate (files : gmap string (list Cxx.item)) (dir namespace : string)
    (entries : list (string * string * list byte)) :
  forall (seen : gset string) (env : gmap string Cxx.value),
    Forall Pure.plain entries ->
    NoDup (flat_map Pure.identifiers entries) ->
    (forall x, x ∈ flat_map Pure.identifiers entries -> env !! x = None) ->
    (forall e, In e entries ->
       e.1.2 <> ""
       /\ (OsPath.join dir (Spec.symbolic_name e.1.2 +:+ ".hpp") ∉ seen)
       /\ files !! OsPath.join dir (Spec.symbolic_name e.1.2 +:+ ".hpp")
          = Some (WebBundler.header_content namespace e.1.2 (Spec.symbolic_name e.1.2)
                    e.1.1 e.2)) ->
    exists seen',
      for_each (map (fun e : string * string * list byte =>
                       Cxx.IncludeHpp (Spec.symbolic_name e.1.2)) entries)
        (Cxx.elaborate files dir) (seen, env)
      = Ok (seen', fold_left Pure.bind_entry entries env).
Proof.
  induction entries as [|e l IH]; intros seen env Hplain Hnodup Hfresh Hfiles;
    [now exists seen|].
  cbn [flat_map fold_left map for_each] in *.
  apply Forall_cons in Hplain as [He Hl].
  apply NoDup_app in Hnodup as (Hide & Hdisj & Hrest).
  destruct (Hfiles e (or_introl eq_refl)) as (Hrel & Hseen & Hfile).
  cbn [Cxx.elaborate fst snd]. cbv zeta.
  rewrite bool_decide_eq_false_2 by exact Hseen. rewrite Hfile.
  rewrite header_declares; [|exact He|exact Hide|].
  2:{ intros x Hx. apply Hfresh. apply elem_of_app. now left. }
  cbn [mbind result_bind].
  apply IH; [exact Hl|exact Hrest| |].
  - intros x Hx. rewrite bind_other.
    + apply Hfresh. apply elem_of_app. now right.
    + intros Hin. now apply (Hdisj x).
  - intros e' He'. destruct (Hfiles e' (or_intror He')) as (Hrel' & Hseen' & Hfile').
    split; [exact Hrel'|]. split; [|exact Hfile'].
    intros Hin. apply elem_of_union in Hin as [Hin|Hin]; [|now apply Hseen'].
    apply elem_of_singleton in Hin.
    apply header_path_inj in Hin; try now apply symbolic_name_is_identifier.
    apply (Hdisj (Spec.symbolic_name e.1.2)).
    + destruct e as [[? ?] ?]. cbn. repeat constructor.
    + apply list_elem_of_In, in_flat_map. exists e'. split; [exact He'|].
      destruct e' as [[? ?] ?]. cbn in *. left. now symmetry.
Qed.

Lemma same_identifier (entries : list (string * string * list byte))
    (e1 e2 : string * string * list byte) :
  NoDup (flat_map Pure.identifiers entries) ->
  In e1 entries -> In e2 entries ->
  Spec.symbolic_name e1.1.2 = Spec.symbolic_name e2.1.2 -> e1 = e2.
Proof.
  assert (Hsym : forall e : string * string * list byte,
            Spec.symbolic_name e.1.2 ∈ Pure.identifiers e).
  { intros [[? ?] ?]. cbn. repeat constructor. }
  assert (Hrest : forall (l : list (string * string * list byte)) e,
            In e l -> Spec.symbolic_name e.1.2 ∈ flat_map Pure.identifiers l).
  { intros l e He. apply list_elem_of_In, in_flat_map. exists e.
    split; [exact He|]. apply list_elem_of_In, Hsym. }
  induction entries as [|e l IH]; intros Hnodup H1 H2 Heq; [destruct H1|].
  cbn [flat_map] in Hnodup. apply NoDup_app in Hnodup as (_ & Hdisj & Hnodup).
  destruct H1 as [<-|H1], H2 as [<-|H2].
  - reflexivity.
  - exfalso. apply (Hdisj (Spec.symbolic_name e.1.2)); [apply Hsym|].
    rewrite Heq. now apply Hrest.
  - exfalso. apply (Hdisj (Spec.symbolic_name e.1.2)); [apply Hsym|].
    rewrite <- Heq. now apply Hrest.
  - now apply IH.
Qed.

Lemma elaborate_skip (files : gmap string (list Cxx.item)) (dir : string)
    (l : list Cxx.item) (st : gset string * gmap string Cxx.value) :
  (forall it, In it l -> forall name, it <> Cxx.IncludeHpp name) ->
  (forall it, In it l -> Cxx.declare st.2 it = Ok st.2) ->
  for_each l (Cxx.elaborate files dir) st = Ok st.
Proof.
  intros Hinc Hdecl. apply for_each_skip. intros it Hin.
  specialize (Hinc it Hin). specialize (Hdecl it Hin).
  destruct st as [seen env].
  destruct it; cbn [Cxx.elaborate fst snd] in *; try (now rewrite Hdecl).
  now contradiction (Hinc name).
Qed.

Lemma run_assign_skip (env : gmap string Cxx.value) (m : string) (l : list Cxx.item)
    (acc : gmap string string) :
  (forall it, In it l -> forall k v, it <> Cxx.Assign m k v) ->
  for_each l (Cxx.run_assign env m) acc = Ok acc.
Proof.
  intros Hl. apply for_each_skip. intros it Hin. specialize (Hl it Hin).
  destruct it as [| | | |m' k v]; try reflexivity. cbn.
  destruct (String.eqb_spec m' m) as [->|]; [|reflexivity].
  now contradiction (Hl k v).
Qed.

Lemma index_content_pieces (entries : list (string * string * list byte))
    (namespace : string) :
  exists v0 v1 v2 v3 v4,
    WebBundler.index_content
      (map (fun e : string * string * list byte => (e.1.2, Spec.symbolic_name e.1.2)) entries)
      namespace
    = [Cxx.Verbatim v0]
      ++ map (fun e : string * string * list byte =>
                Cxx.IncludeHpp (Spec.symbolic_name e.1.2)) entries
      ++ [Cxx.Verbatim v1]
      ++ map (fun e : string * string * list byte =>
                Cxx.Assign "files" (Cxx.KLit (Spec.symbolic_name e.1.2 +:+ "_path"))
                  (Cxx.AddrOf (Spec.symbolic_name e.1.2))) entries
      ++ [Cxx.Verbatim v2]
      ++ map (fun e : string * string * list byte =>
                Cxx.Assign "paths" (Cxx.KLit e.1.2)
                  (Cxx.Ident (Spec.symbolic_name e.1.2 +:+ "_path"))) entries
      ++ [Cxx.Verbatim v3]
      ++ map (fun e : string * string * list byte =>
                Cxx.Assign "mime_types" (Cxx.KVar (Spec.symbolic_name e.1.2 +:+ "_path"))
                  (Cxx.Ident (Spec.symbolic_name e.1.2 +:+ "_mime"))) entries
      ++ [Cxx.Verbatim v4].
Proof.
  unfold WebBundler.index_content. rewrite !map_map. do 5 eexists. reflexivity.
Qed.

(** The three loops of [generate_index_file], run as the bodies of the three
    map functions. *)
Lemma split_files_lines (env : gmap string Cxx.value)
    (entries : list (string * string * list byte)) :
  (forall e, In e entries ->
     e.1.2 <> "" /\ env !! Spec.symbolic_name e.1.2 = Some (Cxx.VBytes e.2)) ->
  forall acc,
    for_each (map (fun e : string * string * list byte =>
                     Cxx.Assign "files" (Cxx.KLit (Spec.symbolic_name e.1.2 +:+ "_path"))
                       (Cxx.AddrOf (Spec.symbolic_name e.1.2))) entries)
      (Cxx.run_assign env "files") acc
    = Ok (fold_left (fun acc e => <[Spec.symbolic_name e.1.2 +:+ "_path"
                                    := Spec.symbolic_name e.1.2]> acc) entries acc).
Proof.
  induction entries as [|e l IH]; intros Henv acc; [reflexivity|].
  destruct (Henv e (or_introl eq_refl)) as [Hrel Hbytes].
  cbn [map for_each Cxx.run_assign fold_left].
  change (String.eqb "files" "files") with true. cbv iota.
  cbn [Cxx.eval_key Cxx.eval_val].
  rewrite identifier_literal by (try reflexivity; now apply symbolic_name_is_identifier).
  cbn [mbind result_bind]. rewrite Hbytes. cbn [mbind result_bind].
  apply IH. intros e' He'. apply Henv. now right.
Qed.

Lemma split_paths_lines (env : gmap string Cxx.value)
    (entries : list (string * string * list byte)) :
  Forall Pure.plain entries ->
  (forall e, In e entries ->
     env !! (Spec.symbolic_name e.1.2 +:+ "_path") = Some (Cxx.VString e.1.2)) ->
  forall acc,
    for_each (map (fun e : string * string * list byte =>
                     Cxx.Assign "paths" (Cxx.KLit e.1.2)
                       (Cxx.Ident (Spec.symbolic_name e.1.2 +:+ "_path"))) entries)
      (Cxx.run_assign env "paths") acc
    = Ok (fold_left (fun acc e => <[e.1.2 := e.1.2]> acc) entries acc).
Proof.
  induction entries as [|e l IH]; intros Hplain Henv acc; [reflexivity|].
  apply Forall_cons in Hplain as [He Hl].
  pose proof (Henv e (or_introl eq_refl)) as Hpath.
  cbn [map for_each Cxx.run_assign fold_left].
  change (String.eqb "paths" "paths") with true. cbv iota.
  cbn [Cxx.eval_key Cxx.eval_val]. unfold Cxx.literal.
  destruct e as [[fp rel] content]. cbn [Pure.plain fst snd] in *.
  rewrite He. cbn [mbind result_bind]. rewrite Hpath. cbn [mbind result_bind].
  apply IH; [exact Hl|]. intros e' He'. apply Henv. now right.
Qed.

Lemma split_mime_types_lines (env : gmap string Cxx.value)
    (entries : list (string * string * list byte)) :
  (forall e, In e entries ->
     env !! (Spec.symbolic_name e.1.2 +:+ "_path") = Some (Cxx.VString e.1.2)
     /\ env !! (Spec.symbolic_name e.1.2 +:+ "_mime")
        = Some (Cxx.VString (WebBundler.get_mime_type e.1.1))) ->
  forall acc,
    for_each (map (fun e : string * string * list byte =>
                     Cxx.Assign "mime_types"
                       (Cxx.KVar (Spec.symbolic_name e.1.2 +:+ "_path"))
                       (Cxx.Ident (Spec.symbolic_name e.1.2 +:+ "_mime"))) entries)
      (Cxx.run_assign env "mime_types") acc
    = Ok (fold_left (fun acc e => <[e.1.2 := WebBundler.get_mime_type e.1.1]> acc)
            entries acc).
Proof.
  induction entries as [|e l IH]; intros Henv acc; [reflexivity|].
  destruct (Henv e (or_introl eq_refl)) as [Hpath Hmime].
  cbn [map for_each Cxx.run_assign fold_left].
  change (String.eqb "mime_types" "mime_types") with true. cbv iota.
  cbn [Cxx.eval_key Cxx.eval_val].
  rewrite Hpath. cbn [mbind result_bind]. rewrite Hmime. cbn [mbind result_bind].
  apply IH. intros e' He'. apply Henv. now right.
Qed.

Lemma split_entries_spec (a : WebBundler.args) (w : world) :
  Facts.split_entries a w
  = map (fun e : string * list byte => (e.1, Pure.rel_path (w_cwd w) e.1, e.2))
      (Pure.split_web_files a (w_tree w)).
Proof.
  unfold Facts.split_entries. rewrite collect_split. apply map_ext. now intros [? ?].
Qed.

Lemma split_entries_named (a : WebBundler.args) (w : world)
    (e : string * string * list byte) :
  In e (Facts.split_entries a w) ->
  e.1.2 <> ""
  /\ e.1.2 = Pure.rel_path (w_cwd w) e.1.1
  /\ In (e.1.1, e.2) (Pure.split_web_files a (w_tree w)).
Proof.
  rewrite split_entries_spec. intros Hin.
  apply in_map_iff in Hin as ([fp content] & <- & Hin). cbn [fst snd].
  split; [|now split].
  apply rel_path_ok. now apply split_web_files_nonempty in Hin.
Qed.

(** The pieces of the index are its texts, its includes and the lines of the
    three maps. *)
Ltac index_piece H :=
  repeat first [ apply in_app_or in H as [H|H] | destruct H as [<-|H] ];
  first [ apply in_map_iff in H as (? & <- & ?) | destruct H | idtac ].

Lemma split_program (a : WebBundler.args) (w : world) :
  let entries := Facts.split_entries a w in
  Forall Pure.plain entries ->
  NoDup (flat_map Pure.identifiers entries) ->
  (forall e, In e entries -> Spec.symbolic_name e.1.2 <> "web_bundle") ->
  exists p,
    Cxx.compile (w_files (Pure.main_split a w)) (WebBundler.output_dir a) = Ok p
    /\ Cxx.globals p = fold_left Pure.bind_entry entries ∅
    /\ Cxx.get_bundled_files p
       = Ok (fold_left (fun acc e => <[Spec.symbolic_name e.1.2 +:+ "_path"
                                       := Spec.symbolic_name e.1.2]> acc) entries ∅)
    /\ Cxx.get_bundled_file_paths p
       = Ok (fold_left (fun acc e => <[e.1.2 := e.1.2]> acc) entries ∅)
    /\ Cxx.get_bundled_file_mime_types p
       = Ok (fold_left (fun acc e => <[e.1.2 := WebBundler.get_mime_type e.1.1]> acc)
               entries ∅).
Proof.
  intros entries Hplain Hnodup Hindex.
  set (env := fold_left Pure.bind_entry entries (∅ : gmap string Cxx.value)).
  set (dir := WebBundler.output_dir a).
  set (files := w_files (Pure.main_split a w)).
  assert (Hbound : forall e, In e entries ->
            env !! Spec.symbolic_name e.1.2 = Some (Cxx.VBytes e.2)
            /\ env !! (Spec.symbolic_name e.1.2 +:+ "_path") = Some (Cxx.VString e.1.2)
            /\ env !! (Spec.symbolic_name e.1.2 +:+ "_mime")
               = Some (Cxx.VString (WebBundler.get_mime_type e.1.1))).
  { intros [[fp rel] content] Hin. now apply (bound entries fp rel content ∅ Hnodup). }
  destruct (index_content_pieces entries (WebBundler.namespace a))
    as (v0 & v1 & v2 & v3 & v4 & Hpieces).
  assert (Hfile : files !! OsPath.join dir "web_bundle.hpp"
                  = Some (WebBundler.index_content
                            (map (fun e : string * string * list byte =>
                                    (e.1.2, Spec.symbolic_name e.1.2)) entries)
                            (WebBundler.namespace a))).
  { unfold files. rewrite main_split_files. apply lookup_union_Some_l.
    unfold Pure.split_written. rewrite lookup_insert_eq. do 2 f_equal.
    unfold entries. rewrite split_entries_spec, map_map. reflexivity. }
  assert (Hheaders : forall e, In e entries ->
            e.1.2 <> ""
            /\ (OsPath.join dir (Spec.symbolic_name e.1.2 +:+ ".hpp")
                ∉ ({[OsPath.join dir "web_bundle.hpp"]} : gset string))
            /\ files !! OsPath.join dir (Spec.symbolic_name e.1.2 +:+ ".hpp")
               = Some (WebBundler.header_content (WebBundler.namespace a) e.1.2
                         (Spec.symbolic_name e.1.2) e.1.1 e.2)).
  { intros e Hin.
    destruct (split_entries_named a w e Hin) as (Hrel & Heq & Hsplit).
    assert (Hne : OsPath.join dir (Spec.symbolic_name e.1.2 +:+ ".hpp")
                  <> OsPath.join dir "web_bundle.hpp").
    { intros Hpath. apply (Hindex e Hin).
      apply (header_path_inj dir _ "web_bundle"); [|reflexivity|exact Hpath].
      now apply symbolic_name_is_identifier. }
    split; [exact Hrel|]. split; [now rewrite elem_of_singleton|].
    unfold files. rewrite main_split_files. apply lookup_union_Some_l.
    unfold Pure.split_written. rewrite lookup_insert_ne by now apply not_eq_sym.
    rewrite Heq.
    apply (lookup_written (Pure.header_path a (w_cwd w)) (Pure.header a (w_cwd w))
             (Pure.split_web_files a (w_tree w)) ∅ (e.1.1, e.2) Hsplit).
    intros [fp' c'] Hother Hpath.
    assert (Hin' : In (fp', Pure.rel_path (w_cwd w) fp', c') entries).
    { unfold entries. rewrite split_entries_spec.
      apply in_map_iff. now exists (fp', c'). }
    unfold Pure.header_path in Hpath. cbn [fst snd] in Hpath.
    apply header_path_inj in Hpath.
    - rewrite <- Heq in Hpath.
      pose proof (same_identifier entries _ e Hnodup Hin' Hin Hpath) as Hsame.
      destruct e as [[fp rel] c]. cbn [fst snd] in *. now injection Hsame as -> _ ->.
    - apply symbolic_name_is_identifier.
      now apply (split_entries_named a w _ Hin').
    - rewrite <- Heq. now apply symbolic_name_is_identifier. }
  exists (Cxx.Program env
            (WebBundler.index_content
               (map (fun e : string * string * list byte =>
                       (e.1.2, Spec.symbolic_name e.1.2)) entries)
               (WebBundler.namespace a))).
  split.
  { unfold Cxx.compile. fold dir files. rewrite Hfile. rewrite Hpieces at 1.
    cbn [app for_each Cxx.elaborate Cxx.declare mbind result_bind fst snd].
    rewrite for_each_app.
    destruct (includes_elaborate files dir (WebBundler.namespace a) entries
                {[OsPath.join dir "web_bundle.hpp"]} ∅ Hplain Hnodup
                (fun x _ => lookup_empty x) Hheaders) as [seen' ->].
    cbn [mbind result_bind].
    rewrite elaborate_skip; [reflexivity|..]; intros it Hit; index_piece Hit;
      try discriminate; reflexivity. }
  split; [reflexivity|].
  unfold Cxx.get_bundled_files, Cxx.get_bundled_file_paths,
    Cxx.get_bundled_file_mime_types, Cxx.build_map.
  cbn [Cxx.index Cxx.globals]. rewrite Hpieces.
  cbn [app for_each Cxx.run_assign mbind result_bind].
  repeat apply conj.
  - rewrite for_each_app, run_assign_skip
      by (intros it Hit; index_piece Hit; discriminate).
    cbn [mbind result_bind app for_each Cxx.run_assign].
    rewrite for_each_app, split_files_lines.
    2:{ intros e He. split; [apply (Hheaders e He)|apply (Hbound e He)]. }
    cbn [mbind result_bind].
    apply run_assign_skip. intros it Hit. index_piece Hit; discriminate.
  - rewrite for_each_app, run_assign_skip
      by (intros it Hit; index_piece Hit; discriminate).
    cbn [mbind result_bind app for_each Cxx.run_assign].
    rewrite for_each_app, run_assign_skip
      by (intros it Hit; index_piece Hit; discriminate).
    cbn [mbind result_bind app for_each Cxx.run_assign].
    rewrite for_each_app, split_paths_lines;
      [|exact Hplain|intros e He; apply (Hbound e He)].
    cbn [mbind result_bind].
    apply run_assign_skip. intros it Hit. index_piece Hit; discriminate.
  - rewrite for_each_app, run_assign_skip
      by (intros it Hit; index_piece Hit; discriminate).
    cbn [mbind result_bind app for_each Cxx.run_assign].
    rewrite for_each_app, run_assign_skip
      by (intros it Hit; index_piece Hit; discriminate).
    cbn [mbind result_bind app for_each Cxx.run_assign].
    rewrite for_each_app, run_assign_skip
      by (intros it Hit; index_piece Hit; discriminate).
    cbn [mbind result_bind app for_each Cxx.run_assign].
    rewrite for_each_app, split_mime_types_lines
      by (intros e He; apply (Hbound e He)).
    cbn [mbind result_bind]. reflexivity.
Qed.

Lemma identifier_append (v suffix : string) :
  Spec.is_identifier v = true ->
  forallb Spec.ident_char (list_ascii_of_string suffix) = true ->
  Spec.is_identifier (v +:+ suffix) = true.
Proof.
  destruct v as [|c v]; [discriminate|].
  change (String c v +:+ suffix) with (String c (v +:+ suffix)). cbn.
  intros H Hs. apply andb_prop in H as [-> Hv].
  now rewrite chars_app, forallb_app, Hv, Hs.
Qed.

(** X7.  The index that web_bundler.py writes, read for its definitions
    and assignments (as it is written it closes two braces too many, see
    [split_index_braces]).  Take a run that completes on a tree
    whose relative paths can stand between quotes as they are, whose
    generated identifiers are all distinct and none of whose symbolic names
    is [web_bundle].  Whenever [Cxx.compile] reads the index with the headers
    that it includes, the maps of paths and of MIME types are keyed by the
    relative paths as in the other script.  The map of [get_bundled_files()]
    is keyed by the text [<name>_path] (line 128 writes the name of the
    variable between quotes): under that key it holds the pointer to the
    bytes of the file, and it has no key that is not an identifier, so no
    path with a dot or a slash in it is ever found. *)
Theorem lookups_after_web_bundler (a : WebBundler.args) (w w' : world) (p : Cxx.program) :
  Forall Pure.plain (Facts.split_entries a w) ->
  NoDup (flat_map Pure.identifiers (Facts.split_entries a w)) ->
  (forall file_path rel_path content,
     In (file_path, rel_path, content) (Facts.split_entries a w) ->
     Spec.symbolic_name rel_path <> "web_bundle") ->
  WebBundler.main a w = Ok w' ->
  Cxx.compile (w_files w') (WebBundler.output_dir a) = Ok p ->
  exists files paths mime_types,
    Cxx.get_bundled_files p = Ok files
    /\ Cxx.get_bundled_file_paths p = Ok paths
    /\ Cxx.get_bundled_file_mime_types p = Ok mime_types
    /\ (forall file_path rel_path content,
          In (file_path, rel_path, content) (Facts.split_entries a w) ->
          files !! (Spec.symbolic_name rel_path +:+ "_path")
          = Some (Spec.symbolic_name rel_path)
          /\ Cxx.deref p (Spec.symbolic_name rel_path) = Some content
          /\ paths !! rel_path = Some rel_path
          /\ mime_types !! rel_path = Some (WebBundler.get_mime_type file_path))
    /\ (forall path, Spec.is_identifier path = false -> files !! path = None)
    /\ (forall path,
          (forall file_path content,
             ~ In (file_path, path, content) (Facts.split_entries a w)) ->
          paths !! path = None /\ mime_types !! path = None).
Proof.
  intros Hplain Hnodup Hindex Hrun Hcompile.
  apply main_split_ok in Hrun as [-> _].
  destruct (split_program a w Hplain Hnodup) as (p' & Hp & Hglobals & Hfiles & Hpaths & Hmimes).
  { intros [[fp rel] c] Hin. now apply (Hindex fp rel c). }
  assert (p' = p) as -> by congruence.
  set (entries := Facts.split_entries a w) in *.
  do 3 eexists.
  split; [exact Hfiles|]. split; [exact Hpaths|]. split; [exact Hmimes|].
  repeat apply conj.
  - intros fp rel content Hin. repeat apply conj.
    + apply (lookup_written (fun e : string * string * list byte =>
                               Spec.symbolic_name e.1.2 +:+ "_path")
               (fun e => Spec.symbolic_name e.1.2) entries ∅ (fp, rel, content) Hin).
      intros other _ Heq. cbn [fst snd] in *. now apply append_inv_tail in Heq.
    + unfold Cxx.deref. rewrite Hglobals.
      now rewrite (proj1 (bound entries fp rel content ∅ Hnodup Hin)).
    + apply (lookup_written (fun e : string * string * list byte => e.1.2)
               (fun e => e.1.2) entries ∅ (fp, rel, content) Hin).
      intros other _ Heq. exact Heq.
    + apply (lookup_written (fun e : string * string * list byte => e.1.2)
               (fun e => WebBundler.get_mime_type e.1.1) entries ∅ (fp, rel, content) Hin).
      intros other Hother Heq. cbn [fst snd] in *.
      now rewrite (same_identifier entries other (fp, rel, content) Hnodup Hother Hin)
        by (cbn [fst snd]; now rewrite Heq).
  - intros path Hpath. rewrite writes_elsewhere; [apply lookup_empty|].
    intros e Hin Hkey. rewrite <- Hkey, identifier_append in Hpath;
      [discriminate| |reflexivity].
    apply symbolic_name_is_identifier. now apply (split_entries_named a w e).
  - intros path Habsent.
    rewrite !writes_elsewhere, !lookup_empty; [now split|..];
      intros [[fp rel] c] Hin <-; now apply (Habsent fp c).
Qed.

Lemma lookups_after_web_bundler_witness :
  exists p files paths mime_types,
    Sample.split Sample.two_files = Some p
    /\ Cxx.get_bundled_files p = Ok files
    /\ Cxx.get_bundled_file_paths p = Ok paths
    /\ Cxx.get_bundled_file_mime_types p = Ok mime_types
    /\ (forall file_path rel_path content,
          In (file_path, rel_path, content)
            (Facts.split_entries WebBundler.default_args Sample.two_files) ->
          files !! (Spec.symbolic_name rel_path +:+ "_path")
          = Some (Spec.symbolic_name rel_path)
          /\ Cxx.deref p (Spec.symbolic_name rel_path) = Some content
          /\ paths !! rel_path = Some rel_path
          /\ mime_types !! rel_path = Some (WebBundler.get_mime_type file_path))
    /\ (forall path, Spec.is_identifier path = false -> files !! path = None)
    /\ (forall path,
          (forall file_path content,
             ~ In (file_path, path, content)
                 (Facts.split_entries WebBundler.default_args Sample.two_files)) ->
          paths !! path = None /\ mime_types !! path = None).
Proof.
  exists (default (Cxx.Program ∅ []) (Sample.split Sample.two_files)).
  destruct (lookups_after_web_bundler WebBundler.default_args Sample.two_files
              (Pure.main_split WebBundler.default_args Sample.two_files)
              (default (Cxx.Program ∅ []) (Sample.split Sample.two_files)))
    as (files & paths & mime_types & H).
  - vm_compute. repeat constructor.
  - apply (bool_decide_unpack _). vm_compute. exact I.
  - intros fp rel c Hin. vm_compute in Hin.
    repeat destruct Hin as [[= <- <- <-]|Hin]; try discriminate. destruct Hin.
  - apply main_split. left. vm_compute. discriminate.
  - vm_compute. reflexivity.
  - exists files, paths, mime_types. split; [vm_compute; reflexivity|exact H].
Defined.

(** ** The two modes on one tree *)

Lemma split_entries_default (a : WebBundler.args) (w : world) :
  WebBundler.web_dir a = "web" ->
  Facts.split_entries a w = Pure.web_files (w_cwd w) (w_tree w).
Proof.
  intros Hweb. rewrite split_entries_spec.
  unfold Pure.split_web_files, Pure.web_files. rewrite Hweb, map_map.
  apply map_ext. now intros [[root file] data].
Qed.

(** X8.  The two scripts run on one tree with the asset root [web], their
    headers read for the definitions and assignments (the index of
    web_bundler.py closes two braces too many as it is written).  Whenever
    [Cxx.compile] reads the output of both runs and no symbolic name is
    [web_bundle], the two programs declare the same variables with the same
    values and their maps of paths and of MIME types are equal, so
    [get_bundled_file_mime_type] answers alike for every path.  They part on
    [get_bundled_file] alone: after bundle_web_files.py the relative path of
    an entry finds its bytes; after web_bundler.py the text [<name>_path]
    finds them, and a relative path that is not an identifier finds
    nothing. *)
Theorem modes_agree_except_on_files_keys (a : WebBundler.args) (w wc ws : world)
    (web_files : list (string * string * list byte)) (pc ps : Cxx.program) :
  WebBundler.web_dir a = "web" ->
  BundleWebFiles.collect_web_files w = Ok web_files ->
  (forall file_path rel_path content,
     In (file_path, rel_path, content) web_files ->
     Spec.symbolic_name rel_path <> "web_bundle") ->
  BundleWebFiles.main w = Ok wc ->
  WebBundler.main a w = Ok ws ->
  Cxx.compile (w_files wc) BundleWebFiles.output_dir = Ok pc ->
  Cxx.compile (w_files ws) (WebBundler.output_dir a) = Ok ps ->
  Cxx.globals pc = Cxx.globals ps
  /\ Cxx.get_bundled_file_paths pc = Cxx.get_bundled_file_paths ps
  /\ Cxx.get_bundled_file_mime_types pc = Cxx.get_bundled_file_mime_types ps
  /\ (forall path,
        Cxx.get_bundled_file_mime_type pc path = Cxx.get_bundled_file_mime_type ps path)
  /\ (forall file_path rel_path content,
        In (file_path, rel_path, content) web_files ->
        Cxx.get_bundled_file pc rel_path = Ok (Some (Spec.symbolic_name rel_path))
        /\ Cxx.get_bundled_file ps (Spec.symbolic_name rel_path +:+ "_path")
           = Ok (Some (Spec.symbolic_name rel_path))
        /\ (Spec.is_identifier rel_path = false ->
            Cxx.get_bundled_file ps rel_path = Ok None)).
Proof.
  intros Hweb. rewrite collect_combined, main_combined.
  intros [= <-] Hindex [= <-] Hrun Hcompile Hcompile'.
  apply main_split_ok in Hrun as [-> _].
  assert (Hread : Forall Pure.plain (Pure.web_files (w_cwd w) (w_tree w))
                  /\ NoDup (flat_map Pure.identifiers (Pure.web_files (w_cwd w) (w_tree w)))).
  { rewrite combined_compile in Hcompile.
    destruct (for_each _ Cxx.declare ∅) as [env|] eqn:Hdecl; [|discriminate].
    apply blocks_declare_inv in Hdecl. tauto. }
  destruct Hread as [Hplain Hnodup].
  destruct (combined_program w Hplain Hnodup)
    as (pc' & Hpc & Hgc & Hfc & Hpathsc & Hmc).
  assert (pc' = pc) as -> by congruence.
  destruct (split_program a w) as (ps' & Hps & Hgs & Hfs & Hpathss & Hms);
    try (rewrite (split_entries_default a w Hweb); assumption).
  { rewrite (split_entries_default a w Hweb).
    intros [[fp rel] c] Hin. now apply (Hindex fp rel c). }
  assert (ps' = ps) as -> by congruence.
  rewrite (split_entries_default a w Hweb) in Hgs, Hfs, Hpathss, Hms.
  set (web_files := Pure.web_files (w_cwd w) (w_tree w)) in *.
  split; [now rewrite Hgc, Hgs|]. split; [now rewrite Hpathsc, Hpathss|].
  assert (Hmimes : Cxx.get_bundled_file_mime_types pc = Cxx.get_bundled_file_mime_types ps)
    by now rewrite Hmc, Hms.
  split; [exact Hmimes|].
  split; [intros path; unfold Cxx.get_bundled_file_mime_type; now rewrite Hmimes|].
  intros fp rel content Hin. unfold Cxx.get_bundled_file. rewrite Hfc, Hfs.
  cbn [mbind result_bind]. repeat apply conj.
  - rewrite (lookup_written (fun e : string * string * list byte => e.1.2)
               (fun e => Spec.symbolic_name e.1.2) web_files ∅ (fp, rel, content) Hin);
      [reflexivity|].
    intros other _ Heq. cbn in *. now rewrite Heq.
  - rewrite (lookup_written (fun e : string * string * list byte =>
                               Spec.symbolic_name e.1.2 +:+ "_path")
               (fun e => Spec.symbolic_name e.1.2) web_files ∅ (fp, rel, content) Hin);
      [reflexivity|].
    intros other _ Heq. cbn [fst snd] in *. now apply append_inv_tail in Heq.
  - intros Hrel. rewrite writes_elsewhere, lookup_empty; [reflexivity|].
    intros [[fp' rel'] c'] Hin' Hkey. cbn [fst snd] in Hkey.
    rewrite <- Hkey, identifier_append in Hrel; [discriminate| |reflexivity].
    apply symbolic_name_is_identifier.
    now apply (web_files_nonempty (w_cwd w) (w_tree w) fp' rel' c').
Qed.

Lemma modes_agree_except_on_files_keys_witness :
  exists pc ps,
    Sample.combined Sample.two_files = Some pc
    /\ Sample.split Sample.two_files = Some ps
    /\ Cxx.globals pc = Cxx.globals ps
    /\ Cxx.get_bundled_file_paths pc = Cxx.get_bundled_file_paths ps
    /\ Cxx.get_bundled_file_mime_types pc = Cxx.get_bundled_file_mime_types ps
    /\ (forall path,
          Cxx.get_bundled_file_mime_type pc path = Cxx.get_bundled_file_mime_type ps path)
    /\ (forall file_path rel_path content,
          In (file_path, rel_path, content)
            [("web/index.html", "index.html", Sample.bytes "<h1>DHT</h1>");
             ("web/css/a.css", "css/a.css", Sample.bytes "b{}")] ->
          Cxx.get_bundled_file pc rel_path = Ok (Some (Spec.symbolic_name rel_path))
          /\ Cxx.get_bundled_file ps (Spec.symbolic_name rel_path +:+ "_path")
             = Ok (Some (Spec.symbolic_name rel_path))
          /\ (Spec.is_identifier rel_path = false ->
              Cxx.get_bundled_file ps rel_path = Ok None)).
Proof.
  exists (default (Cxx.Program ∅ []) (Sample.combined Sample.two_files)),
    (default (Cxx.Program ∅ []) (Sample.split Sample.two_files)).
  split; [vm_compute; reflexivity|]. split; [vm_compute; reflexivity|].
  apply (modes_agree_except_on_files_keys WebBundler.default_args Sample.two_files
           (Pure.main_combined Sample.two_files)
           (Pure.main_split WebBundler.default_args Sample.two_files)
           [("web/index.html", "index.html", Sample.bytes "<h1>DHT</h1>");
            ("web/css/a.css", "css/a.css", Sample.bytes "b{}")]).
  - reflexivity.
  - vm_compute. reflexivity.
  - intros fp rel c Hin.
    repeat destruct Hin as [[= <- <- <-]|Hin]; try discriminate. destruct Hin.
  - apply main_combined.
  - apply main_split. left. vm_compute. discriminate.
  - vm_compute. reflexivity.
  - vm_compute. reflexivity.
Defined.

(** ** A file whose symbolic name is [web_bundle] *)

Lemma split_index_written (a : WebBundler.args) (w : world) :
  w_files (Pure.main_split a w) !! OsPath.join (WebBundler.output_dir a) "web_bundle.hpp"
  = Some (WebBundler.index_content
            (map (fun e : string * string * list byte =>
                    (e.1.2, Spec.symbolic_name e.1.2)) (Facts.split_entries a w))
            (WebBundler.namespace a)).
Proof.
  rewrite main_split_files. apply lookup_union_Some_l.
  unfold Pure.split_written. rewrite lookup_insert_eq. do 2 f_equal.
  rewrite split_entries_spec, map_map. reflexivity.
Qed.

Lemma written_by_entry {A V : Type} (key : A -> string) (val : A -> V) (l : list A)
    (entry : A) :
  forall m : gmap string V,
    In entry l ->
    exists e, In e l /\ key e = key entry
              /\ fold_left (fun m e => <[key e := val e]> m) l m !! key entry = Some (val e).
Proof.
  induction l as [|x l IH] using rev_ind; intros m Hin; [destruct Hin|].
  rewrite fold_left_app. cbn [fold_left].
  destruct (decide (key x = key entry)) as [Heq|Hne].
  - exists x. split; [apply in_or_app; right; now left|].
    split; [exact Heq|]. now rewrite Heq, lookup_insert_eq.
  - apply in_app_or in Hin as [Hin|[->|[]]]; [|congruence].
    destruct (IH m Hin) as (e & He & Hkey & Hval).
    exists e. split; [apply in_or_app; now left|]. split; [exact Hkey|].
    now rewrite lookup_insert_ne.
Qed.

Lemma not_web_bundle (v suffix : string) :
  suffix = "_path" \/ suffix = "_mime" -> v +:+ suffix <> "web_bundle".
Proof.
  intros Hs H. apply (f_equal list_ascii_of_string) in H. rewrite chars_app in H.
  apply (f_equal (@rev ascii)) in H. rewrite rev_app_distr in H.
  destruct Hs as [-> | ->]; cbn in H; congruence.
Qed.

(** A header that does not define [x]. *)
Lemma declare_keeps_fresh (x : string) (unit : list Cxx.item) :
  (forall it, In it unit ->
     (forall c, it <> Cxx.DefBytes x c) /\ (forall v, it <> Cxx.DefString x v)) ->
  forall env env',
    for_each unit Cxx.declare env = Ok env' -> env !! x = None -> env' !! x = None.
Proof.
  induction unit as [|it unit IH]; intros Hquiet env env'; cbn [for_each].
  - now intros [= <-].
  - destruct (Hquiet it (or_introl eq_refl)) as [Hbytes Hstr].
    destruct (Cxx.declare env it) as [env1|err] eqn:Hdecl; [|discriminate].
    cbn [mbind result_bind]. intros Hrest Hx.
    apply (IH (fun it' Hin => Hquiet it' (or_intror Hin)) env1 env' Hrest).
    destruct it as [t|n c|n v| |]; cbn in Hdecl; try (injection Hdecl as <-; exact Hx).
    + unfold Cxx.define in Hdecl. destruct (env !! n); [discriminate|].
      injection Hdecl as <-. rewrite lookup_insert_ne; [exact Hx|].
      intros ->. now apply (Hbytes c).
    + destruct (Cxx.literal v) as [s|]; [|discriminate]. cbn in Hdecl.
      unfold Cxx.define in Hdecl. destruct (env !! n); [discriminate|].
      injection Hdecl as <-. rewrite lookup_insert_ne; [exact Hx|].
      intros ->. now apply (Hstr v).
Qed.

Lemma elaborate_keeps_fresh (files : gmap string (list Cxx.item)) (dir x : string)
    (l : list Cxx.item) :
  (forall it, In it l ->
     (forall c, it <> Cxx.DefBytes x c) /\ (forall v, it <> Cxx.DefString x v)
     /\ forall name, it = Cxx.IncludeHpp name ->
          OsPath.join dir (name +:+ ".hpp") = OsPath.join dir "web_bundle.hpp"
          \/ forall unit it',
               files !! OsPath.join dir (name +:+ ".hpp") = Some unit -> In it' unit ->
               (forall c, it' <> Cxx.DefBytes x c) /\ (forall v, it' <> Cxx.DefString x v)) ->
  forall st st',
    for_each l (Cxx.elaborate files dir) st = Ok st' ->
    OsPath.join dir "web_bundle.hpp" ∈ st.1 -> st.2 !! x = None ->
    st'.2 !! x = None.
Proof.
  induction l as [|it l IH]; intros Hquiet st st'; cbn [for_each].
  - now intros [= <-].
  - destruct (Hquiet it (or_introl eq_refl)) as (Hbytes & Hstr & Hinc).
    destruct (Cxx.elaborate files dir st it) as [st1|err] eqn:Hstep; [|discriminate].
    cbn [mbind result_bind]. intros Hrest Hseen Hx.
    assert (H1 : OsPath.join dir "web_bundle.hpp" ∈ st1.1 /\ st1.2 !! x = None).
    { destruct st as [seen env]. cbn [fst snd] in *.
      destruct it as [t|n c|n v|name|m k v]; cbn [Cxx.elaborate fst snd] in Hstep.
      - injection Hstep as <-. now split.
      - destruct (Cxx.declare env (Cxx.DefBytes n c)) as [env1|] eqn:Hd; [|discriminate].
        injection Hstep as <-. split; [exact Hseen|].
        apply (declare_keeps_fresh x [Cxx.DefBytes n c]) with (env := env);
          [|cbn [for_each]; now rewrite Hd|exact Hx].
        intros it' [<-|[]]. now split.
      - destruct (Cxx.declare env (Cxx.DefString n v)) as [env1|] eqn:Hd; [|discriminate].
        injection Hstep as <-. split; [exact Hseen|].
        apply (declare_keeps_fresh x [Cxx.DefString n v]) with (env := env);
          [|cbn [for_each]; now rewrite Hd|exact Hx].
        intros it' [<-|[]]. now split.
      - cbv zeta in Hstep. case_bool_decide as Hin.
        + injection Hstep as <-. now split.
        + destruct (files !! _) as [unit|] eqn:Hfile; [|discriminate].
          destruct (for_each unit Cxx.declare env) as [env1|] eqn:Hd; [|discriminate].
          injection Hstep as <-. cbn [fst snd].
          split; [apply elem_of_union; now right|].
          destruct (Hinc name eq_refl) as [Heq|Hunit].
          * rewrite Heq in Hin. contradiction.
          * apply (declare_keeps_fresh x unit) with (env := env); [|exact Hd|exact Hx].
            intros it' Hit'. now apply (Hunit unit it').
      - injection Hstep as <-. now split. }
    destruct H1 as [Hseen1 Hx1].
    apply (IH (fun it' Hin => Hquiet it' (or_intror Hin)) st1 st' Hrest Hseen1 Hx1).
Qed.

Lemma for_each_raises {E A S : Type} (body : S -> A -> result E S) (l : list A) (x : A) :
  In x l ->
  (forall acc, exists e, body acc x = Raise e) ->
  forall acc, exists e, for_each l body acc = Raise e.
Proof.
  intros Hin Hx. induction l as [|y l IH]; intros acc; [destruct Hin|].
  cbn [for_each]. destruct Hin as [->|Hin].
  - destruct (Hx acc) as [e ->]. now exists e.
  - destruct (body acc y) as [acc'|e]; [apply (IH Hin)|now exists e].
Qed.



(** ** What the runs print *)

Lemma process_steps_stdout (a : WebBundler.args) (cwd : string)
    (l : list (string * list byte)) :
  forall st,
    w_stdout (fold_left (Pure.process_step a cwd) l st).1
    = w_stdout st.1
      ++ map (fun e => "Processed " +:+ Pure.rel_path cwd e.1 +:+ " -> "
                       +:+ Spec.symbolic_name (Pure.rel_path cwd e.1) +:+ ".hpp") l.
Proof.
  induction l as [|e l IH]; intros st; cbn [fold_left map]; [now rewrite app_nil_r|].
  rewrite IH. cbn [Pure.process_step fst print write_file w_stdout].
  now rewrite <- app_assoc.
Qed.

Lemma kept_count (top : string) (tree : node) :
  top <> "" ->
  length (List.filter Pure.keep (Pure.walked top tree))
  = length (List.filter (fun '(_, file, _) => negb (Spec.hidden file)) (Spec.located tree)).
Proof.
  intros Htop. pose proof (f_equal (@length _) (kept_files top tree Htop)) as H.
  now rewrite !length_map in H.
Qed.



(** ** Redefinitions in the header of bundle_web_files.py *)



(** ** The braces of the written text *)

Lemma lex_char_shift (q : Cxx.lexer) (d : Z) (c : ascii) :
  Cxx.lex_char (q, d) c
  = ((Cxx.lex_char (q, 0%Z) c).1, (d + (Cxx.lex_char (q, 0%Z) c).2)%Z).
Proof.
  unfold Cxx.lex_char, Cxx.in_code.
  destruct q; repeat match goal with |- context [if ?b then _ else _] => destruct b end;
    cbn [fst snd]; f_equal; lia.
Qed.

Lemma lex_shift (l : list ascii) :
  forall (q : Cxx.lexer) (d : Z),
    fold_left Cxx.lex_char l (q, d)
    = ((fold_left Cxx.lex_char l (q, 0%Z)).1,
       (d + (fold_left Cxx.lex_char l (q, 0%Z)).2)%Z).
Proof.
  induction l as [|c l IH]; intros q d; cbn [fold_left].
  - cbn. f_equal. lia.
  - rewrite (lex_char_shift q d c).
    destruct (Cxx.lex_char (q, 0%Z) c) as [q1 k1]. cbn [fst snd].
    rewrite (IH q1 (d + k1)%Z), (IH q1 k1). cbn [fst snd]. f_equal. lia.
Qed.

Lemma lex_concrete (l : list ascii) (q q' : Cxx.lexer) (k d : Z) :
  fold_left Cxx.lex_char l (q, 0%Z) = (q', k) ->
  fold_left Cxx.lex_char l (q, d) = (q', (d + k)%Z).
Proof. intros H. now rewrite lex_shift, H. Qed.

Lemma stay_code (l : list ascii) (d : Z) :
  forallb Facts.code_char l = true ->
  fold_left Cxx.lex_char l (Cxx.Code, d) = (Cxx.Code, d).
Proof.
  induction l as [|c l IH]; [reflexivity|]. cbn [forallb fold_left].
  intros H. apply andb_prop in H as [Hc Hl]. rewrite <- (IH Hl) at 2. f_equal.
  revert Hc. clear. destruct c as [[] [] [] [] [] [] [] []]; vm_compute;
    intros H; try discriminate H; reflexivity.
Qed.

Lemma stay_comment (l : list ascii) (d : Z) :
  forallb Cxx.plain_char l = true ->
  fold_left Cxx.lex_char l (Cxx.LineComment, d) = (Cxx.LineComment, d).
Proof.
  induction l as [|c l IH]; [reflexivity|]. cbn [forallb fold_left].
  intros H. apply andb_prop in H as [Hc Hl]. rewrite <- (IH Hl) at 2. f_equal.
  revert Hc. clear. destruct c as [[] [] [] [] [] [] [] []]; vm_compute;
    intros H; try discriminate H; reflexivity.
Qed.

Lemma stay_string (l : list ascii) (d : Z) :
  forallb Cxx.plain_char l = true ->
  fold_left Cxx.lex_char l (Cxx.InString, d) = (Cxx.InString, d).
Proof.
  induction l as [|c l IH]; [reflexivity|]. cbn [forallb fold_left].
  intros H. apply andb_prop in H as [Hc Hl]. rewrite <- (IH Hl) at 2. f_equal.
  revert Hc. clear. destruct c as [[] [] [] [] [] [] [] []]; vm_compute;
    intros H; try discriminate H; reflexivity.
Qed.

Lemma opens_app (s1 s2 : string) (k1 k2 : Z) :
  Facts.opens s1 k1 -> Facts.opens s2 k2 -> Facts.opens (s1 +:+ s2) (k1 + k2).
Proof.
  intros H1 H2 d. rewrite chars_app, fold_left_app, H1, H2. f_equal. lia.
Qed.

Lemma chars_concat (l : list string) :
  list_ascii_of_string (String.concat "" l) = flat_map list_ascii_of_string l.
Proof.
  induction l as [|s l IH]; [reflexivity|].
  destruct l as [|s' l].
  - cbn. now rewrite app_nil_r.
  - change (String.concat "" (s :: s' :: l)) with (s +:+ String.concat "" (s' :: l)).
    rewrite chars_app, IH. reflexivity.
Qed.

Lemma text_app (u1 u2 : list Cxx.item) :
  Cxx.text (u1 ++ u2) = Cxx.text u1 +:+ Cxx.text u2.
Proof.
  apply chars_inj. unfold Cxx.text.
  now rewrite chars_app, !chars_concat, map_app, flat_map_app.
Qed.

Lemma opens_text_app (u1 u2 : list Cxx.item) (k1 k2 : Z) :
  Facts.opens (Cxx.text u1) k1 -> Facts.opens (Cxx.text u2) k2 ->
  Facts.opens (Cxx.text (u1 ++ u2)) (k1 + k2).
Proof. rewrite text_app. apply opens_app. Qed.

Lemma opens_flat_map {A : Type} (f : A -> list Cxx.item) (l : list A) :
  (forall e, In e l -> Facts.opens (Cxx.text (f e)) 0) ->
  Facts.opens (Cxx.text (flat_map f l)) 0.
Proof.
  induction l as [|e l IH]; intros Hl; [intros d; cbn; f_equal; lia|].
  cbn [flat_map]. change 0%Z with (0 + 0)%Z. apply opens_text_app.
  - apply Hl. now left.
  - apply IH. intros e' He'. apply Hl. now right.
Qed.

Lemma opens_map {A : Type} (f : A -> Cxx.item) (l : list A) :
  (forall e, In e l -> Facts.opens (Cxx.render (f e)) 0) ->
  Facts.opens (Cxx.text (map f l)) 0.
Proof.
  induction l as [|e l IH]; intros Hl; [intros d; cbn; f_equal; lia|].
  change (map f (e :: l)) with ([f e] ++ map f l).
  change 0%Z with (0 + 0)%Z. apply opens_text_app.
  - apply (Hl e). now left.
  - apply IH. intros e' He'. apply Hl. now right.
Qed.

Lemma forallb_weaken {A : Type} (p q : A -> bool) (l : list A) :
  (forall x, p x = true -> q x = true) -> forallb p l = true -> forallb q l = true.
Proof.
  intros Hpq H. apply forallb_forall. intros x Hx. apply Hpq.
  rewrite forallb_forall in H. now apply H.
Qed.

Lemma ident_char_code (c : ascii) : Spec.ident_char c = true -> Facts.code_char c = true.
Proof. by_cases_on_char c. Qed.

Lemma namespace_char_code (c : ascii) :
  Facts.namespace_char c = true -> Facts.code_char c = true.
Proof. by_cases_on_char c. Qed.

Lemma namespace_char_plain (c : ascii) :
  Facts.namespace_char c = true -> Cxx.plain_char c = true.
Proof. by_cases_on_char c. Qed.

Lemma array_element_code (b : byte) :
  forallb Facts.code_char (list_ascii_of_string ("0x" +:+ Py.format_02x b +:+ ", ")) = true.
Proof. destruct b; reflexivity. Qed.

Lemma write_bytes_code (content : list byte) :
  forall i, forallb Facts.code_char (list_ascii_of_string (Cxx.write_bytes i content)) = true.
Proof.
  induction content as [|b content IH]; intros i; [reflexivity|].
  cbn [Cxx.write_bytes].
  change ("0x" +:+ Py.format_02x b +:+ ", " +:+ Cxx.write_bytes (S i) content)
    with (("0x" +:+ Py.format_02x b +:+ ", ") +:+ Cxx.write_bytes (S i) content).
  set (element := "0x" +:+ Py.format_02x b +:+ ", ").
  rewrite !chars_app, !forallb_app, IH. unfold element. rewrite array_element_code.
  now destruct (i mod 12 =? 0)%nat.
Qed.

(** One step of the reader over a text that is a chain of appended parts:
    a part that is a variable keeps the state by one of the [stay] lemmas, a
    part that is written out is read by computation. *)
Ltac lex_step :=
  match goal with
  | |- context [fold_left Cxx.lex_char (list_ascii_of_string ?s) (?q, ?d)] =>
      first
        [ rewrite (stay_code (list_ascii_of_string s) d) by assumption
        | rewrite (stay_comment (list_ascii_of_string s) d) by assumption
        | rewrite (stay_string (list_ascii_of_string s) d) by assumption
        | let r := eval vm_compute in
                   (fold_left Cxx.lex_char (list_ascii_of_string s) (q, 0%Z)) in
          match r with
          | (?q', ?k) =>
              rewrite (lex_concrete (list_ascii_of_string s) q q' k d)
                by (vm_compute; reflexivity)
          end ]
  end.

Ltac lex_text :=
  intros ?depth;
  cbn [Cxx.text Cxx.render Cxx.render_key Cxx.render_val map String.concat];
  unfold Cxx.initializer, Cxx.lines;
  cbn [map String.concat];
  rewrite ?chars_app, ?fold_left_app;
  repeat lex_step;
  f_equal; lia.

Lemma opens_def_bytes (name : string) (content : list byte) :
  forallb Facts.code_char (list_ascii_of_string name) = true ->
  Facts.opens (Cxx.render (Cxx.DefBytes name content)) 0.
Proof.
  intros Hname. pose proof (write_bytes_code content 0) as Hbytes. lex_text.
Qed.

Lemma opens_def_string (name value : string) :
  forallb Facts.code_char (list_ascii_of_string name) = true ->
  forallb Cxx.plain_char (list_ascii_of_string value) = true ->
  Facts.opens (Cxx.render (Cxx.DefString name value)) 0.
Proof. intros Hname Hvalue. lex_text. Qed.

Lemma opens_include (name : string) :
  forallb Cxx.plain_char (list_ascii_of_string name) = true ->
  Facts.opens (Cxx.render (Cxx.IncludeHpp name)) 0.
Proof. intros Hname. lex_text. Qed.

Lemma opens_assign_literal (m key x : string) (v : Cxx.val_expr) :
  forallb Facts.code_char (list_ascii_of_string m) = true ->
  forallb Cxx.plain_char (list_ascii_of_string key) = true ->
  forallb Facts.code_char (list_ascii_of_string x) = true ->
  v = Cxx.AddrOf x \/ v = Cxx.Ident x ->
  Facts.opens (Cxx.render (Cxx.Assign m (Cxx.KLit key) v)) 0.
Proof. intros Hm Hkey Hx [-> | ->]; lex_text. Qed.

Lemma opens_assign_variable (m key x : string) :
  forallb Facts.code_char (list_ascii_of_string m) = true ->
  forallb Facts.code_char (list_ascii_of_string key) = true ->
  forallb Facts.code_char (list_ascii_of_string x) = true ->
  Facts.opens (Cxx.render (Cxx.Assign m (Cxx.KVar key) (Cxx.Ident x))) 0.
Proof. intros Hm Hkey Hx. lex_text. Qed.

Lemma mime_type_chars (file_path : string) :
  forallb Cxx.plain_char (list_ascii_of_string (BundleWebFiles.get_mime_type file_path))
  = true.
Proof.
  pose proof (mime_type_plain file_path) as H. unfold Cxx.literal in H.
  now destruct (forallb _ _).
Qed.

Lemma name_code (v : string) :
  Spec.is_identifier v = true ->
  forallb Facts.code_char (list_ascii_of_string v) = true.
Proof.
  intros Hv. apply (forallb_weaken Spec.ident_char); [apply ident_char_code|].
  now apply identifier_chars.
Qed.

Lemma name_plain (v : string) :
  Spec.is_identifier v = true ->
  forallb Cxx.plain_char (list_ascii_of_string v) = true.
Proof.
  intros Hv. apply (forallb_weaken Spec.ident_char); [apply ident_char_plain|].
  now apply identifier_chars.
Qed.

Lemma opens_concrete (text : string) (k : Z) :
  fold_left Cxx.lex_char (list_ascii_of_string text) (Cxx.Code, 0%Z) = (Cxx.Code, k) ->
  Facts.opens text k.
Proof. intros H d. now apply lex_concrete. Qed.

Lemma opens_file_block (entry : string * string * list byte) :
  Pure.plain entry -> entry.1.2 <> "" ->
  Facts.opens (Cxx.text (Pure.file_block entry)) 0.
Proof.
  destruct entry as [[fp rel] content]. cbn [Pure.plain fst snd]. intros Hrel Hne.
  pose proof (name_code _ (symbolic_name_is_identifier rel Hne)) as Hname.
  pose proof (mime_type_chars fp) as Hmime.
  pose proof (write_bytes_code content 0) as Hbytes.
  cbn [Pure.file_block]. lex_text.
Qed.

Lemma opens_web_bundle_hpp (web_files : list (string * string * list byte)) :
  Forall Pure.plain web_files ->
  (forall e, In e web_files -> e.1.2 <> "") ->
  Facts.opens (Cxx.text (Pure.web_bundle_hpp web_files)) 0.
Proof.
  intros Hplain Hne. rewrite Forall_forall in Hplain.
  assert (Hline : forall (m suffix : string) (addr : bool) (e : string * string * list byte),
            In e web_files ->
            forallb Facts.code_char (list_ascii_of_string m) = true ->
            forallb Facts.code_char (list_ascii_of_string suffix) = true ->
            Facts.opens
              (Cxx.render
                 (Cxx.Assign m (Cxx.KLit e.1.2)
                    (if addr then Cxx.AddrOf (Spec.symbolic_name e.1.2 +:+ suffix)
                     else Cxx.Ident (Spec.symbolic_name e.1.2 +:+ suffix)))) 0).
  { intros m suffix addr e He Hm Hsuffix.
    apply (opens_assign_literal m e.1.2 (Spec.symbolic_name e.1.2 +:+ suffix)).
    - exact Hm.
    - specialize (Hplain e (proj2 (list_elem_of_In _ _) He)).
      now destruct e as [[? ?] ?].
    - rewrite chars_app, forallb_app, Hsuffix, andb_true_r.
      apply name_code, symbolic_name_is_identifier. now apply Hne.
    - destruct addr; [now left|now right]. }
  unfold Pure.web_bundle_hpp.
  change 0%Z with ((((((((2 + 0) + 1) + 0) + 0) + 0) + 0) + 0) + -3)%Z.
  repeat apply opens_text_app.
  - apply opens_concrete. vm_compute. reflexivity.
  - apply opens_flat_map. intros e He. apply opens_file_block; [|now apply Hne].
    now apply Hplain, list_elem_of_In.
  - apply opens_concrete. vm_compute. reflexivity.
  - apply opens_flat_map. intros [[fp rel] c] He. intros d.
    pose proof (Hline "files" "" true _ He eq_refl eq_refl d) as H.
    cbn [fst snd] in H. unfold Pure.files_line, Cxx.text. cbn [map String.concat].
    replace (Spec.symbolic_name rel +:+ "") with (Spec.symbolic_name rel) in H; [exact H|].
    apply chars_inj. now rewrite chars_app, app_nil_r.
  - apply opens_concrete. vm_compute. reflexivity.
  - apply opens_flat_map. intros [[fp rel] c] He.
    exact (Hline "paths" "_path" false _ He eq_refl eq_refl).
  - apply opens_concrete. vm_compute. reflexivity.
  - apply opens_flat_map. intros [[fp rel] c] He.
    exact (Hline "mime_types" "_mime" false _ He eq_refl eq_refl).
  - apply opens_concrete. vm_compute. reflexivity.
Qed.

Lemma opens_header_content (namespace rel_path file_path : string) (content : list byte) :
  forallb Facts.namespace_char (list_ascii_of_string namespace) = true ->
  forallb Cxx.plain_char (list_ascii_of_string rel_path) = true ->
  rel_path <> "" ->
  Facts.opens
    (Cxx.text (WebBundler.header_content namespace rel_path
                 (Spec.symbolic_name rel_path) file_path content)) 0.
Proof.
  intros Hns Hrel Hne.
  pose proof (forallb_weaken _ _ _ namespace_char_code Hns) as Hns_code.
  pose proof (forallb_weaken _ _ _ namespace_char_plain Hns) as Hns_plain.
  pose proof (name_code _ (symbolic_name_is_identifier rel_path Hne)) as Hname.
  pose proof (mime_type_chars file_path) as Hmime.
  pose proof (write_bytes_code content 0) as Hbytes.
  unfold WebBundler.header_content.
  change (WebBundler.get_mime_type file_path) with (BundleWebFiles.get_mime_type file_path).
  lex_text.
Qed.

Lemma opens_index_content (files : list (string * string)) (namespace : string) :
  forallb Facts.namespace_char (list_ascii_of_string namespace) = true ->
  (forall rel_path var_name, In (rel_path, var_name) files ->
     forallb Cxx.plain_char (list_ascii_of_string rel_path) = true
     /\ Spec.is_identifier var_name = true) ->
  Facts.opens (Cxx.text (WebBundler.index_content files namespace)) (-2).
Proof.
  intros Hns Hfiles.
  pose proof (forallb_weaken _ _ _ namespace_char_code Hns) as Hns_code.
  unfold WebBundler.index_content.
  change (-2)%Z with (0 + (0 + (3 + (0 + (0 + (0 + (0 + (0 + -5))))))))%Z.
  repeat apply opens_text_app.
  - apply opens_concrete. vm_compute. reflexivity.
  - apply opens_map. intros [rel v] He. destruct (Hfiles rel v He) as [Hrel Hv].
    apply opens_include. now apply name_plain.
  - lex_text.
  - apply opens_map. intros [rel v] He. destruct (Hfiles rel v He) as [Hrel Hv].
    apply (opens_assign_literal "files" (v +:+ "_path") v); [reflexivity| | |now left].
    + rewrite chars_app, forallb_app, (name_plain v Hv). reflexivity.
    + now apply name_code.
  - apply opens_concrete. vm_compute. reflexivity.
  - apply opens_map. intros [rel v] He. destruct (Hfiles rel v He) as [Hrel Hv].
    apply (opens_assign_literal "paths" rel (v +:+ "_path")); [reflexivity|exact Hrel| |now right].
    rewrite chars_app, forallb_app, (name_code v Hv). reflexivity.
  - apply opens_concrete. vm_compute. reflexivity.
  - apply opens_map. intros [rel v] He. destruct (Hfiles rel v He) as [Hrel Hv].
    apply (opens_assign_variable "mime_types" (v +:+ "_path") (v +:+ "_mime"));
      [reflexivity|..]; rewrite chars_app, forallb_app, (name_code v Hv); reflexivity.
  - apply opens_concrete. vm_compute. reflexivity.
Qed.

Lemma opens_depth (text : string) (k : Z) : Facts.opens text k -> Cxx.brace_depth text = k.
Proof. intros H. unfold Cxx.brace_depth. now rewrite (H 0%Z). Qed.

(** X12.  The braces of the text that the scripts write, comments and
    string literals apart, for every tree whose relative paths have no
    quote, backslash or line break in them and every namespace made of
    identifier characters and colons.  The header of bundle_web_files.py and
    every per-file header of web_bundler.py close as many braces as they
    open.  The index that a completed run of web_bundler.py leaves closes
    two more than it opens, whatever the tree: its last part (lines 154-179)
    is not an f-string, so the doubled braces that close the two namespaces
    are written doubled. *)
Theorem braces_of_the_written_headers (a : WebBundler.args) (w : world)
    (web_files : list (string * string * list byte)) :
  forallb Facts.namespace_char (list_ascii_of_string (WebBundler.namespace a)) = true ->
  BundleWebFiles.collect_web_files w = Ok web_files ->
  Forall Pure.plain web_files ->
  Forall Pure.plain (Facts.split_entries a w) ->
  (exists w' f,
     BundleWebFiles.main w = Ok w'
     /\ w_files w' !! OsPath.join BundleWebFiles.output_dir "web_bundle.hpp" = Some f
     /\ Cxx.brace_depth (Cxx.text f) = 0%Z)
  /\ (forall w',
        WebBundler.main a w = Ok w' ->
        exists index,
          w_files w' !! OsPath.join (WebBundler.output_dir a) "web_bundle.hpp" = Some index
          /\ Cxx.brace_depth (Cxx.text index) = (-2)%Z)
  /\ (forall file_path rel_path content,
        In (file_path, rel_path, content) (Facts.split_entries a w) ->
        Cxx.brace_depth
          (Cxx.text (WebBundler.header_content (WebBundler.namespace a) rel_path
                       (Spec.symbolic_name rel_path) file_path content)) = 0%Z).
Proof.
  intros Hns. rewrite collect_combined. intros [= <-] Hplain Hsplit.
  rewrite Forall_forall in Hsplit.
  repeat apply conj.
  - exists (Pure.main_combined w). eexists.
    split; [apply main_combined|]. split; [apply main_combined_file|].
    apply opens_depth, opens_web_bundle_hpp; [exact Hplain|].
    intros [[fp rel] c] He. now apply (web_files_nonempty (w_cwd w) (w_tree w) fp rel c).
  - intros w' Hrun. apply main_split_ok in Hrun as [-> _]. eexists.
    split; [apply split_index_written|].
    apply opens_depth, opens_index_content; [exact Hns|].
    intros rel v Hin. apply in_map_iff in Hin as (e & [= <- <-] & He).
    destruct (split_entries_named a w e He) as (Hrel & _ & _).
    split; [|now apply symbolic_name_is_identifier].
    specialize (Hsplit e (proj2 (list_elem_of_In _ _) He)). now destruct e as [[? ?] ?].
  - intros fp rel c He. apply opens_depth, opens_header_content; [exact Hns| |].
    + exact (Hsplit (fp, rel, c) (proj2 (list_elem_of_In _ _) He)).
    + exact (proj1 (split_entries_named a w (fp, rel, c) He)).
Qed.

Lemma braces_of_the_written_headers_witness :
  (exists w' f,
     BundleWebFiles.main Sample.two_files = Ok w'
     /\ w_files w' !! OsPath.join BundleWebFiles.output_dir "web_bundle.hpp" = Some f
     /\ Cxx.brace_depth (Cxx.text f) = 0%Z)
  /\ (forall w',
        WebBundler.main WebBundler.default_args Sample.two_files = Ok w' ->
        exists index,
          w_files w' !! OsPath.join (WebBundler.output_dir WebBundler.default_args)
                          "web_bundle.hpp" = Some index
          /\ Cxx.brace_depth (Cxx.text index) = (-2)%Z)
  /\ (forall file_path rel_path content,
        In (file_path, rel_path, content)
          (Facts.split_entries WebBundler.default_args Sample.two_files) ->
        Cxx.brace_depth
          (Cxx.text (WebBundler.header_content
                       (WebBundler.namespace WebBundler.default_args) rel_path
                       (Spec.symbolic_name rel_path) file_path content)) = 0%Z).
Proof.
  refine (braces_of_the_written_headers WebBundler.default_args Sample.two_files
            [("web/index.html", "index.html", Sample.bytes "<h1>DHT</h1>");
             ("web/css/a.css", "css/a.css", Sample.bytes "b{}")] eq_refl _ _ _).
  - vm_compute. reflexivity.
  - repeat constructor.
  - vm_compute. repeat constructor.
Defined.

(** ** The path under which a file is stored *)

Lemma append_assoc (a b c : string) : (a +:+ b) +:+ c = a +:+ (b +:+ c).
Proof. apply chars_inj. now rewrite !chars_app, app_assoc. Qed.

Lemma append_empty_r (a : string) : a +:+ "" = a.
Proof. apply chars_inj. now rewrite chars_app, app_nil_r. Qed.

Lemma split_on_sep (sep : ascii) (a b : string) :
  forall cur,
    Py.split_on sep cur (a +:+ String sep b)
    = Py.split_on sep cur a ++ Py.split_on sep "" b.
Proof.
  induction a as [|c a IH]; intros cur.
  - change ("" +:+ String sep b) with (String sep b).
    cbn [Py.split_on]. now rewrite Ascii.eqb_refl.
  - change (String c a +:+ String sep b) with (String c (a +:+ String sep b)).
    cbn [Py.split_on]. destruct (Ascii.eqb c sep).
    + now rewrite IH.
    + apply IH.
Qed.

Lemma split_on_plain (sep : ascii) (s : string) :
  forallb (fun c => negb (Ascii.eqb c sep)) (list_ascii_of_string s) = true ->
  forall cur, Py.split_on sep cur s = [cur +:+ s].
Proof.
  induction s as [|c s IH]; intros Hs cur; [now rewrite append_empty_r|].
  cbn in Hs. apply andb_prop in Hs as [Hc Hs]. cbn [Py.split_on].
  destruct (Ascii.eqb c sep); [discriminate|].
  rewrite (IH Hs), append_assoc. reflexivity.
Qed.

Lemma file_name_spec (name : string) :
  Facts.file_name name = true ->
  name <> "" /\ name <> "." /\ name <> ".." /\ Facts.component name = true.
Proof.
  unfold Facts.file_name, Facts.component. intros H.
  apply andb_prop in H as [H H4]. apply andb_prop in H as [H H3].
  apply andb_prop in H as [H1 H2]. rewrite H1, H4.
  repeat split; intros ->; discriminate.
Qed.

Lemma component_spec (name : string) :
  Facts.component name = true ->
  name <> ""
  /\ forallb (fun c => negb (Ascii.eqb c "/")) (list_ascii_of_string name) = true.
Proof.
  unfold Facts.component. intros H. apply andb_prop in H as [H1 H2].
  split; [intros ->; discriminate|exact H2].
Qed.

Lemma file_names_components (names : list string) :
  forallb Facts.file_name names = true -> forallb Facts.component names = true.
Proof.
  apply forallb_weaken. intros name H. now apply file_name_spec in H.
Qed.

(** [sep.join(names).split(sep)] gives the names back. *)
Lemma split_str_join (names : list string) :
  names <> [] ->
  forallb Facts.component names = true ->
  Py.split "/" (Py.str_join "/" names) = names.
Proof.
  induction names as [|p names IH]; intros Hne Hnames; [contradiction|].
  cbn in Hnames. apply andb_prop in Hnames as [Hp Hnames].
  apply component_spec in Hp as (_ & Hp).
  destruct names as [|q names].
  - cbn [Py.str_join]. unfold Py.split. now rewrite split_on_plain.
  - change (Py.str_join "/" (p :: q :: names))
      with (p +:+ String "/" (Py.str_join "/" (q :: names))).
    unfold Py.split. rewrite split_on_sep, split_on_plain by exact Hp.
    fold (Py.split "/" (Py.str_join "/" (q :: names))).
    rewrite IH; [reflexivity|discriminate|exact Hnames].
Qed.

Lemma endswith_slash (s : string) :
  Py.endswith s "/"
  = match last (list_ascii_of_string s) with
    | Some c => Ascii.eqb c "/"
    | None => false
    end.
Proof.
  unfold Py.endswith. induction s as [|c s IH]; [reflexivity|].
  destruct s as [|c' s].
  - cbn. now destruct (Ascii.eqb c "/").
  - change (list_ascii_of_string (String c (String c' s)))
      with (c :: list_ascii_of_string (String c' s)).
    rewrite last_cons.
    destruct (last (list_ascii_of_string (String c' s))) as [y|] eqn:Hlast.
    + rewrite <- IH. cbn [String.length] in *. cbn [Nat.leb] in *.
      replace (S (S (String.length s)) - 1) with (S (String.length s)) by lia.
      replace (S (String.length s) - 1) with (String.length s) by lia.
      reflexivity.
    + change (list_ascii_of_string (String c' s))
        with (c' :: list_ascii_of_string s) in Hlast.
      rewrite last_cons in Hlast. now destruct (last (list_ascii_of_string s)).
Qed.

Lemma component_start (name : string) :
  Facts.component name = true ->
  exists c rest, name = String c rest /\ Ascii.eqb c "/" = false.
Proof.
  intros H. apply component_spec in H as [Hne Hs].
  destruct name as [|c rest]; [contradiction|]. exists c, rest.
  split; [reflexivity|]. cbn in Hs. apply andb_prop in Hs as [Hc _].
  now destruct (Ascii.eqb c "/").
Qed.

Lemma starts_without_slash (c : ascii) (rest : string) :
  Ascii.eqb c "/" = false -> Py.startswith (String c rest) "/" = false.
Proof.
  intros Hc. unfold Py.startswith. cbn -[ascii_dec].
  destruct (ascii_dec "/" c) as [<-|]; [discriminate|reflexivity].
Qed.

Lemma component_not_absolute (name : string) :
  Facts.component name = true -> Py.startswith name "/" = false.
Proof.
  intros H. apply component_start in H as (c & rest & -> & Hc).
  now apply starts_without_slash.
Qed.

Lemma component_end (a name : string) :
  Facts.component name = true -> Py.endswith (a +:+ name) "/" = false.
Proof.
  intros H. apply component_spec in H as [Hne Hs].
  rewrite endswith_slash, chars_app, last_app.
  destruct (last (list_ascii_of_string name)) as [y|] eqn:Hlast.
  - apply last_Some in Hlast as [l' Hl]. rewrite Hl, forallb_app in Hs.
    apply andb_prop in Hs as [_ Hy]. cbn in Hy. now destruct (Ascii.eqb y "/").
  - apply last_None in Hlast. destruct name; [contradiction|discriminate].
Qed.

Lemma join_component (a b : string) :
  a <> "" -> Py.endswith a "/" = false -> Facts.component b = true ->
  OsPath.join a b = a +:+ "/" +:+ b.
Proof.
  intros Ha Hend Hb. unfold OsPath.join.
  rewrite (component_not_absolute b Hb), Hend.
  destruct (String.eqb_spec a ""); [contradiction|reflexivity].
Qed.

Lemma str_join_cons (a : string) (names : list string) :
  names <> [] ->
  Py.str_join "/" (a :: names) = a +:+ "/" +:+ Py.str_join "/" names.
Proof. destruct names; [contradiction|reflexivity]. Qed.

Lemma append_nonempty_l (a b : string) : a <> "" -> a +:+ b <> "".
Proof. destruct a; [contradiction|discriminate]. Qed.

(** [os.path.join(a, *names)] is the names joined with slashes. *)
Lemma join_names (names : list string) :
  forall a,
    a <> "" -> Py.endswith a "/" = false ->
    forallb Facts.component names = true ->
    fold_left OsPath.join names a = Py.str_join "/" (a :: names).
Proof.
  induction names as [|b names IH]; intros a Ha Hend Hnames; [reflexivity|].
  cbn in Hnames. apply andb_prop in Hnames as [Hb Hnames].
  cbn [fold_left]. rewrite join_component by assumption.
  rewrite IH; [| |change (a +:+ "/" +:+ b) with (a +:+ ("/" +:+ b));
                 rewrite <- append_assoc; now apply component_end|exact Hnames].
  - rewrite (str_join_cons a (b :: names)) by discriminate.
    destruct names as [|c names]; [reflexivity|].
    rewrite !(str_join_cons _ (c :: names)) by discriminate.
    change (a +:+ "/" +:+ b) with (a +:+ ("/" +:+ b)).
    now rewrite !append_assoc.
  - now apply append_nonempty_l.
Qed.

Lemma norm_names (slashes : nat) (names : list string) :
  forall comps,
    forallb Facts.file_name names = true ->
    fold_left (OsPath.norm_step slashes) names comps = comps ++ names.
Proof.
  induction names as [|b names IH]; intros comps Hnames; [now rewrite app_nil_r|].
  cbn in Hnames. apply andb_prop in Hnames as [Hb Hnames].
  apply file_name_spec in Hb as (H1 & H2 & H3 & _).
  cbn [fold_left]. unfold OsPath.norm_step at 2.
  destruct (String.eqb_spec b ""); [contradiction|].
  destruct (String.eqb_spec b "."); [contradiction|].
  destruct (String.eqb_spec b ".."); [contradiction|].
  cbn [orb negb]. rewrite IH by exact Hnames. now rewrite <- app_assoc.
Qed.

Lemma split_on_components (s : string) :
  forall cur,
    forallb (fun c => negb (Ascii.eqb c "/")) (list_ascii_of_string cur) = true ->
    Forall (fun x => forallb (fun c => negb (Ascii.eqb c "/")) (list_ascii_of_string x)
                     = true)
      (Py.split_on "/" cur s).
Proof.
  induction s as [|c s IH]; intros cur Hcur; cbn [Py.split_on].
  - now constructor.
  - destruct (Ascii.eqb c "/") eqn:Hc.
    + constructor; [exact Hcur|]. now apply IH.
    + apply IH. rewrite chars_app, forallb_app, Hcur. cbn. now rewrite Hc.
Qed.

Lemma norm_components (slashes : nat) (xs : list string) :
  forall comps,
    Forall (fun x => forallb (fun c => negb (Ascii.eqb c "/")) (list_ascii_of_string x)
                     = true) xs ->
    forallb Facts.component comps = true ->
    forallb Facts.component (fold_left (OsPath.norm_step slashes) xs comps) = true.
Proof.
  induction xs as [|x xs IH]; intros comps Hxs Hcomps; [exact Hcomps|].
  apply Forall_cons in Hxs as [Hx Hxs]. cbn [fold_left]. apply IH; [exact Hxs|].
  unfold OsPath.norm_step.
  destruct (String.eqb_spec x "") as [->|Hne]; [exact Hcomps|]. cbn [orb].
  destruct (String.eqb x "."); [exact Hcomps|].
  destruct (_ || _ || _).
  - rewrite forallb_app, Hcomps. cbn. unfold Facts.component. rewrite Hx.
    now destruct (String.eqb_spec x "").
  - clear -Hcomps. induction comps as [|c comps IH]; [reflexivity|].
    cbn in Hcomps. apply andb_prop in Hcomps as [Hc Hcomps].
    destruct comps as [|c' comps]; [reflexivity|].
    change (removelast (c :: c' :: comps)) with (c :: removelast (c' :: comps)).
    cbn [forallb]. now rewrite Hc, IH.
Qed.

Lemma commonprefix_app (common l1 l2 : list string) :
  OsPath.commonprefix (common ++ l1) (common ++ l2)
  = common ++ OsPath.commonprefix l1 l2.
Proof.
  induction common as [|c common IH]; [reflexivity|].
  cbn. now rewrite String.eqb_refl, IH.
Qed.

Lemma prefix_of_slashes (q head b1 b2 : string) :
  forallb (Ascii.eqb "/") (list_ascii_of_string q) = true ->
  Py.startswith b1 "/" = false -> b1 <> "" ->
  Py.startswith b2 "/" = false -> b2 <> "" ->
  String.prefix q (head +:+ b1) = String.prefix q (head +:+ b2).
Proof.
  intros Hq H1 N1 H2 N2. revert q Hq.
  induction head as [|y head IH]; intros q Hq.
  - change ("" +:+ b1) with b1. change ("" +:+ b2) with b2.
    destruct b1 as [|c1 r1]; [contradiction|]. destruct b2 as [|c2 r2]; [contradiction|].
    destruct q as [|a q]; [reflexivity|].
    cbn [list_ascii_of_string forallb] in Hq.
    apply andb_prop in Hq as [Ha _]. apply Ascii.eqb_eq in Ha as <-.
    unfold Py.startswith in *. cbn -[ascii_dec] in *.
    destruct (ascii_dec "/" c1), (ascii_dec "/" c2); try reflexivity;
      first [destruct r1; discriminate | destruct r2; discriminate].
  - change (String y head +:+ b1) with (String y (head +:+ b1)).
    change (String y head +:+ b2) with (String y (head +:+ b2)).
    destruct q as [|a q]; [reflexivity|].
    cbn [list_ascii_of_string forallb] in Hq. apply andb_prop in Hq as [_ Hq].
    cbn -[ascii_dec]. destruct (ascii_dec a y); [now apply IH|reflexivity].
Qed.

Lemma prefix_app (q a b : string) :
  String.prefix q a = true -> String.prefix q (a +:+ b) = true.
Proof.
  revert q. induction a as [|c a IH]; intros q.
  - destruct q; [destruct b; reflexivity|discriminate].
  - change (String c a +:+ b) with (String c (a +:+ b)).
    destruct q as [|y q]; [reflexivity|]. cbn -[ascii_dec].
    destruct (ascii_dec y c); [apply IH|discriminate].
Qed.

Lemma str_join_start (names : list string) :
  names <> [] ->
  forallb Facts.component names = true ->
  exists c rest, Py.str_join "/" names = String c rest /\ Ascii.eqb c "/" = false.
Proof.
  destruct names as [|p names]; [contradiction|]. intros _ H.
  cbn in H. apply andb_prop in H as [Hp _].
  apply component_start in Hp as (c & rest & -> & Hc).
  destruct names as [|q names].
  - now exists c, rest.
  - exists c, (rest +:+ "/" +:+ Py.str_join "/" (q :: names)). now split.
Qed.

(** [os.path.abspath] of names joined with slashes, below an absolute
    working directory: the normalized working directory, then the names. *)
Lemma abspath_names (cwd : string) :
  OsPath.isabs cwd = true ->
  exists (root : string) (base : list string),
    (root = "/" \/ root = "//")
    /\ forallb Facts.component base = true
    /\ forall names,
         names <> [] -> forallb Facts.file_name names = true ->
         OsPath.abspath cwd (Py.str_join "/" names)
         = root +:+ Py.str_join "/" (base ++ names).
Proof.
  intros Habs. unfold OsPath.isabs in Habs.
  assert (Hhead : exists X,
            Py.startswith (X +:+ "/") "/" = true
            /\ forall b, Py.startswith b "/" = false ->
                 OsPath.join cwd b = (X +:+ "/") +:+ b).
  { destruct (Py.endswith cwd "/") eqn:Hend.
    - destruct (ends_with_slash cwd Hend) as [r ->]. exists r.
      split; [exact Habs|]. intros b Hb. unfold OsPath.join.
      now rewrite Hb, Hend, orb_true_r.
    - exists cwd. split; [now apply prefix_app|]. intros b Hb. unfold OsPath.join.
      rewrite Hb, Hend. destruct (String.eqb_spec cwd "") as [->|_]; [discriminate|].
      cbn [orb]. change (cwd +:+ "/" +:+ b) with (cwd +:+ ("/" +:+ b)).
      now rewrite append_assoc. }
  destruct Hhead as (X & Hstart & Hjoin).
  set (head := X +:+ "/") in *.
  set (slashes_of := fun p : string =>
         if Py.startswith p "/" then
           if Py.startswith p "//" && negb (Py.startswith p "///") then 2 else 1
         else 0).
  set (slashes := slashes_of (head +:+ "w")).
  assert (Hslashes : forall b c rest,
            b = String c rest -> Ascii.eqb c "/" = false ->
            slashes_of (head +:+ b) = slashes).
  { intros b c rest -> Hc. unfold slashes, slashes_of, Py.startswith.
    now rewrite !(prefix_of_slashes _ head (String c rest) "w")
      by (try reflexivity; try discriminate; now apply starts_without_slash). }
  assert (Hroot : slashes = 1 \/ slashes = 2).
  { unfold slashes, slashes_of, Py.startswith.
    rewrite (prefix_app "/" head "w" Hstart).
    destruct (_ && _); [now right|now left]. }
  set (base := fold_left (OsPath.norm_step slashes) (Py.split "/" X) []).
  exists (String.concat "" (repeat "/" slashes)), base.
  split; [destruct Hroot as [-> | ->]; [now left|now right]|].
  split.
  { apply norm_components; [|reflexivity]. now apply split_on_components. }
  intros names Hne Hnames.
  pose proof (file_names_components names Hnames) as Hcomps.
  destruct (str_join_start names Hne Hcomps) as (c & rest & Hb & Hc).
  unfold OsPath.abspath, OsPath.isabs.
  rewrite Hb, (starts_without_slash c rest Hc), <- Hb.
  rewrite Hjoin by (rewrite Hb; now apply starts_without_slash).
  unfold OsPath.normpath. fold (slashes_of (head +:+ Py.str_join "/" names)).
  rewrite (Hslashes _ c rest Hb Hc). cbv zeta.
  assert (Hp : String.eqb (head +:+ Py.str_join "/" names) "" = false).
  { unfold head. destruct X; reflexivity. }
  rewrite Hp.
  assert (Hsplit : Py.split "/" (head +:+ Py.str_join "/" names)
                   = Py.split "/" X ++ names).
  { unfold head. rewrite append_assoc.
    change ("/" +:+ Py.str_join "/" names) with (String "/" (Py.str_join "/" names)).
    unfold Py.split at 1. rewrite split_on_sep.
    fold (Py.split "/" X) (Py.split "/" (Py.str_join "/" names)).
    now rewrite split_str_join. }
  rewrite Hsplit, fold_left_app. fold base. rewrite norm_names by exact Hnames.
  destruct Hroot as [-> | ->]; reflexivity.
Qed.

Lemma filter_components (comps : list string) :
  forallb Facts.component comps = true -> List.filter OsPath.nonempty comps = comps.
Proof.
  induction comps as [|c comps IH]; [reflexivity|]. cbn [forallb List.filter].
  intros H. apply andb_prop in H as [Hc Hcomps]. rewrite (IH Hcomps).
  unfold Facts.component in Hc. apply andb_prop in Hc as [Hc _].
  unfold OsPath.nonempty. now rewrite Hc.
Qed.

Lemma split_normalized (root : string) (comps : list string) :
  root = "/" \/ root = "//" ->
  forallb Facts.component comps = true ->
  List.filter OsPath.nonempty (Py.split "/" (root +:+ Py.str_join "/" comps)) = comps.
Proof.
  intros Hroot Hcomps.
  assert (Hsplit : List.filter OsPath.nonempty (Py.split "/" (Py.str_join "/" comps))
                   = comps).
  { destruct comps as [|c comps]; [reflexivity|].
    rewrite split_str_join by (discriminate || assumption).
    now apply filter_components. }
  destruct Hroot as [-> | ->]; exact Hsplit.
Qed.

(** [os.path.relpath(path, "web")] for a path of plain names below an
    absolute working directory. *)
Lemma relpath_names (cwd top : string) (rest : list string) :
  OsPath.isabs cwd = true ->
  Facts.file_name top = true ->
  rest <> [] ->
  forallb Facts.file_name rest = true ->
  OsPath.relpath cwd (Py.str_join "/" (top :: rest)) "web"
  = Ok (Py.str_join "/" (if String.eqb top "web" then rest else ".." :: top :: rest)).
Proof.
  intros Habs Htop Hne Hrest.
  destruct (abspath_names cwd Habs) as (root & base & Hroot & Hbase & Habspath).
  assert (Hnames : forallb Facts.file_name (top :: rest) = true)
    by (cbn; now rewrite Htop, Hrest).
  destruct (str_join_start (top :: rest) ltac:(discriminate)
              (file_names_components _ Hnames)) as (c & tail & Hpath & _).
  unfold OsPath.relpath. rewrite Hpath. cbn [String.eqb]. rewrite <- Hpath. cbv zeta.
  rewrite (Habspath ["web"] ltac:(discriminate) eq_refl : OsPath.abspath cwd "web" = _).
  rewrite (Habspath (top :: rest) ltac:(discriminate) Hnames).
  rewrite !split_normalized
    by (try exact Hroot; rewrite forallb_app, Hbase;
        apply file_names_components; assumption || reflexivity).
  rewrite commonprefix_app.
  pose proof (file_names_components rest Hrest) as Hcomps.
  assert (Hjoin : forall a p,
            a <> "" -> Py.endswith a "/" = false ->
            forallb Facts.component p = true ->
            OsPath.join_all a p = Py.str_join "/" (a :: p)).
  { intros a p Ha Hend Hp. now apply join_names. }
  cbn [OsPath.commonprefix]. destruct (String.eqb_spec "web" top) as [<-|Hweb].
  - rewrite Nat.sub_diag. cbn [repeat app].
    change (base ++ "web" :: rest) with (base ++ ["web"] ++ rest).
    rewrite app_assoc, drop_app_length.
    destruct rest as [|a p]; [contradiction|].
    cbn in Hrest. apply andb_prop in Hrest as [Ha Hp].
    apply file_name_spec in Ha as (Ha & _ & _ & Hac).
    rewrite Hjoin; [reflexivity|exact Ha| |now apply file_names_components].
    exact (component_end "" a Hac).
  - rewrite app_nil_r, length_app. cbn [length].
    replace (length base + 1 - length base) with 1 by lia.
    rewrite drop_app_length. cbn [repeat app].
    destruct (String.eqb_spec top "web") as [->|_]; [contradiction|].
    rewrite Hjoin; [reflexivity|discriminate|reflexivity|].
    cbn [forallb]. now rewrite (proj2 (proj2 (proj2 (file_name_spec top Htop)))), Hcomps.
Qed.

Lemma path_below_names (top : string) (ds : list string) (file : string) :
  Facts.file_name top = true ->
  forallb Facts.file_name (ds ++ [file]) = true ->
  Spec.path_below top ds file = Py.str_join "/" (top :: ds ++ [file]).
Proof.
  intros Htop Hnames. apply file_name_spec in Htop as (Hne & _ & _ & Htop).
  unfold Spec.path_below.
  change (OsPath.join (fold_left OsPath.join ds top) file)
    with (fold_left OsPath.join [file] (fold_left OsPath.join ds top)).
  rewrite <- fold_left_app. apply join_names; [exact Hne| |].
  - exact (component_end "" top Htop).
  - now apply file_names_components.
Qed.

Lemma rel_path_names (cwd top : string) (ds : list string) (file : string) :
  OsPath.isabs cwd = true ->
  Facts.file_name top = true ->
  forallb Facts.file_name (ds ++ [file]) = true ->
  Pure.rel_path cwd (Spec.path_below top ds file)
  = Py.str_join "/" (if String.eqb top "web" then ds ++ [file]
                     else ".." :: top :: ds ++ [file]).
Proof.
  intros Habs Htop Hnames. rewrite path_below_names by assumption.
  unfold Pure.rel_path. rewrite relpath_names; try assumption; [reflexivity|].
  now destruct ds.
Qed.

(** X13.  The path under which a file is stored is its path below the
    asset root, with slashes.  Let the working directory be absolute and let
    the names on the way to a file be names that a directory entry can have.
    Then bundle_web_files.py lists the file [web/d1/.../file] with the
    relative path [d1/.../file].  web_bundler.py does the same when
    [--web-dir] is [web]; for any other directory name [top] it still takes
    the relative path from the literal [web] (line 32), so the file
    [top/d1/.../file] is stored under [../top/d1/.../file]. *)
Theorem stored_path_is_the_path_below_the_root (a : WebBundler.args) (w : world)
    (ds : list string) (file : string) (data : list byte) :
  OsPath.isabs (w_cwd w) = true ->
  Facts.file_name (WebBundler.web_dir a) = true ->
  forallb Facts.file_name (ds ++ [file]) = true ->
  Spec.hidden file = false ->
  In (ds, file, data) (Spec.located (w_tree w)) ->
  (exists web_files,
     BundleWebFiles.collect_web_files w = Ok web_files
     /\ In (Py.str_join "/" ("web" :: ds ++ [file]),
            Py.str_join "/" (ds ++ [file]),
            data) web_files)
  /\ In (Py.str_join "/" (WebBundler.web_dir a :: ds ++ [file]),
         Py.str_join "/" (if String.eqb (WebBundler.web_dir a) "web" then ds ++ [file]
                          else ".." :: WebBundler.web_dir a :: ds ++ [file]),
         data) (Facts.split_entries a w).
Proof.
  intros Habs Htop Hnames Hhidden Hin.
  assert (Hwalked : forall top, top <> "" ->
            In (fold_left OsPath.join ds top, file, data)
              (List.filter Pure.keep (Pure.walked top (w_tree w)))).
  { intros top Hne. apply List.filter_In. split.
    - rewrite (walked_located top (w_tree w) Hne).
      apply in_map_iff. now exists (ds, file, data).
    - unfold Pure.keep. unfold Spec.hidden in Hhidden. now rewrite Hhidden. }
  split.
  - exists (Pure.web_files (w_cwd w) (w_tree w)). split; [apply collect_combined|].
    unfold Pure.web_files. apply in_map_iff.
    exists (fold_left OsPath.join ds "web", file, data).
    split; [|apply Hwalked; discriminate].
    fold (Spec.path_below "web" ds file).
    rewrite (rel_path_names (w_cwd w) "web" ds file Habs eq_refl Hnames).
    now rewrite (path_below_names "web" ds file eq_refl Hnames).
  - rewrite split_entries_spec. apply in_map_iff.
    exists (Spec.path_below (WebBundler.web_dir a) ds file, data). cbn [fst snd]. split.
    + rewrite (rel_path_names (w_cwd w) _ ds file Habs Htop Hnames).
      now rewrite (path_below_names _ ds file Htop Hnames).
    + unfold Pure.split_web_files. apply in_map_iff.
      exists (fold_left OsPath.join ds (WebBundler.web_dir a), file, data).
      split; [reflexivity|]. apply Hwalked.
      now apply file_name_spec in Htop.
Qed.

Lemma stored_path_is_the_path_below_the_root_witness :
  (exists web_files,
     BundleWebFiles.collect_web_files Sample.two_files = Ok web_files
     /\ In (Py.str_join "/" ("web" :: ["css"] ++ ["a.css"]),
            Py.str_join "/" (["css"] ++ ["a.css"]),
            Sample.bytes "b{}") web_files)
  /\ In (Py.str_join "/" ("assets" :: ["css"] ++ ["a.css"]),
         Py.str_join "/" (".." :: "assets" :: ["css"] ++ ["a.css"]),
         Sample.bytes "b{}")
       (Facts.split_entries
          (WebBundler.Args "assets" "include/dht_hunter/web/bundle" "dht_hunter")
          Sample.two_files).
Proof.
  refine (stored_path_is_the_path_below_the_root
            (WebBundler.Args "assets" "include/dht_hunter/web/bundle" "dht_hunter")
            Sample.two_files ["css"] "a.css" (Sample.bytes "b{}")
            eq_refl eq_refl eq_refl eq_refl _).
  vm_compute. tauto.
Defined.
